(** * jspsych-datamanager: persistence adapters for jsPsych experiments

    A shallow embedding of the two data managers of the repository:

    - [Firebase]: the document-store manager (packages/firebase/src/firebase.ts),
      with its [flattenNestedArrays] transformation;
    - [Supabase]: the row-store manager (the Supabase package), whose
      [initializeExperiment] and [addTrialData] form the buffering and
      re-initialisation state machine.

    JavaScript values are a small JSON-like datatype, objects are
    association lists in property order, the remote SDKs are an abstract
    client acting on a world state, and every remote call and console
    message is recorded in a trace.  An [async] method that is awaited is
    run to completion: its result is either a resolved value or the
    rejected (thrown) value.  The per-trial callbacks call [addTrialData]
    without awaiting it: there the method runs up to its first [await]
    and what is left of its body is a suspended promise. *)

From Stdlib Require Import List String Ascii ZArith Bool Arith Lia DecimalString DecimalNat.
Import ListNotations.
Open Scope string_scope.
Open Scope list_scope.

(** ** JavaScript values *)

#[local] Set Warnings "-register-all".

Inductive value : Type :=
| VUndefined
| VNull
| VBool (b : bool)
| VNum (n : Z)
| VStr (s : string)
| VArr (elems : list value)
| VObj (props : list (string * value)).

(** An object: its own enumerable properties, in property order. *)
Definition obj : Type := list (string * value).

(** [TrialData], [ExperimentMetadata], [ExperimentData] are all objects with
    an index signature [[key: string]: any]. *)
Definition TrialData : Type := obj.

(** [o[k]] *)
Fixpoint obj_get (k : string) (o : obj) : option value :=
  match o with
  | [] => None
  | (k', v) :: o' => if String.eqb k k' then Some v else obj_get k o'
  end.

(** [o.k] as a value: [undefined] when the property is absent. *)
Definition prop (k : string) (o : obj) : value :=
  match obj_get k o with
  | Some v => v
  | None => VUndefined
  end.

(** [o[k] = v]: an existing property keeps its place, a new one goes last. *)
Fixpoint obj_set (k : string) (v : value) (o : obj) : obj :=
  match o with
  | [] => [(k, v)]
  | (k', v') :: o' =>
      if String.eqb k k' then (k', v) :: o' else (k', v') :: obj_set k v o'
  end.

(** [delete o[k]] *)
Fixpoint obj_delete (k : string) (o : obj) : obj :=
  match o with
  | [] => []
  | (k', v') :: o' =>
      if String.eqb k k' then obj_delete k o' else (k', v') :: obj_delete k o'
  end.

(** [{...a, ...b}] *)
Definition spread (a b : obj) : obj :=
  fold_left (fun acc kv => obj_set (fst kv) (snd kv) acc) b a.

(** JavaScript truthiness, as used by [if (x)]. *)
Definition truthy (v : value) : bool :=
  match v with
  | VUndefined | VNull => false
  | VBool b => b
  | VNum n => negb (Z.eqb n 0)
  | VStr s => negb (String.eqb s "")
  | VArr _ | VObj _ => true
  end.

(** [String(i)] for an array index. *)
Definition string_of_nat (i : nat) : string :=
  NilEmpty.string_of_uint (Nat.to_uint i).

(** [haystack.includes(needle)] *)
Fixpoint includes (haystack needle : string) : bool :=
  String.prefix needle haystack
  || match haystack with
     | EmptyString => false
     | String _ rest => includes rest needle
     end.

(** [arr.reduce((acc, val, i) => f acc val i, init)] *)
Fixpoint reduce_from {A B : Type} (f : B -> A -> nat -> B) (i : nat)
    (arr : list A) (acc : B) : B :=
  match arr with
  | [] => acc
  | val :: rest => reduce_from f (S i) rest (f acc val i)
  end.

Definition reduce {A B : Type} (f : B -> A -> nat -> B) (arr : list A)
    (init : B) : B :=
  reduce_from f 0 arr init.

(** ** Thrown values

    What a [catch] clause or an [{ error }] field can hold: a JavaScript
    [Error] (or subclass) or a plain error object of the backend. *)

Record Thrown : Type := mkThrown {
  instanceofError : bool;
  code : option string;
  message : string
}.

(** [new Error(msg)] *)
Definition new_Error (msg : string) : Thrown :=
  {| instanceofError := true; code := None; message := msg |}.

(** [error instanceof Error ? error.message : String(error)] *)
Definition error_text (e : Thrown) : string :=
  if instanceofError e then message e else "[object Object]".

Definition code_is (e : Thrown) (c : string) : bool :=
  match code e with
  | Some c' => String.eqb c' c
  | None => false
  end.

(** ** The remote services and the trace

    The SDK calls the two managers make.  Each call takes the world to a
    new world and yields the response the SDK hands back. *)

(** [{ data, error }] of [from(t).insert(row).select()]: [data] is [null]
    or the array of inserted rows. *)
Record InsertResponse : Type := mkInsertResponse {
  ins_data : option (list obj);
  ins_error : option Thrown
}.

(** [{ data, error }] of [from(t).select('trials').eq('id', id).single()]:
    [data] is [null] or the selected row. *)
Record SelectResponse : Type := mkSelectResponse {
  sel_data : option obj;
  sel_error : option Thrown
}.

(** A Firestore [DocumentReference]: [doc(db, collectionName, documentId)],
    or [doc(collection(db, collectionName))] (an id allocated on the client)
    when [doc_id] is [None]. *)
Record DocumentReference : Type := mkDocumentReference {
  doc_collection : string;
  doc_id : option string
}.

Record Env (W : Type) : Type := mkEnv {
  (** [new Date().toISOString()] *)
  toISOString : W -> string * W;
  (** supabase-js: [from(table).insert(row).select()] *)
  insert_select : string -> obj -> W -> InsertResponse * W;
  (** supabase-js: [from(table).update(row).eq('id', id)], its [error] *)
  update_eq_id : string -> obj -> value -> W -> option Thrown * W;
  (** supabase-js: [from(table).select('trials').eq('id', id).single()] *)
  select_trials_single : string -> value -> W -> SelectResponse * W;
  (** firestore: [setDoc(ref, data)]; [Some e] when the promise rejects *)
  setDoc : DocumentReference -> obj -> W -> option Thrown * W;
  (** firestore: [updateDoc(ref, { field: arrayUnion(elem) })] *)
  updateDoc_arrayUnion :
    DocumentReference -> string -> value -> W -> option Thrown * W
}.

Arguments toISOString {W} _ _.
Arguments insert_select {W} _ _ _ _.
Arguments update_eq_id {W} _ _ _ _ _.
Arguments select_trials_single {W} _ _ _ _.
Arguments setDoc {W} _ _ _ _.
Arguments updateDoc_arrayUnion {W} _ _ _ _ _.

Inductive level : Type := LOG | WARN | ERROR.

(** The arguments of a console call; a template literal is the sequence of
    its text chunks and interpolated values. *)
Inductive arg : Type :=
| Txt (s : string)
| Val (v : value)
| Num (n : nat)
| Thr (e : Thrown).

(** The trace holds the console calls and the remote calls, and, as an
    instrumentation that no behaviour depends on, the entry into each
    asynchronous method of a manager with its argument. *)
Inductive event : Type :=
| Invoke (method : string) (argument : obj)
| Console (l : level) (args : list arg)
| Insert (table : string) (row : obj) (r : InsertResponse)
| Update (table : string) (row : obj) (id : value) (r : option Thrown)
| SelectTrials (table : string) (id : value) (r : SelectResponse)
| SetDoc (ref : DocumentReference) (data : obj) (r : option Thrown)
| UpdateDoc (ref : DocumentReference) (field : string) (elem : value)
    (r : option Thrown).

(** ** Running a method

    The state a method runs in: the manager object [this], the world behind
    the SDK, and the trace of remote calls and console messages so far. *)

Record Sys (T W : Type) : Type := mkSys {
  self : T;
  world : W;
  trace : list event
}.

Arguments mkSys {T W} _ _ _.
Arguments self {T W} _.
Arguments world {T W} _.
Arguments trace {T W} _.

(** How a call ends: normally, or by a thrown value (a rejected promise). *)
Inductive Completion (A : Type) : Type :=
| Resolved (a : A)
| Rejected (e : Thrown).

Arguments Resolved {A} _.
Arguments Rejected {A} _.

(** A computation; [None] when the recursion budget is exhausted. *)
Definition M (T W A : Type) : Type :=
  Sys T W -> option (Completion A * Sys T W).

Section Monad.
Context {T W : Type}.

Definition ret {A} (a : A) : M T W A := fun s => Some (Resolved a, s).

Definition throw {A} (e : Thrown) : M T W A := fun s => Some (Rejected e, s).

Definition out_of_fuel {A} : M T W A := fun _ => None.

Definition bind {A B} (m : M T W A) (k : A -> M T W B) : M T W B :=
  fun s =>
    match m s with
    | None => None
    | Some (Resolved a, s') => k a s'
    | Some (Rejected e, s') => Some (Rejected e, s')
    end.

(** [try { m } catch (e) { handler e }] *)
Definition try_catch {A} (m : M T W A) (handler : Thrown -> M T W A)
    : M T W A :=
  fun s =>
    match m s with
    | None => None
    | Some (Resolved a, s') => Some (Resolved a, s')
    | Some (Rejected e, s') => handler e s'
    end.

Definition get_this : M T W T := fun s => Some (Resolved (self s), s).

Definition update_this (f : T -> T) : M T W unit :=
  fun s => Some (Resolved tt, mkSys (f (self s)) (world s) (trace s)).

Definition emit (e : event) : M T W unit :=
  fun s => Some (Resolved tt, mkSys (self s) (world s) (trace s ++ [e])).

Definition console (l : level) (args : list arg) : M T W unit :=
  emit (Console l args).

(** A remote call: the world moves on, the exchange is recorded. *)
Definition remote {R} (call : W -> R * W) (record : R -> event) : M T W R :=
  fun s =>
    let (r, w') := call (world s) in
    Some (Resolved r, mkSys (self s) w' (trace s ++ [record r])).

Definition date_now (env : Env W) : M T W string :=
  fun s =>
    let (iso, w') := toISOString env (world s) in
    Some (Resolved iso, mkSys (self s) w' (trace s)).

End Monad.

Notation "x <- c1 ;; c2" := (bind c1 (fun x => c2))
  (at level 61, c1 at next level, right associativity).
Notation "c1 ;; c2" := (bind c1 (fun _ => c2))
  (at level 61, right associativity).

(** [for (const x of xs) { body x }] *)
Fixpoint for_of {T W A} (xs : list A) (body : A -> M T W unit) : M T W unit :=
  match xs with
  | [] => ret tt
  | x :: rest => body x ;; for_of rest body
  end.

(** An object literal built from spreads and properties, left to right. *)
Definition obj_lit (parts : list obj) : obj := fold_left spread parts [].

(** ** Calls that are not awaited

    An [async] method that is called runs at once up to its first [await],
    makes the awaited call there and is suspended; the rest of its body
    runs when the promise is resumed, in the state the manager and the
    service have by then.  An exchange with the service is recorded where
    the call is made, so that requests appear in the order of the calls
    that make them.  [Settled] is the promise of a call that came to its
    end without suspending: the methods below throw nothing before their
    first [await], so a settled promise is a fulfilled one. *)
Inductive Promise (T W : Type) : Type :=
| Settled
| Suspended (rest : M T W unit).

Arguments Settled {T W}.
Arguments Suspended {T W} _.

(** [await p]: run what is left of the call. *)
Definition resume {T W} (p : Promise T W) : M T W unit :=
  match p with
  | Settled => ret tt
  | Suspended rest => rest
  end.

(** [p.catch(handler)] *)
Definition promise_catch {T W} (p : Promise T W) (handler : Thrown -> M T W unit)
    : Promise T W :=
  match p with
  | Settled => Settled
  | Suspended rest => Suspended (try_catch rest handler)
  end.

(** ** The base class [DataManager] *)

(** [s.split(sep)] for a one-character separator. *)
Fixpoint split (sep : ascii) (s : string) : list string :=
  match s with
  | EmptyString => [EmptyString]
  | String c rest =>
      if Ascii.eqb c sep then EmptyString :: split sep rest
      else match split sep rest with
           | [] => [String c EmptyString]
           | piece :: pieces => String c piece :: pieces
           end
  end.

(** The constructor of [DataManager]: the metadata are the capture date and
    time, overridden by the caller's.  The two [new Date()] are two clock
    readings; [toISOString] yields [YYYY-MM-DDTHH:MM:SS.sssZ], so both
    indexings are defined. *)
Definition DataManager_metadata (iso1 iso2 : string) (metadata : obj) : obj :=
  obj_lit
    [ [("date", VStr (nth 0 (split "T" iso1) ""));
       ("time", VStr (nth 0 (split "." (nth 1 (split "T" iso2) "")) ""))];
      metadata ].

(** ** Document-store manager *)

Module Firebase.

(** [flattenNestedArrays], firebase.ts lines 159-176.  The loop
    [for (const key in result)] replaces the value of each property of the
    copy [{ ...obj }] in place; properties of an object have distinct keys,
    so the loop is a map over the properties.  [flattenValue] is the body
    of the loop for one property value. *)
Fixpoint flattenValue (x : value) : value :=
  match x with
  | VArr elems =>
      (* Array.isArray(value): value.reduce((acc, val, i) => { acc[i] = val; return acc; }, {}) *)
      VObj (reduce (fun acc val i => obj_set (string_of_nat i) val acc) elems [])
  | VObj props =>
      (* typeof value === "object" && value !== null: this.flattenNestedArrays(value) *)
      VObj (map (fun kv => match kv with (key, v) => (key, flattenValue v) end) props)
  | _ => x
  end.

Definition flattenNestedArrays (o : obj) : obj :=
  map (fun kv => match kv with (key, v) => (key, flattenValue v) end) o.

Record FirebaseManagerOptions : Type := mkFirebaseManagerOptions {
  opt_metadata : option obj;
  collectionName : option string;
  documentId : option string
}.

Record FirebaseManager : Type := mkFirebaseManager {
  metadata : obj;
  docRef : DocumentReference;
  numberOfWrites : nat
}.

(** [s || fallback] on an optional string: the empty string is falsy. *)
Definition or_else (s : option string) (fallback : option string)
    : option string :=
  match s with
  | Some x => if String.eqb x "" then fallback else Some x
  | None => fallback
  end.

Section WithEnv.
Context {W : Type} (env : Env W).

#[local] Abbreviation M := (M FirebaseManager W).

(** The constructor, lines 58-73. *)
Definition constructor (options : FirebaseManagerOptions) (w : W)
    : Sys FirebaseManager W :=
  let (iso1, w1) := toISOString env w in
  let (iso2, w2) := toISOString env w1 in
  let md :=
    DataManager_metadata iso1 iso2
      (match opt_metadata options with Some m => m | None => [] end) in
  let name :=
    match or_else (collectionName options) (Some "experiments") with
    | Some n => n
    | None => "experiments"
    end in
  let id := or_else (documentId options) None in
  mkSys {| metadata := md;
           docRef := {| doc_collection := name; doc_id := id |};
           numberOfWrites := 0 |}
        w2 [].

Definition incr_writes : M unit :=
  update_this (fun this =>
    {| metadata := metadata this; docRef := docRef this;
       numberOfWrites := S (numberOfWrites this) |}).

(** [await p] for a promise of no value: continue, or throw its reason. *)
Definition await (r : option Thrown) : M unit :=
  match r with
  | Some e => throw e
  | None => ret tt
  end.

(** [initializeExperiment], lines 80-95. *)
Definition initializeExperiment (additionalData : obj) : M unit :=
  emit (Invoke "initializeExperiment" additionalData) ;;
  this <- get_this ;;
  let initialData :=
    obj_lit [metadata this; [("trials", VArr [])]; additionalData] in
  try_catch
    (r <- remote (setDoc env (docRef this) initialData)
                 (SetDoc (docRef this) initialData) ;;
     await r ;;
     incr_writes ;;
     console LOG [Txt "[FirebaseManager] Document successfully created!"])
    (fun error =>
       console ERROR [Txt "[FirebaseManager] Error creating document:"; Thr error] ;;
       throw (new_Error "Failed to initialize experiment document")).

(** [addTrialData], lines 102-115. *)
Definition addTrialData (trialData : TrialData) : M unit :=
  emit (Invoke "addTrialData" trialData) ;;
  this <- get_this ;;
  let flattenedData := flattenNestedArrays trialData in
  try_catch
    (r <- remote (updateDoc_arrayUnion env (docRef this) "trials" (VObj flattenedData))
                 (UpdateDoc (docRef this) "trials" (VObj flattenedData)) ;;
     await r ;;
     incr_writes ;;
     console LOG [Txt "[FirebaseManager] Added trial data:"; Val (VObj flattenedData)])
    (fun error =>
       console ERROR [Txt "[FirebaseManager] Error storing trial data:"; Thr error] ;;
       throw (new_Error "Failed to store trial data")).

(** [getNumberOfOperations], lines 121-123. *)
Definition getNumberOfOperations : M nat :=
  this <- get_this ;;
  ret (numberOfWrites this).

(** [addTrialData] called and not awaited: lines 103-106 run at once, up
    to the [await] of line 106, where [updateDoc] is called; lines 109-114
    are left for the resumption. *)
Definition addTrialData_start (trialData : TrialData)
    : M (Promise FirebaseManager W) :=
  emit (Invoke "addTrialData" trialData) ;;
  this <- get_this ;;
  let flattenedData := flattenNestedArrays trialData in
  r <- remote (updateDoc_arrayUnion env (docRef this) "trials" (VObj flattenedData))
              (UpdateDoc (docRef this) "trials" (VObj flattenedData)) ;;
  ret (Suspended
         (try_catch
            (await r ;;
             incr_writes ;;
             console LOG [Txt "[FirebaseManager] Added trial data:"; Val (VObj flattenedData)])
            (fun error =>
               console ERROR [Txt "[FirebaseManager] Error storing trial data:"; Thr error] ;;
               throw (new_Error "Failed to store trial data")))).

(** [this.addTrialData(data).catch(error => console.error(...))], lines
    136-138: the promise that the callback starts. *)
Definition upload_promise (data : TrialData) : M (Promise FirebaseManager W) :=
  p <- addTrialData_start data ;;
  ret (promise_catch p
         (fun error =>
            console ERROR [Txt "[FirebaseManager] Error in data update callback:";
                           Thr error])).

(** The function returned by [createDataUpdateCallback], lines 129-142.
    The object [data] is mutated in place and returned, so the result is
    the object after the [delete].  The promise of [addTrialData] is
    started and dropped: the callback returns [data] without awaiting
    it. *)
Definition createDataUpdateCallback (data : TrialData) : M TrialData :=
  if truthy (prop "no_upload" data) then
    (* delete data.no_upload; return data; *)
    ret (obj_delete "no_upload" data)
  else
    upload_promise data ;;
    ret data.

(** The function returned by [createFinishCallback], lines 148-152. *)
Definition createFinishCallback : M unit :=
  n <- getNumberOfOperations ;;
  console LOG [Txt "[FirebaseManager] Total writes to Firestore:"; Num n].

End WithEnv.

End Firebase.


(** ** Row-store manager *)

Module Supabase.

Record SupabaseManagerOptions : Type := mkSupabaseManagerOptions {
  opt_metadata : option obj;
  opt_tableName : option string;
  opt_rowId : option string
}.

Record SupabaseManager : Type := mkSupabaseManager {
  metadata : obj;
  tableName : string;
  rowId : value;
  numberOfOperations : nat;
  initialized : bool;
  pendingTrials : list TrialData
}.

Definition set_rowId (id : value) (this : SupabaseManager) : SupabaseManager :=
  {| metadata := metadata this; tableName := tableName this; rowId := id;
     numberOfOperations := numberOfOperations this;
     initialized := initialized this; pendingTrials := pendingTrials this |}.

Definition set_initialized (b : bool) (this : SupabaseManager) : SupabaseManager :=
  {| metadata := metadata this; tableName := tableName this; rowId := rowId this;
     numberOfOperations := numberOfOperations this;
     initialized := b; pendingTrials := pendingTrials this |}.

Definition set_pendingTrials (q : list TrialData) (this : SupabaseManager)
    : SupabaseManager :=
  {| metadata := metadata this; tableName := tableName this; rowId := rowId this;
     numberOfOperations := numberOfOperations this;
     initialized := initialized this; pendingTrials := q |}.

(** [this.pendingTrials.push(trialData)] *)
Definition push_pending (trialData : TrialData) (this : SupabaseManager)
    : SupabaseManager :=
  set_pendingTrials (pendingTrials this ++ [trialData]) this.

(** [this.numberOfOperations++] *)
Definition incr_operations (this : SupabaseManager) : SupabaseManager :=
  {| metadata := metadata this; tableName := tableName this; rowId := rowId this;
     numberOfOperations := S (numberOfOperations this);
     initialized := initialized this; pendingTrials := pendingTrials this |}.

(** [data && data.length > 0 && data[0].id], as the identifier to store
    when the test passes. *)
Definition first_row_id (data : option (list obj)) : option value :=
  match data with
  | Some (row :: _) =>
      if truthy (prop "id" row) then Some (prop "id" row) else None
  | _ => None
  end.

(** [[...(currentData?.trials || []), trialData]]; [None] when the spread
    throws because the truthy column value is not iterable. *)
Definition updatedTrials (currentData : option obj) (trialData : TrialData)
    : option (list value) :=
  let column :=
    match currentData with
    | Some row => prop "trials" row
    | None => VUndefined
    end in
  if truthy column then
    match column with
    | VArr elems => Some (elems ++ [VObj trialData])
    | VStr s =>
        Some (map (fun c => VStr (String c EmptyString)) (list_ascii_of_string s)
              ++ [VObj trialData])
    | _ => None
    end
  else Some [VObj trialData].

(** The [TypeError] of spreading a value that is not iterable. *)
Definition not_iterable : Thrown :=
  {| instanceofError := true; code := None;
     message := "object is not iterable" |}.

(** The condition of [handleRlsError], lines 293-294. *)
Definition is_rls_violation (error : Thrown) : bool :=
  code_is error "42501"
  && includes (message error) "violates row-level security policy".

(** The condition of the recovery in the [catch] of [addTrialData],
    line 225. *)
Definition says_not_found (error : Thrown) : bool :=
  instanceofError error && includes (message error) "not found".

Section WithEnv.
Context {W : Type} (env : Env W).

#[local] Abbreviation M := (M SupabaseManager W).

(** The constructor, lines 58-73: a truthy [options.rowId] marks the
    manager as initialised; no remote call is made. *)
Definition constructor (options : SupabaseManagerOptions) (w : W)
    : Sys SupabaseManager W :=
  let (iso1, w1) := toISOString env w in
  let (iso2, w2) := toISOString env w1 in
  let md :=
    DataManager_metadata iso1 iso2
      (match opt_metadata options with Some m => m | None => [] end) in
  let name :=
    match opt_tableName options with
    | Some n => if String.eqb n "" then "experiments" else n
    | None => "experiments"
    end in
  let id :=
    match opt_rowId options with
    | Some i => VStr i
    | None => VUndefined
    end in
  if truthy id then
    mkSys {| metadata := md; tableName := name; rowId := id;
             numberOfOperations := 0; initialized := true;
             pendingTrials := [] |}
          w2
          [Console LOG [Txt "[SupabaseManager] Using provided row ID: "; Val id]]
  else
    mkSys {| metadata := md; tableName := name; rowId := id;
             numberOfOperations := 0; initialized := false;
             pendingTrials := [] |}
          w2 [].

(** [handleRlsError], lines 293-323: diagnostic only.  The console text is
    the guidance on row-level-security policies for the table, of which
    the heading and the table name are kept. *)
Definition handleRlsError (error : Thrown) : M unit :=
  if is_rls_violation error then
    this <- get_this ;;
    console ERROR [Txt "ROW LEVEL SECURITY POLICY VIOLATION DETECTED";
                   Txt (tableName this)]
  else ret tt.

(** The [catch] block of [addTrialData], lines 221-235, with the call
    [this.initializeExperiment()] it may make as [reinitialize]. *)
Definition on_store_failure (reinitialize : M unit) (trialData : TrialData)
    (error : Thrown) : M unit :=
  console ERROR [Txt "[SupabaseManager] Error storing trial data:"; Thr error] ;;
  if says_not_found error then
    console LOG
      [Txt "[SupabaseManager] Row not found, attempting to reinitialize..."] ;;
    update_this (set_initialized false) ;;
    update_this (set_rowId VUndefined) ;;
    update_this (push_pending trialData) ;;
    reinitialize
  else
    throw (new_Error
             ("Failed to store trial data: " ++ error_text error)%string).

(** [initializeExperiment], lines 80-153, and [addTrialData], lines
    160-236.  Each calls the other, so both descend on a budget [fuel] of
    nested calls. *)
Fixpoint initializeExperiment (fuel : nat) (additionalData : obj) {struct fuel}
    : M unit :=
  match fuel with
  | O => out_of_fuel
  | S fuel' =>
    emit (Invoke "initializeExperiment" additionalData) ;;
    try_catch
      (this <- get_this ;;
       if initialized this && truthy (rowId this) then
         console LOG [Txt "[SupabaseManager] Updating existing row with ID: ";
                      Val (rowId this)] ;;
         now <- date_now env ;;
         let initialData :=
           obj_lit [metadata this; additionalData; [("updated_at", VStr now)]] in
         error <- remote (update_eq_id env (tableName this) initialData (rowId this))
                         (Update (tableName this) initialData (rowId this)) ;;
         match error with
         | Some error =>
             handleRlsError error ;;
             throw error
         | None =>
             update_this incr_operations ;;
             console LOG [Txt "[SupabaseManager] Data successfully updated!"]
         end
       else
         let initialData :=
           obj_lit [metadata this; [("trials", VArr [])]; additionalData] in
         r <- remote (insert_select env (tableName this) initialData)
                     (Insert (tableName this) initialData) ;;
         match ins_error r with
         | Some error =>
             handleRlsError error ;;
             throw error
         | None =>
             match first_row_id (ins_data r) with
             | Some id =>
                 update_this (set_rowId id) ;;
                 update_this (set_initialized true) ;;
                 console LOG [Txt "[SupabaseManager] Row created with ID: "; Val id] ;;
                 this <- get_this ;;
                 (if Nat.ltb 0 (List.length (pendingTrials this)) then
                    console LOG [Txt "[SupabaseManager] Processing ";
                                 Num (List.length (pendingTrials this));
                                 Txt " pending trials..."] ;;
                    let trials := pendingTrials this in
                    update_this (set_pendingTrials []) ;;
                    for_of trials (fun trial =>
                      try_catch (addTrialData fuel' trial)
                        (fun e =>
                           console ERROR
                             [Txt "[SupabaseManager] Error processing pending trial:";
                              Thr e]))
                  else ret tt) ;;
                 update_this incr_operations ;;
                 console LOG [Txt "[SupabaseManager] Data successfully initialized!"]
             | None =>
                 console ERROR
                   [Txt "[SupabaseManager] No row ID returned from insert operation"] ;;
                 throw (new_Error "Failed to get row ID from insert operation")
             end
         end)
      (fun error =>
         console ERROR [Txt "[SupabaseManager] Error initializing data:"; Thr error] ;;
         throw (new_Error
                  ("Failed to initialize experiment data: " ++ error_text error)%string))
  end

with addTrialData (fuel : nat) (trialData : TrialData) {struct fuel} : M unit :=
  match fuel with
  | O => out_of_fuel
  | S fuel' =>
    emit (Invoke "addTrialData" trialData) ;;
    this <- get_this ;;
    if negb (initialized this) then
      console LOG
        [Txt "[SupabaseManager] Not initialized yet, storing trial for later processing"] ;;
      update_this (push_pending trialData)
    else if negb (truthy (rowId this)) then
      console LOG
        [Txt "[SupabaseManager] No row ID available, storing trial for later processing"] ;;
      update_this (push_pending trialData) ;;
      update_this (set_initialized false) ;;
      initializeExperiment fuel' []
    else
      try_catch
        (r <- remote (select_trials_single env (tableName this) (rowId this))
                     (SelectTrials (tableName this) (rowId this)) ;;
         match sel_error r with
         | Some fetchError =>
             console ERROR [Txt "[SupabaseManager] Error fetching current data:";
                            Thr fetchError] ;;
             handleRlsError fetchError ;;
             if code_is fetchError "PGRST116" then
               console LOG
                 [Txt "[SupabaseManager] Row not found, attempting to reinitialize..."] ;;
               update_this (set_initialized false) ;;
               update_this (set_rowId VUndefined) ;;
               update_this (push_pending trialData) ;;
               initializeExperiment fuel' []
             else throw fetchError
         | None =>
             match updatedTrials (sel_data r) trialData with
             | None => throw not_iterable
             | Some updated =>
                 now <- date_now env ;;
                 let row := [("trials", VArr updated); ("updated_at", VStr now)] in
                 updateError <-
                   remote (update_eq_id env (tableName this) row (rowId this))
                          (Update (tableName this) row (rowId this)) ;;
                 match updateError with
                 | Some updateError =>
                     console ERROR [Txt "[SupabaseManager] Error updating data:";
                                    Thr updateError] ;;
                     handleRlsError updateError ;;
                     throw updateError
                 | None =>
                     update_this incr_operations ;;
                     console LOG [Txt "[SupabaseManager] Added trial data:";
                                  Val (VObj trialData)]
                 end
             end
         end)
        (on_store_failure (initializeExperiment fuel' []) trialData)
  end.

(** [getNumberOfOperations], lines 242-244. *)
Definition getNumberOfOperations : M nat :=
  this <- get_this ;;
  ret (numberOfOperations this).

(** [initializeExperiment] called and not awaited: it runs at once up to
    its first [await], line 91 on a ready manager and line 113 otherwise,
    where the update or the insert is made; what follows the reply is left
    for the resumption.  [fuel] is the budget of nested calls, as above. *)
Definition initializeExperiment_start (fuel : nat) (additionalData : obj)
    : M (Promise SupabaseManager W) :=
  match fuel with
  | O => out_of_fuel
  | S fuel' =>
    emit (Invoke "initializeExperiment" additionalData) ;;
    this <- get_this ;;
    let handler := fun error =>
      console ERROR [Txt "[SupabaseManager] Error initializing data:"; Thr error] ;;
      throw (new_Error
               ("Failed to initialize experiment data: " ++ error_text error)%string) in
    if initialized this && truthy (rowId this) then
      console LOG [Txt "[SupabaseManager] Updating existing row with ID: ";
                   Val (rowId this)] ;;
      now <- date_now env ;;
      let initialData :=
        obj_lit [metadata this; additionalData; [("updated_at", VStr now)]] in
      error <- remote (update_eq_id env (tableName this) initialData (rowId this))
                      (Update (tableName this) initialData (rowId this)) ;;
      ret (Suspended
             (try_catch
                match error with
                | Some error =>
                    handleRlsError error ;;
                    throw error
                | None =>
                    update_this incr_operations ;;
                    console LOG [Txt "[SupabaseManager] Data successfully updated!"]
                end
                handler))
    else
      let initialData :=
        obj_lit [metadata this; [("trials", VArr [])]; additionalData] in
      r <- remote (insert_select env (tableName this) initialData)
                  (Insert (tableName this) initialData) ;;
      ret (Suspended
             (try_catch
                match ins_error r with
                | Some error =>
                    handleRlsError error ;;
                    throw error
                | None =>
                    match first_row_id (ins_data r) with
                    | Some id =>
                        update_this (set_rowId id) ;;
                        update_this (set_initialized true) ;;
                        console LOG [Txt "[SupabaseManager] Row created with ID: "; Val id] ;;
                        this <- get_this ;;
                        (if Nat.ltb 0 (List.length (pendingTrials this)) then
                           console LOG [Txt "[SupabaseManager] Processing ";
                                        Num (List.length (pendingTrials this));
                                        Txt " pending trials..."] ;;
                           let trials := pendingTrials this in
                           update_this (set_pendingTrials []) ;;
                           for_of trials (fun trial =>
                             try_catch (addTrialData fuel' trial)
                               (fun e =>
                                  console ERROR
                                    [Txt "[SupabaseManager] Error processing pending trial:";
                                     Thr e]))
                         else ret tt) ;;
                        update_this incr_operations ;;
                        console LOG [Txt "[SupabaseManager] Data successfully initialized!"]
                    | None =>
                        console ERROR
                          [Txt "[SupabaseManager] No row ID returned from insert operation"] ;;
                        throw (new_Error "Failed to get row ID from insert operation")
                    end
                end
                handler))
  end.

(** [addTrialData] called and not awaited.  On a manager that is not
    initialised it queues the trial and is done, lines 162-166.  On a ready
    manager it runs up to the [await] of line 178, where the fetch is made;
    lines 184-235 are left for the resumption, which reads [this.tableName]
    and [this.rowId] again for its update (line 211).  In the branch of
    lines 168-174 the first [await] is the one inside the
    [initializeExperiment] it calls. *)
Definition addTrialData_start (fuel : nat) (trialData : TrialData)
    : M (Promise SupabaseManager W) :=
  match fuel with
  | O => out_of_fuel
  | S fuel' =>
    emit (Invoke "addTrialData" trialData) ;;
    this <- get_this ;;
    if negb (initialized this) then
      console LOG
        [Txt "[SupabaseManager] Not initialized yet, storing trial for later processing"] ;;
      update_this (push_pending trialData) ;;
      ret Settled
    else if negb (truthy (rowId this)) then
      console LOG
        [Txt "[SupabaseManager] No row ID available, storing trial for later processing"] ;;
      update_this (push_pending trialData) ;;
      update_this (set_initialized false) ;;
      initializeExperiment_start fuel' []
    else
      r <- remote (select_trials_single env (tableName this) (rowId this))
                  (SelectTrials (tableName this) (rowId this)) ;;
      ret (Suspended
             (try_catch
                match sel_error r with
                | Some fetchError =>
                    console ERROR [Txt "[SupabaseManager] Error fetching current data:";
                                   Thr fetchError] ;;
                    handleRlsError fetchError ;;
                    if code_is fetchError "PGRST116" then
                      console LOG
                        [Txt "[SupabaseManager] Row not found, attempting to reinitialize..."] ;;
                      update_this (set_initialized false) ;;
                      update_this (set_rowId VUndefined) ;;
                      update_this (push_pending trialData) ;;
                      initializeExperiment fuel' []
                    else throw fetchError
                | None =>
                    match updatedTrials (sel_data r) trialData with
                    | None => throw not_iterable
                    | Some updated =>
                        now <- date_now env ;;
                        let row := [("trials", VArr updated); ("updated_at", VStr now)] in
                        this <- get_this ;;
                        updateError <-
                          remote (update_eq_id env (tableName this) row (rowId this))
                                 (Update (tableName this) row (rowId this)) ;;
                        match updateError with
                        | Some updateError =>
                            console ERROR [Txt "[SupabaseManager] Error updating data:";
                                           Thr updateError] ;;
                            handleRlsError updateError ;;
                            throw updateError
                        | None =>
                            update_this incr_operations ;;
                            console LOG [Txt "[SupabaseManager] Added trial data:";
                                         Val (VObj trialData)]
                        end
                    end
                end
                (on_store_failure (initializeExperiment fuel' []) trialData)))
  end.

(** [this.addTrialData(data).catch(error => console.error(...))], lines
    257-259: the promise that the callback starts. *)
Definition upload_promise (fuel : nat) (data : TrialData)
    : M (Promise SupabaseManager W) :=
  p <- addTrialData_start fuel data ;;
  ret (promise_catch p
         (fun error =>
            console ERROR [Txt "[SupabaseManager] Error in data update callback:";
                           Thr error])).

(** The function returned by [createDataUpdateCallback], lines 250-263.
    As for the document store, [data] is mutated in place, and the promise
    of [addTrialData] is started and dropped: the callback returns [data]
    without awaiting it. *)
Definition createDataUpdateCallback (fuel : nat) (data : TrialData)
    : M TrialData :=
  if truthy (prop "no_upload" data) then
    (* delete data.no_upload; return data; *)
    ret (obj_delete "no_upload" data)
  else
    upload_promise fuel data ;;
    ret data.

(** The function returned by [createFinishCallback], lines 269-278. *)
Definition createFinishCallback : M unit :=
  n <- getNumberOfOperations ;;
  console LOG [Txt "[SupabaseManager] Total operations performed:"; Num n] ;;
  this <- get_this ;;
  if Nat.ltb 0 (List.length (pendingTrials this)) then
    console WARN [Txt "[SupabaseManager] Warning: ";
                  Num (List.length (pendingTrials this));
                  Txt " trials were not processed"]
  else ret tt.

(** [isInitialized], lines 284-286. *)
Definition isInitialized : M bool :=
  this <- get_this ;;
  ret (initialized this && truthy (rowId this)).

End WithEnv.

End Supabase.

(** ** Reading a trace *)

Definition is_remote (e : event) : bool :=
  match e with
  | Invoke _ _ | Console _ _ => false
  | _ => true
  end.

(** The remote calls of a trace, in order. *)
Definition remote_calls (tr : list event) : list event := filter is_remote tr.

(** The trials handed to [addTrialData], in order. *)
Fixpoint calls_addTrialData (tr : list event) : list TrialData :=
  match tr with
  | [] => []
  | Invoke method argument :: rest =>
      if String.eqb method "addTrialData"
      then argument :: calls_addTrialData rest
      else calls_addTrialData rest
  | _ :: rest => calls_addTrialData rest
  end.

Definition is_insert (e : event) : bool :=
  match e with Insert _ _ _ => true | _ => false end.

Definition is_update (e : event) : bool :=
  match e with Update _ _ _ _ => true | _ => false end.

Definition is_select (e : event) : bool :=
  match e with SelectTrials _ _ _ => true | _ => false end.

(** A write that the row-store manager counts: an insert that came back
    without error and with a row identifier, or an update that came back
    without error. *)
Definition is_completed_write (e : event) : bool :=
  match e with
  | Insert _ _ r =>
      match ins_error r, Supabase.first_row_id (ins_data r) with
      | None, Some _ => true
      | _, _ => false
      end
  | Update _ _ _ None => true
  | _ => false
  end.

Definition completed_writes (tr : list event) : nat :=
  List.length (filter is_completed_write tr).

(** The trials written back by updates of the [trials] column that came
    back without error: for each, the last element of the written array. *)
Fixpoint persisted (tr : list event) : list value :=
  match tr with
  | [] => []
  | Update _ row _ None :: rest =>
      match obj_get "trials" row with
      | Some (VArr elems) => last elems VUndefined :: persisted rest
      | _ => persisted rest
      end
  | _ :: rest => persisted rest
  end.

(** The drain's console errors, one per drained entry that failed. *)
Definition is_drain_error (e : event) : bool :=
  match e with
  | Console ERROR [Txt t; Thr _] =>
      String.eqb t "[SupabaseManager] Error processing pending trial:"
  | _ => false
  end.

(** The finish callback's warning about [n] unprocessed trials. *)
Definition unprocessed_warning (n : nat) : event :=
  Console WARN [Txt "[SupabaseManager] Warning: "; Num n;
                Txt " trials were not processed"].

(** ** Environments *)

(** No remote service reports a missing row: no fetch error carries the
    code [PGRST116], and no fetch or update error is an [Error] whose
    message contains [not found]. *)
Definition no_row_missing {W} (env : Env W) : Prop :=
  (forall table id w e,
      sel_error (fst (select_trials_single env table id w)) = Some e ->
      code_is e "PGRST116" = false /\ Supabase.says_not_found e = false)
  /\ (forall table row id w e,
      fst (update_eq_id env table row id w) = Some e ->
      Supabase.says_not_found e = false).

(** Every insert yields a row identifier, every fetch yields a row whose
    [trials] column can be spread, every update is accepted. *)
Definition accepts_all {W} (env : Env W) : Prop :=
  (forall table row w,
      ins_error (fst (insert_select env table row w)) = None
      /\ Supabase.first_row_id (ins_data (fst (insert_select env table row w))) <> None)
  /\ (forall table id w,
      sel_error (fst (select_trials_single env table id w)) = None
      /\ forall t,
         Supabase.updatedTrials
           (sel_data (fst (select_trials_single env table id w))) t <> None)
  /\ (forall table row id w, fst (update_eq_id env table row id w) = None).

(** *** A scripted service

    The world is the list of replies still to come; a call takes the head
    reply when it is of its kind and is otherwise refused. *)
Module Scripted.

Inductive Reply : Type :=
| OnInsert (r : InsertResponse)
| OnUpdate (r : option Thrown)
| OnSelect (r : SelectResponse)
| OnSetDoc (r : option Thrown)
| OnUpdateDoc (r : option Thrown).

Definition refused : Thrown :=
  {| instanceofError := false; code := Some "503";
     message := "service unavailable" |}.

Definition env : Env (list Reply) :=
  {| toISOString := fun w => ("2024-01-02T03:04:05.678Z", w);
     insert_select := fun _ _ w =>
       match w with
       | OnInsert r :: w' => (r, w')
       | _ => ({| ins_data := None; ins_error := Some refused |}, tl w)
       end;
     update_eq_id := fun _ _ _ w =>
       match w with
       | OnUpdate r :: w' => (r, w')
       | _ => (Some refused, tl w)
       end;
     select_trials_single := fun _ _ w =>
       match w with
       | OnSelect r :: w' => (r, w')
       | _ => ({| sel_data := None; sel_error := Some refused |}, tl w)
       end;
     setDoc := fun _ _ w =>
       match w with
       | OnSetDoc r :: w' => (r, w')
       | _ => (Some refused, tl w)
       end;
     updateDoc_arrayUnion := fun _ _ _ w =>
       match w with
       | OnUpdateDoc r :: w' => (r, w')
       | _ => (Some refused, tl w)
       end |}.

(** Replies used in the examples. *)
Definition inserted (id : string) : Reply :=
  OnInsert {| ins_data := Some [[("id", VStr id)]]; ins_error := None |}.

Definition fetched (trials : list value) : Reply :=
  OnSelect {| sel_data := Some [("trials", VArr trials)]; sel_error := None |}.

Definition row_not_found : Thrown :=
  {| instanceofError := false; code := Some "PGRST116";
     message := "JSON object requested, multiple (or no) rows returned" |}.

Definition server_error : Thrown :=
  {| instanceofError := false; code := Some "500";
     message := "internal server error" |}.

End Scripted.

(** *** A service that accepts everything

    Inserts are numbered, fetches find no trials yet, updates are
    accepted; the world counts the inserts. *)
Module Accepting.

Definition env : Env nat :=
  {| toISOString := fun w => ("2024-01-02T03:04:05.678Z", w);
     insert_select := fun _ row w =>
       ({| ins_data := Some [obj_set "id" (VStr ("row-" ++ string_of_nat w)%string) row];
           ins_error := None |}, S w);
     update_eq_id := fun _ _ _ w => (None, w);
     select_trials_single := fun _ _ w =>
       ({| sel_data := Some [("trials", VNull)]; sel_error := None |}, w);
     setDoc := fun _ _ w => (None, w);
     updateDoc_arrayUnion := fun _ _ _ w => (None, w) |}.

End Accepting.

(** A manager without a fixed row identifier, as constructed with the
    default options. *)
Definition default_options : Supabase.SupabaseManagerOptions :=
  {| Supabase.opt_metadata := None; Supabase.opt_tableName := None;
     Supabase.opt_rowId := None |}.

Definition trial_t1 : TrialData := [("trial_type", VStr "t1")].
Definition trial_t2 : TrialData := [("trial_type", VStr "t2")].
Definition trial_t3 : TrialData := [("trial_type", VStr "t3")].

(** [for (const t of ts) await manager.addTrialData(t)] from the caller. *)
Definition add_all {W} (env : Env W) (fuel : nat) (ts : list TrialData)
    : M Supabase.SupabaseManager W unit :=
  for_of ts (Supabase.addTrialData env fuel).

Definition is_resolved {A} (c : Completion A) : bool :=
  match c with
  | Resolved _ => true
  | Rejected _ => false
  end.

(** [n] more completed operations on a manager. *)
Definition add_operations (n : nat) (this : Supabase.SupabaseManager)
    : Supabase.SupabaseManager :=
  {| Supabase.metadata := Supabase.metadata this;
     Supabase.tableName := Supabase.tableName this;
     Supabase.rowId := Supabase.rowId this;
     Supabase.numberOfOperations := Supabase.numberOfOperations this + n;
     Supabase.initialized := Supabase.initialized this;
     Supabase.pendingTrials := Supabase.pendingTrials this |}.

(** What queueing the trials [ts] writes to the console. *)
Definition queue_log (ts : list TrialData) : list event :=
  flat_map (fun t =>
    [Invoke "addTrialData" t;
     Console LOG
       [Txt "[SupabaseManager] Not initialized yet, storing trial for later processing"]])
    ts.

(** The body of the drain loop of [initializeExperiment], lines 136-140. *)
Definition drain_one {W} (env : Env W) (fuel : nat) (trial : TrialData)
    : M Supabase.SupabaseManager W unit :=
  try_catch (Supabase.addTrialData env fuel trial)
    (fun e =>
       console ERROR
         [Txt "[SupabaseManager] Error processing pending trial:"; Thr e]).

(** A value that is neither an array nor an object. *)
Definition is_primitive (v : value) : bool :=
  match v with
  | VArr _ | VObj _ => false
  | _ => true
  end.

(** The manager after a successful insert that returned [id] and a drain
    that completed [n] updates. *)
Definition after_insert (id : value) (n : nat) (m : Supabase.SupabaseManager)
    : Supabase.SupabaseManager :=
  add_operations (S n)
    (Supabase.set_pendingTrials []
       (Supabase.set_initialized true (Supabase.set_rowId id m))).

(** [accounted s s']: from [s] to [s'] the trace has grown by some events
    and the operation count by the number of completed writes among them. *)
Definition accounted {W} (s s' : Sys Supabase.SupabaseManager W) : Prop :=
  exists d,
    trace s' = trace s ++ d
    /\ Supabase.numberOfOperations (self s')
       = Supabase.numberOfOperations (self s) + completed_writes d.

(** The kind of each remote call of a trace, in order. *)
Inductive call_kind : Type := KInsert | KUpdate | KSelect | KSetDoc | KUpdateDoc.

Fixpoint kinds (tr : list event) : list call_kind :=
  match tr with
  | [] => []
  | Insert _ _ _ :: rest => KInsert :: kinds rest
  | Update _ _ _ _ :: rest => KUpdate :: kinds rest
  | SelectTrials _ _ _ :: rest => KSelect :: kinds rest
  | SetDoc _ _ _ :: rest => KSetDoc :: kinds rest
  | UpdateDoc _ _ _ _ :: rest => KUpdateDoc :: kinds rest
  | _ :: rest => kinds rest
  end.

Definition is_warning (e : event) : bool :=
  match e with
  | Console WARN _ => true
  | _ => false
  end.

(** What [initializeExperiment] throws when its insert fails with [error]
    or returns no row identifier. *)
Definition insert_failure (r : InsertResponse) : Thrown :=
  new_Error
    ("Failed to initialize experiment data: "
     ++ error_text
          match ins_error r with
          | Some error => error
          | None => new_Error "Failed to get row ID from insert operation"
          end)%string.

(** *** A service with scripted faults

    The world is a script with one item for each attempt to add a trial:
    [FetchFails] makes the next fetch fail, [UpdateFails] lets the fetch
    pass and makes the update fail, [Works] lets both pass.  Failures are
    server errors, never a missing row; inserts are accepted, and so is
    everything once the script is used up. *)
Module Faulty.

Inductive Fault : Type := FetchFails | UpdateFails | Works.

Definition env : Env (list Fault) :=
  {| toISOString := fun w => ("2024-01-02T03:04:05.678Z", w);
     insert_select := fun _ row w =>
       ({| ins_data := Some [obj_set "id" (VStr "row-1") row];
           ins_error := None |}, w);
     update_eq_id := fun _ _ _ w =>
       match w with
       | UpdateFails :: w' => (Some Scripted.server_error, w')
       | _ => (None, tl w)
       end;
     select_trials_single := fun _ _ w =>
       match w with
       | FetchFails :: w' =>
           ({| sel_data := None; sel_error := Some Scripted.server_error |}, w')
       | _ => ({| sel_data := Some [("trials", VNull)]; sel_error := None |}, w)
       end;
     setDoc := fun _ _ w => (None, w);
     updateDoc_arrayUnion := fun _ _ _ w => (None, w) |}.

End Faulty.

(** *** The drain, entry by entry *)

(** What the service does with one entry handed to the trial-add path of
    a ready manager: whether the fetch comes back without error, with a
    column that can be spread, and the update then comes back without
    error; and the world after these calls. *)
Definition drained_entry {W} (env : Env W) (table : string) (id : value)
    (t : TrialData) (w : W) : bool * W :=
  let (r, w1) := select_trials_single env table id w in
  match sel_error r with
  | Some _ => (false, w1)
  | None =>
      match Supabase.updatedTrials (sel_data r) t with
      | None => (false, w1)
      | Some updated =>
          let (now, w2) := toISOString env w1 in
          let (error, w3) :=
            update_eq_id env table
              [("trials", VArr updated); ("updated_at", VStr now)] id w2 in
          (match error with None => true | Some _ => false end, w3)
      end
  end.

(** The entries of a queue, in order, each with whether the service
    accepted its fetch and its update. *)
Fixpoint drained {W} (env : Env W) (table : string) (id : value)
    (ts : list TrialData) (w : W) : list (TrialData * bool) :=
  match ts with
  | [] => []
  | t :: rest =>
      let (ok, w') := drained_entry env table id t w in
      (t, ok) :: drained env table id rest w'
  end.

Definition accepted_entries (outcome : list (TrialData * bool)) : list TrialData :=
  map fst (filter snd outcome).

Definition failed_entries (outcome : list (TrialData * bool)) : list TrialData :=
  map fst (filter (fun entry => negb (snd entry)) outcome).

(** The state in which the drain of [initializeExperiment] starts, lines
    123-134: the insert has returned [r] with the row identifier [id], the
    manager is ready, the queue has been copied and emptied. *)
Definition drain_start {W} (additionalData : obj) (r : InsertResponse)
    (id : value) (w1 : W) (s : Sys Supabase.SupabaseManager W)
    : Sys Supabase.SupabaseManager W :=
  let this := self s in
  mkSys (Supabase.set_pendingTrials []
           (Supabase.set_initialized true (Supabase.set_rowId id this)))
        w1
        (trace s
         ++ [Invoke "initializeExperiment" additionalData;
             Insert (Supabase.tableName this)
               (obj_lit [Supabase.metadata this; [("trials", VArr [])];
                         additionalData]) r;
             Console LOG [Txt "[SupabaseManager] Row created with ID: "; Val id]]
         ++ (if Nat.ltb 0 (List.length (Supabase.pendingTrials this))
             then [Console LOG [Txt "[SupabaseManager] Processing ";
                                Num (List.length (Supabase.pendingTrials this));
                                Txt " pending trials..."]]
             else [])).

(** The state after the [catch] of the drain loop, line 137, for an entry
    whose attempt ended with [c] in state [s]: a failure is logged and
    nothing else changes. *)
Definition drain_caught {W} (c : Completion unit)
    (s : Sys Supabase.SupabaseManager W) : Sys Supabase.SupabaseManager W :=
  match c with
  | Resolved _ => s
  | Rejected e =>
      mkSys (self s) (world s)
            (trace s
             ++ [Console ERROR
                   [Txt "[SupabaseManager] Error processing pending trial:"; Thr e]])
  end.

(** The end of [initializeExperiment] after the drain, lines 147-148. *)
Definition drain_end {W} (s : Sys Supabase.SupabaseManager W)
    : Sys Supabase.SupabaseManager W :=
  mkSys (Supabase.incr_operations (self s)) (world s)
        (trace s
         ++ [Console LOG [Txt "[SupabaseManager] Data successfully initialized!"]]).

(** ** Further definitions used by the properties *)

(** [getMetadata] of [DataManager], lines 433-435: a copy of the metadata. *)
Definition DataManager_getMetadata (metadata : obj) : obj := obj_lit [metadata].

(** A value with no array in it, at any depth. *)
Fixpoint array_free (v : value) : bool :=
  match v with
  | VArr _ => false
  | VObj props =>
      forallb (fun kv => match kv with (_, x) => array_free x end) props
  | _ => true
  end.

(** The largest number of arrays met on a way down into a value. *)
Fixpoint array_depth (v : value) : nat :=
  match v with
  | VArr elems => S (list_max (map array_depth elems))
  | VObj props =>
      list_max (map (fun kv => match kv with (_, x) => array_depth x end) props)
  | _ => 0
  end.

Definition is_array (v : value) : bool :=
  match v with
  | VArr _ => true
  | _ => false
  end.

(** The character [c] does not occur in [s]. *)
Fixpoint lacks (c : ascii) (s : string) : bool :=
  match s with
  | EmptyString => true
  | String c' rest => negb (Ascii.eqb c' c) && lacks c rest
  end.

(** The manager never claims to be initialised without a row identifier. *)
Definition ready_has_id (m : Supabase.SupabaseManager) : Prop :=
  Supabase.initialized m = true -> truthy (Supabase.rowId m) = true.

(** The console message of the branch of [addTrialData] for an initialised
    manager without row identifier, lines 168-174. *)
Definition is_no_row_id_log (e : event) : bool :=
  match e with
  | Console LOG [Txt t] =>
      String.eqb t
        "[SupabaseManager] No row ID available, storing trial for later processing"
  | _ => false
  end.

(** [keeps_id s s']: from [s] to [s'] the trace has grown by events none of
    which is the message of that branch, and [ready_has_id] holds at the
    end. *)
Definition keeps_id {W} (s s' : Sys Supabase.SupabaseManager W) : Prop :=
  ready_has_id (self s')
  /\ exists d, trace s' = trace s ++ d /\ filter is_no_row_id_log d = [].

(** Every insert of the service returns a row identifier and every fetch
    reports, with the code [PGRST116], that the row is not found. *)
Definition rows_vanish {W} (env : Env W) : Prop :=
  (forall table row w,
      ins_error (fst (insert_select env table row w)) = None
      /\ Supabase.first_row_id (ins_data (fst (insert_select env table row w))) <> None)
  /\ (forall table id w,
      exists e,
        sel_error (fst (select_trials_single env table id w)) = Some e
        /\ code_is e "PGRST116" = true).

(** The [trials] column of a fetched row: [currentData?.trials]. *)
Definition fetched_column (r : SelectResponse) : value :=
  match sel_data r with
  | Some row => prop "trials" row
  | None => VUndefined
  end.

(** The guidance that [handleRlsError] prints for the table [table]. *)
Definition is_rls_help (table : string) (e : event) : bool :=
  match e with
  | Console ERROR [Txt t; Txt t'] =>
      String.eqb t "ROW LEVEL SECURITY POLICY VIOLATION DETECTED"
      && String.eqb t' table
  | _ => false
  end.

(** The document service accepts every write. *)
Definition documents_accepted {W} (env : Env W) : Prop :=
  (forall ref data w, fst (setDoc env ref data w) = None)
  /\ (forall ref field elem w, fst (updateDoc_arrayUnion env ref field elem w) = None).

(** The elements appended to [trials] by accepted [updateDoc] calls. *)
Fixpoint appended (tr : list event) : list value :=
  match tr with
  | [] => []
  | UpdateDoc _ _ elem None :: rest => elem :: appended rest
  | _ :: rest => appended rest
  end.

(** [for (const t of ts) await manager.addTrialData(t)] on the document
    store. *)
Definition document_add_all {W} (env : Env W) (ts : list TrialData)
    : M Firebase.FirebaseManager W unit :=
  for_of ts (Firebase.addTrialData env).

(** *** A service that stores a row

    The world is the [trials] column of the row: a fetch returns it, an
    insert or update that carries a [trials] array replaces it. *)
Module Stored.

Definition written (row : obj) (w : list value) : list value :=
  match obj_get "trials" row with
  | Some (VArr elems) => elems
  | _ => w
  end.

Definition env : Env (list value) :=
  {| toISOString := fun w => ("2024-01-02T03:04:05.678Z", w);
     insert_select := fun _ row w =>
       ({| ins_data := Some [obj_set "id" (VStr "row-1") row];
           ins_error := None |}, written row w);
     update_eq_id := fun _ row _ w => (None, written row w);
     select_trials_single := fun _ _ w =>
       ({| sel_data := Some [("trials", VArr w)]; sel_error := None |}, w);
     setDoc := fun _ _ w => (None, w);
     updateDoc_arrayUnion := fun _ _ _ w => (None, w) |}.

End Stored.

(** *** A service whose rows vanish

    Every insert returns a row identifier, every fetch reports that the
    row is not found. *)
Module Vanishing.

Definition env : Env unit :=
  {| toISOString := fun w => ("2024-01-02T03:04:05.678Z", w);
     insert_select := fun _ _ w =>
       ({| ins_data := Some [[("id", VStr "row")]]; ins_error := None |}, w);
     update_eq_id := fun _ _ _ w => (None, w);
     select_trials_single := fun _ _ w =>
       ({| sel_data := None; sel_error := Some Scripted.row_not_found |}, w);
     setDoc := fun _ _ w => (None, w);
     updateDoc_arrayUnion := fun _ _ _ w => (None, w) |}.

End Vanishing.

(** * Properties *)

#[local] Arguments String.append : simpl never.
#[local] Arguments Supabase.says_not_found : simpl never.
#[local] Arguments Supabase.is_rls_violation : simpl never.
#[local] Arguments code_is : simpl never.
#[local] Arguments error_text : simpl never.
#[local] Arguments truthy : simpl never.

Ltac run :=
  repeat progress
    (simpl in *;
     unfold bind, try_catch, ret, throw, emit, console, get_this, update_this,
       remote, date_now, Supabase.handleRlsError, Supabase.on_store_failure in *;
     simpl in *).

Ltac trace_norm := simpl; repeat rewrite <- app_assoc; simpl.

(** ** Objects *)

Lemma obj_get_set_same (k : string) (v : value) (o : obj) :
  obj_get k (obj_set k v o) = Some v.
Proof.
  induction o as [|[k' v'] o IH]; simpl.
  - now rewrite String.eqb_refl.
  - destruct (String.eqb k k') eqn:E; simpl; rewrite E; auto.
Qed.

Lemma obj_get_set_other (k k' : string) (v : value) (o : obj) :
  String.eqb k k' = false ->
  obj_get k (obj_set k' v o) = obj_get k o.
Proof.
  intros Hk. induction o as [|[k0 v0] o IH]; simpl.
  - now rewrite Hk.
  - destruct (String.eqb k' k0) eqn:E; simpl.
    + apply String.eqb_eq in E. subst k0. now rewrite Hk.
    + now rewrite IH.
Qed.

Lemma obj_get_spread_absent (k : string) (a b : obj) :
  obj_get k b = None ->
  obj_get k (spread a b) = obj_get k a.
Proof.
  unfold spread. revert a.
  induction b as [|[k' v'] b IH]; intros a Hb; simpl in *; auto.
  destruct (String.eqb k k') eqn:E; [discriminate|].
  rewrite IH by assumption. now apply obj_get_set_other.
Qed.

Lemma obj_get_delete_same (k : string) (o : obj) :
  obj_get k (obj_delete k o) = None.
Proof.
  induction o as [|[k' v'] o IH]; simpl; auto.
  destruct (String.eqb k k') eqn:E; simpl; auto.
  rewrite E. exact IH.
Qed.

Lemma obj_get_delete_other (k k' : string) (o : obj) :
  String.eqb k k' = false ->
  obj_get k (obj_delete k' o) = obj_get k o.
Proof.
  intros Hk. induction o as [|[k0 v0] o IH]; simpl; auto.
  destruct (String.eqb k' k0) eqn:E; simpl.
  - apply String.eqb_eq in E. subst k0. now rewrite Hk.
  - now rewrite IH.
Qed.

(** ** Flattening of nested arrays (document store) *)

Lemma flattenValue_primitive (v : value) :
  is_primitive v = true -> Firebase.flattenValue v = v.
Proof. destruct v; simpl; congruence. Qed.

(** An array that is the value of a property becomes an object. *)
Lemma flattenValue_array_is_object (elems : list value) :
  exists props, Firebase.flattenValue (VArr elems) = VObj props.
Proof. simpl. eexists. reflexivity. Qed.

Lemma flattenNestedArrays_keys (o : obj) :
  map fst (Firebase.flattenNestedArrays o) = map fst o.
Proof.
  unfold Firebase.flattenNestedArrays. rewrite map_map.
  apply map_ext. now intros [k v].
Qed.

(** C1 (fails on the code).  On the object [{a: [1, [2,3]], b: "x"}]
    [flattenNestedArrays] turns the outer array into an index-keyed
    object but stores its elements as they are: the inner array [[2,3]]
    stays an array, where the claim expects [{0: 2, 1: 3}].  On
    [{a: [[[1]]]}] the result still holds an array directly inside an
    array. *)
Theorem flattenNestedArrays_leaves_array_elements :
  Firebase.flattenNestedArrays
    [("a", VArr [VNum 1; VArr [VNum 2; VNum 3]]); ("b", VStr "x")]
  = [("a", VObj [("0", VNum 1); ("1", VArr [VNum 2; VNum 3])]); ("b", VStr "x")]
  /\ Firebase.flattenNestedArrays
       [("a", VArr [VNum 1; VArr [VNum 2; VNum 3]]); ("b", VStr "x")]
     <> [("a", VObj [("0", VNum 1);
                     ("1", VObj [("0", VNum 2); ("1", VNum 3)])]);
         ("b", VStr "x")]
  /\ Firebase.flattenNestedArrays [("a", VArr [VArr [VArr [VNum 1]]])]
     = [("a", VObj [("0", VArr [VArr [VNum 1]])])].
Proof.
  split; [reflexivity|].
  split; [discriminate|].
  reflexivity.
Qed.

(** ** Reading traces piecewise *)

Lemma calls_addTrialData_app (a b : list event) :
  calls_addTrialData (a ++ b) = calls_addTrialData a ++ calls_addTrialData b.
Proof.
  induction a as [|e a IH]; simpl; auto.
  destruct e; auto.
  destruct (String.eqb method "addTrialData"); simpl; now rewrite IH.
Qed.

Lemma persisted_app (a b : list event) :
  persisted (a ++ b) = persisted a ++ persisted b.
Proof.
  induction a as [|e a IH]; simpl; auto.
  destruct e; auto.
  destruct r; auto.
  destruct (obj_get "trials" row) as [[]|]; simpl; now rewrite IH.
Qed.

Lemma completed_writes_app (a b : list event) :
  completed_writes (a ++ b) = completed_writes a + completed_writes b.
Proof.
  unfold completed_writes. now rewrite filter_app, length_app.
Qed.

Lemma kinds_app (a b : list event) :
  kinds (a ++ b) = kinds a ++ kinds b.
Proof.
  induction a as [|e a IH]; simpl; auto.
  destruct e; simpl; now rewrite ?IH.
Qed.

Lemma remote_calls_app (a b : list event) :
  remote_calls (a ++ b) = remote_calls a ++ remote_calls b.
Proof. apply filter_app. Qed.

Lemma updatedTrials_last (currentData : option obj) (t : TrialData)
    (updated : list value) :
  Supabase.updatedTrials currentData t = Some updated ->
  last updated VUndefined = VObj t.
Proof.
  unfold Supabase.updatedTrials.
  destruct (truthy _).
  - destruct (match currentData with Some row => prop "trials" row | None => VUndefined end);
      intros H; inversion H; apply last_last.
  - intros H; inversion H; reflexivity.
Qed.

(** ** The row-store manager on any service *)

Section RowStore.
Context {W : Type} (env : Env W).

#[local] Abbreviation State := (Sys Supabase.SupabaseManager W).

(** While the manager is not initialised, [addTrialData] only queues. *)
Lemma addTrialData_queues (fuel : nat) (t : TrialData) (s : State) :
  Supabase.initialized (self s) = false ->
  Supabase.addTrialData env (S fuel) t s
  = Some (Resolved tt,
          mkSys (Supabase.push_pending t (self s)) (world s)
                (trace s ++ queue_log [t])).
Proof.
  intros H. destruct s as [m w tr]. run. rewrite H. trace_norm. reflexivity.
Qed.

Lemma add_all_queues (fuel : nat) (ts : list TrialData) (s : State) :
  Supabase.initialized (self s) = false ->
  add_all env (S fuel) ts s
  = Some (Resolved tt,
          mkSys (Supabase.set_pendingTrials
                   (Supabase.pendingTrials (self s) ++ ts) (self s))
                (world s) (trace s ++ queue_log ts)).
Proof.
  revert s. induction ts as [|t ts IH]; intros s H.
  - destruct s as [[] w tr]. simpl. unfold ret. simpl.
    now rewrite !app_nil_r.
  - change (add_all env (S fuel) (t :: ts) s)
      with (bind (Supabase.addTrialData env (S fuel) t)
                 (fun _ => add_all env (S fuel) ts) s).
    unfold bind. rewrite addTrialData_queues by assumption.
    rewrite IH by assumption.
    destruct s as [[] w tr]. unfold Supabase.push_pending, Supabase.set_pendingTrials.
    simpl. rewrite <- !app_assoc. reflexivity.
Qed.

(** One attempt of the trial-add path on a ready manager, when no service
    reports a missing row: one fetch, no insert, no nested call; the
    manager changes only by the operation count of a completed update. *)
Lemma attempt_ready (fuel : nat) (t : TrialData) (s : State) :
  no_row_missing env ->
  Supabase.initialized (self s) = true ->
  truthy (Supabase.rowId (self s)) = true ->
  exists c d w' m',
    Supabase.addTrialData env (S fuel) t s
    = Some (c, mkSys m' w' (trace s ++ Invoke "addTrialData" t :: d))
    /\ m' = (if is_resolved c then Supabase.incr_operations (self s) else self s)
    /\ calls_addTrialData d = []
    /\ List.length (filter is_select d) = 1
    /\ filter is_insert d = []
    /\ filter is_drain_error d = []
    /\ persisted d = (if is_resolved c then [VObj t] else [])
    /\ completed_writes d = (if is_resolved c then 1 else 0)
    /\ (accepts_all env -> c = Resolved tt /\ kinds d = [KSelect; KUpdate]).
Proof.
  intros [Hsel Hupd] Hi Hr. destruct s as [m w tr]. simpl in *.
  run. rewrite Hi, Hr. simpl.
  destruct (select_trials_single env (Supabase.tableName m) (Supabase.rowId m) w)
    as [r w1] eqn:Es.
  simpl.
  destruct (sel_error r) as [fe|] eqn:Ee.
  - destruct (Hsel (Supabase.tableName m) (Supabase.rowId m) w fe) as [Hc Hn].
    { rewrite Es. exact Ee. }
    destruct (Supabase.is_rls_violation fe); run; rewrite Hc; simpl; rewrite Hn; simpl.
    all: trace_norm; do 4 eexists; (split; [reflexivity|]); simpl.
    all: repeat split; auto.
    all: match goal with
         | Ha : accepts_all env |- _ =>
             destruct (proj1 (proj2 Ha) (Supabase.tableName m) (Supabase.rowId m) w)
               as [Ha1 _]
         end.
    all: rewrite Es in Ha1; simpl in Ha1; congruence.
  - destruct (Supabase.updatedTrials (sel_data r) t) as [updated|] eqn:Eu.
    + simpl. destruct (toISOString env w1) as [now w2] eqn:En. simpl.
      destruct (update_eq_id env (Supabase.tableName m)
                  [("trials", VArr updated); ("updated_at", VStr now)]
                  (Supabase.rowId m) w2) as [ue w3] eqn:Eup.
      simpl. destruct ue as [ue|].
      * assert (Hn : Supabase.says_not_found ue = false).
        { eapply Hupd. rewrite Eup. reflexivity. }
        destruct (Supabase.is_rls_violation ue); run; rewrite Hn; simpl.
        all: trace_norm; do 4 eexists; (split; [reflexivity|]); simpl.
        all: repeat split; auto.
        all: match goal with
             | Ha : accepts_all env |- _ =>
                 pose proof (proj2 (proj2 Ha) (Supabase.tableName m)
                               [("trials", VArr updated); ("updated_at", VStr now)]
                               (Supabase.rowId m) w2) as Ha3
             end.
        all: rewrite Eup in Ha3; simpl in Ha3; congruence.
      * trace_norm; do 4 eexists; (split; [reflexivity|]); simpl.
        rewrite (updatedTrials_last _ _ _ Eu). repeat split; auto.
    + simpl. trace_norm. do 4 eexists. (split; [reflexivity|]). simpl.
      repeat split; auto.
      all: match goal with
           | Ha : accepts_all env |- _ =>
               destruct (proj1 (proj2 Ha) (Supabase.tableName m) (Supabase.rowId m) w)
                 as [_ Ha2]
           end.
      all: rewrite Es in Ha2; simpl in Ha2; now apply Ha2 in Eu.
Qed.

Lemma add_operations_0 (m : Supabase.SupabaseManager) :
  add_operations 0 m = m.
Proof. destruct m. unfold add_operations. simpl. now rewrite Nat.add_0_r. Qed.

Lemma add_operations_incr (n : nat) (m : Supabase.SupabaseManager) :
  add_operations n (Supabase.incr_operations m) = add_operations (S n) m.
Proof.
  destruct m. unfold add_operations, Supabase.incr_operations. simpl.
  f_equal. lia.
Qed.

Lemma for_of_cons {A} (x : A) (rest : list A) (body : A -> M Supabase.SupabaseManager W unit)
    (s : State) :
  for_of (x :: rest) body s = bind (body x) (fun _ => for_of rest body) s.
Proof. reflexivity. Qed.

(** The drain loop on a ready manager, when no service reports a missing
    row: every entry is handed to [addTrialData] once, in order, whatever
    happened to the entries before it; each failure is logged once; the
    queue is not touched. *)
Lemma drain_ready (fuel : nat) (ts : list TrialData) :
  no_row_missing env ->
  forall s : State,
  Supabase.initialized (self s) = true ->
  truthy (Supabase.rowId (self s)) = true ->
  exists d w' n,
    for_of ts (drain_one env (S fuel)) s
    = Some (Resolved tt, mkSys (add_operations n (self s)) w' (trace s ++ d))
    /\ calls_addTrialData d = ts
    /\ List.length (filter is_select d) = List.length ts
    /\ filter is_insert d = []
    /\ List.length (filter is_drain_error d) + n = List.length ts
    /\ List.length (persisted d) = n
    /\ completed_writes d = n
    /\ (accepts_all env ->
        persisted d = map VObj ts
        /\ kinds d = flat_map (fun _ => [KSelect; KUpdate]) ts).
Proof.
  intros Hnrm. induction ts as [|t ts IH]; intros s Hi Hr.
  - exists [], (world s), 0. rewrite add_operations_0, app_nil_r.
    destruct s. simpl. repeat split; auto.
  - destruct (attempt_ready fuel t s Hnrm Hi Hr)
      as (c & d1 & w1 & m1 & Hrun & Hm1 & Hcalls & Hsel & Hins & Herr & Hper & Hcw & Hacc).
    rewrite for_of_cons. unfold bind, drain_one at 1, try_catch. rewrite Hrun.
    destruct c as [[]|e]; simpl in Hm1, Hper, Hcw; subst m1.
    + destruct (IH (mkSys (Supabase.incr_operations (self s)) w1
                          (trace s ++ Invoke "addTrialData" t :: d1)))
        as (d2 & w2 & n & Hrun2 & Hcalls2 & Hsel2 & Hins2 & Herr2 & Hper2 & Hcw2 & Hacc2);
        [destruct s as [[] ? ?]; assumption .. |].
      rewrite Hrun2. simpl self. simpl trace.
      exists ((Invoke "addTrialData" t :: d1) ++ d2), w2, (S n).
      rewrite add_operations_incr, <- app_assoc.
      split; [reflexivity|].
      rewrite calls_addTrialData_app, persisted_app, completed_writes_app,
        !filter_app, !length_app.
      simpl. change (completed_writes (Invoke "addTrialData" t :: d1))
        with (completed_writes d1).
      rewrite Hcalls, Hcalls2, Hsel, Hsel2, Hins, Hins2, Herr, Hper, Hcw, Hcw2.
      simpl. repeat split; auto; try lia.
      all: match goal with Ha : accepts_all env |- _ =>
             destruct (Hacc Ha) as [_ Hk1]; destruct (Hacc2 Ha) as [Hp2 Hk2]
           end.
      * now rewrite Hp2.
      * change (Invoke "addTrialData" t :: d1 ++ d2)
          with ((Invoke "addTrialData" t :: d1) ++ d2).
        rewrite kinds_app. simpl. now rewrite Hk1, Hk2.
    + unfold console, emit. simpl.
      destruct (IH (mkSys (self s) w1
                      ((trace s ++ Invoke "addTrialData" t :: d1)
                       ++ [Console ERROR
                             [Txt "[SupabaseManager] Error processing pending trial:";
                              Thr e]])))
        as (d2 & w2 & n & Hrun2 & Hcalls2 & Hsel2 & Hins2 & Herr2 & Hper2 & Hcw2 & Hacc2);
        [assumption .. |].
      rewrite Hrun2. simpl self. simpl trace.
      exists ((Invoke "addTrialData" t :: d1)
              ++ [Console ERROR
                    [Txt "[SupabaseManager] Error processing pending trial:"; Thr e]]
              ++ d2), w2, n.
      rewrite <- !app_assoc.
      split; [reflexivity|].
      rewrite !calls_addTrialData_app, !persisted_app, !completed_writes_app,
        !filter_app, !length_app.
      simpl. change (completed_writes (Invoke "addTrialData" t :: d1))
        with (completed_writes d1).
      rewrite Hcalls, Hcalls2, Hsel, Hsel2, Hins, Hins2, Herr, Hper, Hcw, Hcw2.
      simpl. repeat split; auto; try lia.
      all: match goal with Ha : accepts_all env |- _ =>
             destruct (Hacc Ha); discriminate
           end.
Qed.

Lemma first_row_id_truthy (data : option (list obj)) (id : value) :
  Supabase.first_row_id data = Some id -> truthy id = true.
Proof.
  destruct data as [[|row rows]|]; simpl; try discriminate.
  destruct (truthy (prop "id" row)) eqn:E; congruence.
Qed.

(** [initializeExperiment] on a manager that is not ready, when the insert
    returns a row identifier and no service reports a missing row. *)
Lemma initialize_inserts (fuel : nat) (additionalData : obj) (s : State)
    (r : InsertResponse) (w1 : W) (id : value) :
  no_row_missing env ->
  Supabase.initialized (self s) && truthy (Supabase.rowId (self s)) = false ->
  insert_select env (Supabase.tableName (self s))
    (obj_lit [Supabase.metadata (self s); [("trials", VArr [])]; additionalData])
    (world s) = (r, w1) ->
  ins_error r = None ->
  Supabase.first_row_id (ins_data r) = Some id ->
  exists d w' n,
    Supabase.initializeExperiment env (S (S fuel)) additionalData s
    = Some (Resolved tt,
            mkSys (after_insert id n (self s)) w'
              (trace s
               ++ Invoke "initializeExperiment" additionalData
               :: Insert (Supabase.tableName (self s))
                    (obj_lit [Supabase.metadata (self s); [("trials", VArr [])];
                              additionalData]) r
               :: d))
    /\ calls_addTrialData d = Supabase.pendingTrials (self s)
    /\ List.length (filter is_select d) = List.length (Supabase.pendingTrials (self s))
    /\ filter is_insert d = []
    /\ List.length (filter is_drain_error d) + n
       = List.length (Supabase.pendingTrials (self s))
    /\ List.length (persisted d) = n
    /\ completed_writes d = n
    /\ (accepts_all env ->
        persisted d = map VObj (Supabase.pendingTrials (self s))
        /\ kinds d = flat_map (fun _ => [KSelect; KUpdate])
                      (Supabase.pendingTrials (self s))).
Proof.
  intros Hnrm Hpath Hins He Hid.
  pose proof (first_row_id_truthy _ _ Hid) as Htruthy.
  remember (S fuel) as fuel1 eqn:Hfuel.
  destruct s as [m w tr]. simpl in *.
  run. rewrite Hpath. simpl. rewrite Hins. simpl. rewrite He. simpl.
  rewrite Hid. simpl.
  destruct (Nat.ltb 0 (List.length (Supabase.pendingTrials m))) eqn:Hlen; simpl.
  - match goal with
    | |- context [for_of ?l ?b ?st] =>
        change (for_of l b st) with (for_of l (drain_one env fuel1) st);
        subst fuel1;
        destruct (drain_ready fuel l Hnrm st)
          as (d & w' & n & Hrun & Hcalls & Hsel & Hins' & Herr & Hper & Hcw & Hacc);
        [reflexivity | exact Htruthy |]
    end.
    rewrite Hrun. trace_norm.
    exists
      (Console LOG [Txt "[SupabaseManager] Row created with ID: "; Val id]
       :: Console LOG [Txt "[SupabaseManager] Processing ";
                       Num (List.length (Supabase.pendingTrials m));
                       Txt " pending trials..."]
       :: d ++ [Console LOG [Txt "[SupabaseManager] Data successfully initialized!"]]),
      w', n.
    split.
    + destruct m. simpl in *. unfold after_insert, add_operations. simpl.
      rewrite Nat.add_succ_r. reflexivity.
    + unfold completed_writes in *. simpl.
      rewrite calls_addTrialData_app, persisted_app, !filter_app, !length_app.
      simpl. rewrite !app_nil_r, Hins'.
      repeat split; auto; try lia.
      all: match goal with Ha : accepts_all env |- _ =>
             destruct (Hacc Ha) as [Hp Hk]
           end.
      * now rewrite Hp.
      * rewrite kinds_app, Hk. simpl. now rewrite app_nil_r.
  - apply Nat.ltb_ge in Hlen.
    assert (Hq : Supabase.pendingTrials m = []).
    { destruct (Supabase.pendingTrials m); [reflexivity | simpl in Hlen; lia]. }
    trace_norm. exists
      [Console LOG [Txt "[SupabaseManager] Row created with ID: "; Val id];
       Console LOG [Txt "[SupabaseManager] Data successfully initialized!"]],
      w1, 0.
    split.
    + destruct m. simpl in *. subst.
      unfold after_insert, add_operations. simpl.
      rewrite Nat.add_1_r. reflexivity.
    + rewrite Hq. simpl. repeat split; auto.
Qed.

(** *** The operation count *)

Lemma accounted_trans (s1 s2 s3 : State) :
  accounted s1 s2 -> accounted s2 s3 -> accounted s1 s3.
Proof.
  intros (d1 & Ht1 & Hn1) (d2 & Ht2 & Hn2). exists (d1 ++ d2).
  rewrite Ht2, Ht1, Hn2, Hn1, completed_writes_app, <- app_assoc. split; [reflexivity | lia].
Qed.

(** A stretch of the run with explicit events [d], none a completed
    write, and no change of the count. *)
Lemma accounted_quiet (s s' : State) (d : list event) :
  trace s' = trace s ++ d ->
  completed_writes d = 0 ->
  Supabase.numberOfOperations (self s') = Supabase.numberOfOperations (self s) ->
  accounted s s'.
Proof. intros Ht Hd Hn. exists d. rewrite Ht, Hd, Hn. split; [reflexivity | lia]. Qed.

Ltac quiet :=
  eapply accounted_quiet; [trace_norm; reflexivity | reflexivity | reflexivity].

Lemma drain_accounted (fuel : nat) :
  (forall t (s : State) c s',
      Supabase.addTrialData env fuel t s = Some (c, s') -> accounted s s') ->
  forall ts (s : State) c s',
    for_of ts (drain_one env fuel) s = Some (c, s') -> accounted s s'.
Proof.
  intros IHadd. induction ts as [|t ts IH]; intros s c s'.
  - destruct s. run. intros H. inversion H. subst. exists [].
    simpl. rewrite app_nil_r. split; [reflexivity | unfold completed_writes; simpl; lia].
  - rewrite for_of_cons. unfold bind, drain_one at 1, try_catch.
    destruct (Supabase.addTrialData env fuel t s) as [[[[]|e] s1]|] eqn:Ea;
      try discriminate.
    + intros H. eapply accounted_trans; [eapply IHadd; eassumption | eapply IH; eassumption].
    + unfold console, emit. intros H.
      eapply accounted_trans; [eapply IHadd; eassumption |].
      eapply accounted_trans; [| eapply IH; eassumption].
      destruct s1. quiet.
Qed.

Ltac case_step :=
  match goal with
  | |- context [let (_, _) := ?x in _] => destruct x eqn:?
  | |- context [match ?x with Some _ => _ | None => _ end] =>
      match x with
      | sel_error _ => destruct x eqn:?
      | ins_error _ => destruct x eqn:?
      | Supabase.first_row_id _ => destruct x eqn:?
      | Supabase.updatedTrials _ _ => destruct x eqn:?
      | Supabase.initializeExperiment _ _ _ _ =>
          destruct x as [[[[]|?] [? ? ?]]|] eqn:?
      | for_of _ _ _ => destruct x as [[[[]|?] [? ? ?]]|] eqn:?
      | _ => is_var x; destruct x
      end
  | |- context [if ?b then _ else _] => destruct b eqn:?
  end.

Lemma drain_resolves (fuel : nat) (ts : list TrialData) :
  forall (s : State) c s',
    for_of ts (drain_one env fuel) s = Some (c, s') -> c = Resolved tt.
Proof.
  induction ts as [|t ts IH]; intros s c s'.
  - run. intros H. now inversion H.
  - rewrite for_of_cons. unfold bind, drain_one at 1, try_catch.
    destruct (Supabase.addTrialData env fuel t s) as [[[[]|e] s1]|];
      try discriminate; unfold console, emit; apply IH.
Qed.

Ltac settle IHinit IHdrain :=
  let H := fresh in
  intros H;
  match type of H with
  | Some _ = Some _ => inversion H; subst; clear H
  | _ = Some (_, ?s') => destruct s' as [? ? ?]
  end;
  repeat match goal with
    | E : Supabase.initializeExperiment _ _ _ _ = Some _ |- _ => apply IHinit in E
    | E : for_of _ _ _ = Some _ |- _ => apply IHdrain in E
    end;
  unfold accounted in *;
  repeat match goal with
    | E : exists _, _ |- _ => destruct E as (? & ? & ?)
    end;
  simpl in *; subst;
  eexists; split;
  [ trace_norm; reflexivity
  | unfold completed_writes in *; simpl;
    repeat match goal with
      | E : ?x = _ |- context [?x] => rewrite E
      end;
    simpl; rewrite ?filter_app, ?length_app; simpl; lia ].

Lemma accounting (fuel : nat) :
  (forall data (s : State) c s',
      Supabase.initializeExperiment env fuel data s = Some (c, s') ->
      accounted s s')
  /\ (forall t (s : State) c s',
      Supabase.addTrialData env fuel t s = Some (c, s') -> accounted s s').
Proof.
  induction fuel as [|fuel [IHinit IHadd]].
  - split; intros; discriminate.
  - pose proof (drain_accounted fuel IHadd) as IHdrain.
    split.
    + intros data [m w tr] c s'.
      run.
      repeat (case_step; run).
      all: try discriminate.
      all: try (settle IHinit IHdrain).
      match goal with
      | E : for_of _ _ _ = Some (Rejected _, _) |- _ =>
          apply (drain_resolves fuel) in E; discriminate
      end.
    + intros t [m w tr] c s'.
      run.
      repeat (case_step; run).
      all: try discriminate.
      all: settle IHinit IHdrain.
Qed.

Lemma accepts_all_no_row_missing : accepts_all env -> no_row_missing env.
Proof.
  intros (_ & Hs & Hu). split.
  - intros table id w e He. destruct (Hs table id w) as [Hn _]. congruence.
  - intros table row id w e He. rewrite Hu in He. discriminate.
Qed.

Lemma code_is_exclusive (e : Thrown) (c1 c2 : string) :
  code_is e c1 = true -> c1 <> c2 -> code_is e c2 = false.
Proof.
  unfold code_is. destruct (code e) as [c|]; [|discriminate].
  intros H1 Hne. apply String.eqb_eq in H1. subst c.
  now apply String.eqb_neq.
Qed.

Lemma initialize_insert_fails (fuel : nat) (additionalData : obj) (s : State)
    (r : InsertResponse) (w1 : W) :
  Supabase.initialized (self s) && truthy (Supabase.rowId (self s)) = false ->
  insert_select env (Supabase.tableName (self s))
    (obj_lit [Supabase.metadata (self s); [("trials", VArr [])]; additionalData])
    (world s) = (r, w1) ->
  ins_error r <> None \/ Supabase.first_row_id (ins_data r) = None ->
  exists d,
    Supabase.initializeExperiment env (S fuel) additionalData s
    = Some (Rejected (insert_failure r), mkSys (self s) w1 (trace s ++ d))
    /\ kinds d = [KInsert].
Proof.
  intros Hpath Hins Hfail. destruct s as [m w tr]. simpl in *.
  unfold insert_failure.
  run. rewrite Hpath. simpl. rewrite Hins. simpl.
  destruct (ins_error r) as [e|] eqn:He.
  - destruct (Supabase.is_rls_violation e); run; trace_norm;
      eexists; (split; [reflexivity|]); reflexivity.
  - destruct Hfail as [Hfail|Hfail]; [congruence|].
    rewrite Hfail. run. trace_norm. eexists. split; reflexivity.
Qed.

(** [initializeExperiment] on a ready manager: one update of its row. *)
Lemma initialize_updates (fuel : nat) (additionalData : obj) (s : State)
    (now : string) (w1 : W) (error : option Thrown) (w2 : W) :
  Supabase.initialized (self s) = true ->
  truthy (Supabase.rowId (self s)) = true ->
  toISOString env (world s) = (now, w1) ->
  update_eq_id env (Supabase.tableName (self s))
    (obj_lit [Supabase.metadata (self s); additionalData; [("updated_at", VStr now)]])
    (Supabase.rowId (self s)) w1 = (error, w2) ->
  exists c m' d,
    Supabase.initializeExperiment env (S fuel) additionalData s
    = Some (c, mkSys m' w2 (trace s ++ d))
    /\ remote_calls d
       = [Update (Supabase.tableName (self s))
            (obj_lit [Supabase.metadata (self s); additionalData;
                      [("updated_at", VStr now)]])
            (Supabase.rowId (self s)) error]
    /\ (error = None -> c = Resolved tt /\ m' = Supabase.incr_operations (self s))
    /\ (forall e, error = Some e ->
        c = Rejected (new_Error ("Failed to initialize experiment data: "
                                 ++ error_text e)%string)
        /\ m' = self s).
Proof.
  intros Hi Hr Hnow Hup. destruct s as [m w tr]. simpl in *.
  run. rewrite Hi, Hr. simpl. rewrite Hnow. simpl. rewrite Hup. simpl.
  destruct error as [e|]; [destruct (Supabase.is_rls_violation e)|].
  all: run; trace_norm; do 3 eexists; (split; [reflexivity|]).
  all: split; [reflexivity|].
  all: split; [intros H; try discriminate; split; reflexivity|].
  all: intros e0 H; try discriminate; inversion H; split; reflexivity.
Qed.

(** *** Termination

    When no service reports a missing row, a budget of two nested calls is
    enough for [initializeExperiment] and of three for [addTrialData]. *)
Lemma initializeExperiment_returns (fuel : nat) (additionalData : obj) (s : State) :
  no_row_missing env ->
  exists c s',
    Supabase.initializeExperiment env (S (S fuel)) additionalData s = Some (c, s').
Proof.
  intros Hnrm.
  destruct (Supabase.initialized (self s) && truthy (Supabase.rowId (self s))) eqn:Hpath.
  - apply andb_true_iff in Hpath. destruct Hpath as [Hi Hr].
    destruct (toISOString env (world s)) as [now w1] eqn:Hnow.
    destruct (update_eq_id env (Supabase.tableName (self s))
                (obj_lit [Supabase.metadata (self s); additionalData;
                          [("updated_at", VStr now)]])
                (Supabase.rowId (self s)) w1) as [error w2] eqn:Hup.
    destruct (initialize_updates (S fuel) additionalData s now w1 error w2 Hi Hr Hnow Hup)
      as (c & m' & d & Hrun & _).
    eauto.
  - destruct (insert_select env (Supabase.tableName (self s))
                (obj_lit [Supabase.metadata (self s); [("trials", VArr [])];
                          additionalData])
                (world s)) as [r w1] eqn:Hins.
    destruct (ins_error r) as [e|] eqn:He.
    + destruct (initialize_insert_fails (S fuel) additionalData s r w1 Hpath Hins)
        as (d & Hrun & _); [left; congruence | eauto].
    + destruct (Supabase.first_row_id (ins_data r)) as [id|] eqn:Hid.
      * destruct (initialize_inserts fuel additionalData s r w1 id Hnrm Hpath Hins He Hid)
          as (d & w' & n & Hrun & _).
        eauto.
      * destruct (initialize_insert_fails (S fuel) additionalData s r w1 Hpath Hins)
          as (d & Hrun & _); [right; assumption | eauto].
Qed.

Lemma addTrialData_returns (fuel : nat) (t : TrialData) (s : State) :
  no_row_missing env ->
  exists c s',
    Supabase.addTrialData env (S (S (S fuel))) t s = Some (c, s').
Proof.
  intros Hnrm.
  destruct (Supabase.initialized (self s)) eqn:Hi.
  - destruct (truthy (Supabase.rowId (self s))) eqn:Hr.
    + destruct (attempt_ready (S (S fuel)) t s Hnrm Hi Hr)
        as (c & d & w' & m' & Hrun & _).
      eauto.
    + remember (S (S fuel)) as fuel2 eqn:Hfuel.
      destruct s as [m w tr]. simpl in Hi, Hr.
      simpl. unfold bind, emit, get_this, console, update_this. simpl.
      rewrite Hi, Hr. simpl. subst fuel2.
      apply initializeExperiment_returns. exact Hnrm.
  - rewrite addTrialData_queues by assumption. eauto.
Qed.

(** *** The drain after a successful insert *)

(** [initializeExperiment] whose insert returned a row identifier is the
    drain loop over a copy of the queue, started with the queue emptied,
    and then the count of the insert; whatever the drain meets,
    [initializeExperiment] resolves when the drain returns. *)
Lemma initialize_then_drain (fuel : nat) (additionalData : obj) (s : State)
    (r : InsertResponse) (w1 : W) (id : value) :
  Supabase.initialized (self s) && truthy (Supabase.rowId (self s)) = false ->
  insert_select env (Supabase.tableName (self s))
    (obj_lit [Supabase.metadata (self s); [("trials", VArr [])]; additionalData])
    (world s) = (r, w1) ->
  ins_error r = None ->
  Supabase.first_row_id (ins_data r) = Some id ->
  Supabase.initializeExperiment env (S fuel) additionalData s
  = match for_of (Supabase.pendingTrials (self s)) (drain_one env fuel)
            (drain_start additionalData r id w1 s) with
    | Some (_, s2) => Some (Resolved tt, drain_end s2)
    | None => None
    end.
Proof.
  intros Hpath Hins He Hid. destruct s as [m w tr]. unfold drain_start. simpl in *.
  run. rewrite Hpath. simpl. rewrite Hins. simpl. rewrite He. simpl.
  rewrite Hid. simpl.
  destruct (Nat.ltb 0 (List.length (Supabase.pendingTrials m))) eqn:Hlen; simpl.
  - rewrite <- !app_assoc. simpl.
    match goal with
    | |- context [for_of ?l ?b ?st] =>
        change (for_of l b st) with (for_of l (drain_one env fuel) st);
        destruct (for_of l (drain_one env fuel) st) as [[c s2]|] eqn:Hdrain
    end; [|reflexivity].
    rewrite (drain_resolves fuel _ _ _ _ Hdrain). destruct s2. reflexivity.
  - apply Nat.ltb_ge in Hlen.
    assert (Hq : Supabase.pendingTrials m = []).
    { destruct (Supabase.pendingTrials m); [reflexivity | simpl in Hlen; lia]. }
    rewrite Hq. simpl. unfold ret, drain_end. simpl.
    rewrite <- !app_assoc. simpl.
    destruct m. simpl in *. subst. reflexivity.
Qed.

(** One turn of the drain loop: the failure of the entry is caught and
    logged, and the loop goes on with the entries after it. *)
Lemma drain_entry_caught (fuel : nat) (t : TrialData) (rest : list TrialData)
    (s : State) (c1 : Completion unit) (s1 : State) :
  Supabase.addTrialData env fuel t s = Some (c1, s1) ->
  drain_one env fuel t s = Some (Resolved tt, drain_caught c1 s1)
  /\ for_of (t :: rest) (drain_one env fuel) s
     = for_of rest (drain_one env fuel) (drain_caught c1 s1).
Proof.
  intros Hadd. rewrite for_of_cons. unfold bind, drain_one at 1 2, try_catch.
  rewrite Hadd. destruct c1 as [[]|e]; split; reflexivity.
Qed.

(** One attempt on a ready manager, told from the replies of the service,
    when no service reports a missing row. *)
Lemma attempt_ready_outcome (fuel : nat) (t : TrialData) (s : State)
    (ok : bool) (w' : W) :
  no_row_missing env ->
  Supabase.initialized (self s) = true ->
  truthy (Supabase.rowId (self s)) = true ->
  drained_entry env (Supabase.tableName (self s)) (Supabase.rowId (self s)) t (world s)
  = (ok, w') ->
  exists c d,
    Supabase.addTrialData env (S fuel) t s
    = Some (c, mkSys (if ok then Supabase.incr_operations (self s) else self s) w'
                 (trace s ++ Invoke "addTrialData" t :: d))
    /\ is_resolved c = ok
    /\ calls_addTrialData d = []
    /\ filter is_drain_error d = []
    /\ persisted d = (if ok then [VObj t] else []).
Proof.
  intros [Hsel Hupd] Hi Hr Hout. destruct s as [m w tr]. simpl in *.
  unfold drained_entry in Hout.
  run. rewrite Hi, Hr. simpl.
  destruct (select_trials_single env (Supabase.tableName m) (Supabase.rowId m) w)
    as [r w1] eqn:Es.
  simpl.
  destruct (sel_error r) as [fe|] eqn:Ee.
  - inversion Hout; subst ok w'; clear Hout.
    destruct (Hsel (Supabase.tableName m) (Supabase.rowId m) w fe) as [Hc Hn].
    { rewrite Es. exact Ee. }
    destruct (Supabase.is_rls_violation fe); run; rewrite Hc; simpl; rewrite Hn; simpl.
    all: trace_norm; do 2 eexists; (split; [reflexivity|]); simpl.
    all: repeat split.
  - destruct (Supabase.updatedTrials (sel_data r) t) as [updated|] eqn:Eu.
    + simpl. destruct (toISOString env w1) as [now w2] eqn:En. simpl.
      destruct (update_eq_id env (Supabase.tableName m)
                  [("trials", VArr updated); ("updated_at", VStr now)]
                  (Supabase.rowId m) w2) as [ue w3] eqn:Eup.
      inversion Hout; subst ok w'; clear Hout.
      simpl. destruct ue as [ue|].
      * assert (Hn : Supabase.says_not_found ue = false).
        { eapply Hupd. rewrite Eup. reflexivity. }
        destruct (Supabase.is_rls_violation ue); run; rewrite Hn; simpl.
        all: trace_norm; do 2 eexists; (split; [reflexivity|]); simpl.
        all: repeat split.
      * trace_norm; do 2 eexists; (split; [reflexivity|]); simpl.
        rewrite (updatedTrials_last _ _ _ Eu). repeat split.
    + inversion Hout; subst ok w'; clear Hout.
      simpl. trace_norm. do 2 eexists. (split; [reflexivity|]). simpl.
      repeat split.
Qed.

Lemma drained_entries (table : string) (id : value) (ts : list TrialData) :
  forall w, map fst (drained env table id ts w) = ts.
Proof.
  induction ts as [|t ts IH]; intros w; simpl; auto.
  destruct (drained_entry env table id t w) as [ok w']. simpl. now rewrite IH.
Qed.

(** The drain on a ready manager, told from the replies of the service,
    when no service reports a missing row: the entries whose fetch and
    update are accepted are written, in order; each of the others is
    logged; the manager changes by the operation count only. *)
Lemma drain_outcome (fuel : nat) (ts : list TrialData) :
  no_row_missing env ->
  forall s : State,
  Supabase.initialized (self s) = true ->
  truthy (Supabase.rowId (self s)) = true ->
  exists d w',
    for_of ts (drain_one env (S fuel)) s
    = Some (Resolved tt,
            mkSys (add_operations
                     (List.length
                        (accepted_entries
                           (drained env (Supabase.tableName (self s))
                              (Supabase.rowId (self s)) ts (world s))))
                     (self s))
                  w' (trace s ++ d))
    /\ persisted d
       = map VObj (accepted_entries
                     (drained env (Supabase.tableName (self s))
                        (Supabase.rowId (self s)) ts (world s)))
    /\ List.length (filter is_drain_error d)
       = List.length (failed_entries
                        (drained env (Supabase.tableName (self s))
                           (Supabase.rowId (self s)) ts (world s))).
Proof.
  intros Hnrm. induction ts as [|t ts IH]; intros s Hi Hr.
  - exists [], (world s). simpl. rewrite add_operations_0, app_nil_r.
    destruct s. repeat split.
  - simpl drained.
    destruct (drained_entry env (Supabase.tableName (self s)) (Supabase.rowId (self s))
                t (world s)) as [ok w1] eqn:Hout.
    destruct (attempt_ready_outcome fuel t s ok w1 Hnrm Hi Hr Hout)
      as (c & d1 & Hrun & Hc & _ & Herr & Hper).
    destruct (drain_entry_caught (S fuel) t ts s c _ Hrun) as [_ Hstep].
    rewrite Hstep. clear Hstep.
    destruct c as [[]|e]; simpl in Hc; subst ok; simpl drain_caught.
    + destruct (IH (mkSys (Supabase.incr_operations (self s)) w1
                          (trace s ++ Invoke "addTrialData" t :: d1)))
        as (d2 & w2 & Hrun2 & Hper2 & Herr2);
        [destruct s as [[] ? ?]; assumption .. |].
      rewrite Hrun2.
      replace (Supabase.tableName (Supabase.incr_operations (self s)))
        with (Supabase.tableName (self s)) in * by (destruct s as [[] ? ?]; reflexivity).
      replace (Supabase.rowId (Supabase.incr_operations (self s)))
        with (Supabase.rowId (self s)) in * by (destruct s as [[] ? ?]; reflexivity).
      simpl self in *. simpl world in *. simpl trace.
      exists ((Invoke "addTrialData" t :: d1) ++ d2), w2.
      unfold accepted_entries, failed_entries in *. simpl.
      rewrite add_operations_incr, <- app_assoc.
      split; [reflexivity|].
      rewrite persisted_app, filter_app, length_app. simpl.
      rewrite Hper, Hper2, Herr, Herr2. split; reflexivity.
    + destruct (IH (mkSys (self s) w1
                      ((trace s ++ Invoke "addTrialData" t :: d1)
                       ++ [Console ERROR
                             [Txt "[SupabaseManager] Error processing pending trial:";
                              Thr e]])))
        as (d2 & w2 & Hrun2 & Hper2 & Herr2);
        [assumption .. |].
      rewrite Hrun2. simpl self in *. simpl world in *. simpl trace.
      exists ((Invoke "addTrialData" t :: d1)
              ++ [Console ERROR
                    [Txt "[SupabaseManager] Error processing pending trial:"; Thr e]]
              ++ d2), w2.
      unfold accepted_entries, failed_entries in *. simpl.
      rewrite <- !app_assoc.
      split; [reflexivity|].
      rewrite !persisted_app, !filter_app, !length_app. simpl.
      rewrite Hper, Hper2, Herr, Herr2. split; reflexivity.
Qed.

End RowStore.

(** ** The claims *)

(** C5.  When the [no_upload] flag of a trial is [true], the function
    returned by [createDataUpdateCallback], of either manager, returns the
    trial with the flag deleted and every other property as it was, and
    leaves the manager, the world and the trace untouched: no remote call
    is made. *)
Theorem suppressed_trial_is_returned_without_upload {W : Type} (env : Env W)
    (fuel : nat) (data : TrialData)
    (sf : Sys Firebase.FirebaseManager W) (ss : Sys Supabase.SupabaseManager W) :
  obj_get "no_upload" data = Some (VBool true) ->
  Firebase.createDataUpdateCallback env data sf
  = Some (Resolved (obj_delete "no_upload" data), sf)
  /\ Supabase.createDataUpdateCallback env fuel data ss
     = Some (Resolved (obj_delete "no_upload" data), ss)
  /\ obj_get "no_upload" (obj_delete "no_upload" data) = None
  /\ (forall k, String.eqb k "no_upload" = false ->
        obj_get k (obj_delete "no_upload" data) = obj_get k data).
Proof.
  intros Hflag.
  unfold Firebase.createDataUpdateCallback, Supabase.createDataUpdateCallback, prop.
  rewrite Hflag. simpl.
  repeat split.
  - apply obj_get_delete_same.
  - intros k Hk. now apply obj_get_delete_other.
Qed.

Lemma suppressed_trial_is_returned_without_upload_witness :
  let data := [("trial_type", VStr "t1"); ("no_upload", VBool true)] in
  let sf := Firebase.constructor Scripted.env
              {| Firebase.opt_metadata := None; Firebase.collectionName := None;
                 Firebase.documentId := None |} [] in
  let ss := Supabase.constructor Scripted.env default_options [] in
  Firebase.createDataUpdateCallback Scripted.env data sf
  = Some (Resolved [("trial_type", VStr "t1")], sf)
  /\ Supabase.createDataUpdateCallback Scripted.env 1 data ss
     = Some (Resolved [("trial_type", VStr "t1")], ss).
Proof.
  intros data sf ss.
  destruct (suppressed_trial_is_returned_without_upload Scripted.env 1 data sf ss)
    as (Hf & Hs & _); [reflexivity|].
  split; [exact Hf | exact Hs].
Defined.

(** C10.  When the manager is not ready and the insert of
    [initializeExperiment] comes back with an error, or without a row
    identifier, [initializeExperiment] rejects and the manager is exactly
    as before: same queue, same (absent) identifier, still not initialised,
    same operation count.  The insert is the only remote call made. *)
Theorem failed_insert_leaves_manager_unchanged {W : Type} (env : Env W)
    (fuel : nat) (additionalData : obj) (s : Sys Supabase.SupabaseManager W)
    (r : InsertResponse) (w1 : W) :
  Supabase.initialized (self s) = false ->
  insert_select env (Supabase.tableName (self s))
    (obj_lit [Supabase.metadata (self s); [("trials", VArr [])]; additionalData])
    (world s) = (r, w1) ->
  ins_error r <> None \/ Supabase.first_row_id (ins_data r) = None ->
  exists e s',
    Supabase.initializeExperiment env (S fuel) additionalData s
    = Some (Rejected e, s')
    /\ self s' = self s
    /\ Supabase.pendingTrials (self s') = Supabase.pendingTrials (self s)
    /\ Supabase.rowId (self s') = Supabase.rowId (self s)
    /\ Supabase.initialized (self s') = false
    /\ Supabase.numberOfOperations (self s') = Supabase.numberOfOperations (self s)
    /\ kinds (trace s') = kinds (trace s) ++ [KInsert].
Proof.
  intros Hi Hins Hfail.
  destruct (initialize_insert_fails env fuel additionalData s r w1) as (d & Hrun & Hk);
    [now rewrite Hi | assumption | assumption |].
  do 2 eexists. split; [exact Hrun|]. simpl.
  rewrite kinds_app, Hk. repeat split; auto.
Qed.

Lemma failed_insert_leaves_manager_unchanged_witness :
  let s := Supabase.constructor Scripted.env default_options
             [Scripted.OnInsert {| ins_data := None;
                                   ins_error := Some Scripted.server_error |}] in
  exists e s',
    Supabase.initializeExperiment Scripted.env 1 [] s = Some (Rejected e, s')
    /\ self s' = self s
    /\ Supabase.pendingTrials (self s') = Supabase.pendingTrials (self s)
    /\ Supabase.rowId (self s') = Supabase.rowId (self s)
    /\ Supabase.initialized (self s') = false
    /\ Supabase.numberOfOperations (self s') = Supabase.numberOfOperations (self s)
    /\ kinds (trace s') = kinds (trace s) ++ [KInsert].
Proof.
  intros s.
  apply (failed_insert_leaves_manager_unchanged Scripted.env 0 [] s
           {| ins_data := None; ins_error := Some Scripted.server_error |} []).
  - reflexivity.
  - reflexivity.
  - left. discriminate.
Defined.

(** C7.  On a ready manager, when the fetch of [addTrialData] comes back
    with the error code [PGRST116] (row not found), the manager forgets its
    row identifier, is no longer initialised, gets the trial appended to
    its queue, and [initializeExperiment()] is called on that state, inside
    the [try] of [addTrialData]; the fetch is the only remote call before
    that call. *)
Theorem row_not_found_requeues_and_reinitializes {W : Type} (env : Env W)
    (fuel : nat) (t : TrialData) (s : Sys Supabase.SupabaseManager W)
    (r : SelectResponse) (w1 : W) (fetchError : Thrown) :
  Supabase.initialized (self s) = true ->
  truthy (Supabase.rowId (self s)) = true ->
  select_trials_single env (Supabase.tableName (self s)) (Supabase.rowId (self s))
    (world s) = (r, w1) ->
  sel_error r = Some fetchError ->
  code_is fetchError "PGRST116" = true ->
  exists s1,
    Supabase.addTrialData env (S fuel) t s
    = try_catch (Supabase.initializeExperiment env fuel [])
        (Supabase.on_store_failure (Supabase.initializeExperiment env fuel []) t)
        s1
    /\ Supabase.rowId (self s1) = VUndefined
    /\ Supabase.initialized (self s1) = false
    /\ Supabase.pendingTrials (self s1) = Supabase.pendingTrials (self s) ++ [t]
    /\ Supabase.numberOfOperations (self s1) = Supabase.numberOfOperations (self s)
    /\ world s1 = w1
    /\ exists d, trace s1 = trace s ++ d
                 /\ remote_calls d
                    = [SelectTrials (Supabase.tableName (self s))
                         (Supabase.rowId (self s)) r].
Proof.
  intros Hi Hr Hsel He Hcode.
  assert (Hrls : Supabase.is_rls_violation fetchError = false).
  { unfold Supabase.is_rls_violation.
    rewrite (code_is_exclusive fetchError "PGRST116" "42501" Hcode); [reflexivity|].
    discriminate. }
  destruct s as [m w tr]. simpl in *.
  eexists. split.
  - run. rewrite Hi, Hr. simpl. rewrite Hsel. simpl. rewrite He. simpl.
    rewrite Hrls. simpl. rewrite Hcode. trace_norm. reflexivity.
  - simpl. repeat split; auto. eexists. split; reflexivity.
Qed.

Lemma row_not_found_requeues_and_reinitializes_witness :
  let s := Supabase.constructor Scripted.env
             {| Supabase.opt_metadata := None; Supabase.opt_tableName := None;
                Supabase.opt_rowId := Some "r1" |}
             [Scripted.OnSelect {| sel_data := None;
                                   sel_error := Some Scripted.row_not_found |};
              Scripted.inserted "r2"; Scripted.fetched []; Scripted.OnUpdate None] in
  exists s1,
    Supabase.addTrialData Scripted.env 3 trial_t1 s
    = try_catch (Supabase.initializeExperiment Scripted.env 2 [])
        (Supabase.on_store_failure (Supabase.initializeExperiment Scripted.env 2 [])
           trial_t1)
        s1
    /\ Supabase.rowId (self s1) = VUndefined
    /\ Supabase.initialized (self s1) = false
    /\ Supabase.pendingTrials (self s1) = [trial_t1].
Proof.
  intros s.
  destruct (row_not_found_requeues_and_reinitializes Scripted.env 2 trial_t1 s
              {| sel_data := None; sel_error := Some Scripted.row_not_found |}
              [Scripted.inserted "r2"; Scripted.fetched []; Scripted.OnUpdate None]
              Scripted.row_not_found)
    as (s1 & Hrun & Hid & Hinit & Hq & _);
    [reflexivity | reflexivity | reflexivity | reflexivity | reflexivity |].
  exists s1. repeat split; assumption.
Defined.

(** After the recovery of C7 the row is created anew and the queue is
    drained into it: the manager is ready under the new identifier, the
    queue is empty, and the trial is written to the new row. *)
Example row_not_found_recovery_run :
  let s := Supabase.constructor Scripted.env
             {| Supabase.opt_metadata := None; Supabase.opt_tableName := None;
                Supabase.opt_rowId := Some "r1" |}
             [Scripted.OnSelect {| sel_data := None;
                                   sel_error := Some Scripted.row_not_found |};
              Scripted.inserted "r2"; Scripted.fetched []; Scripted.OnUpdate None] in
  exists s',
    Supabase.addTrialData Scripted.env 3 trial_t1 s = Some (Resolved tt, s')
    /\ Supabase.rowId (self s') = VStr "r2"
    /\ Supabase.initialized (self s') = true
    /\ Supabase.pendingTrials (self s') = []
    /\ kinds (trace s') = [KSelect; KInsert; KSelect; KUpdate]
    /\ persisted (trace s') = [VObj trial_t1].
Proof. eexists. split; [vm_compute; reflexivity|]. repeat split. Qed.

(** ** Initialising with a fixed row identifier *)

Lemma DataManager_metadata_absent (k : string) (iso1 iso2 : string) (md : obj) :
  String.eqb k "date" = false ->
  String.eqb k "time" = false ->
  obj_get k md = None ->
  obj_get k (DataManager_metadata iso1 iso2 md) = None.
Proof.
  intros Hd Ht Hmd. unfold DataManager_metadata, obj_lit. cbn [fold_left].
  rewrite obj_get_spread_absent by assumption.
  rewrite obj_get_spread_absent; [reflexivity|].
  simpl. now rewrite Hd, Ht.
Qed.

(** C6 as stated fails: the update of [initializeExperiment] writes the
    [trials] column when the caller's overrides carry one.  A manager
    built with the row identifier [r1] and initialised with
    [{trials: []}] sends an update whose row has the property [trials]. *)
Lemma initialize_with_fixed_id_can_write_trials :
  let s := Supabase.constructor Scripted.env
             {| Supabase.opt_metadata := None; Supabase.opt_tableName := None;
                Supabase.opt_rowId := Some "r1" |}
             [Scripted.OnUpdate None] in
  exists s' row,
    Supabase.initializeExperiment Scripted.env 1 [("trials", VArr [])] s
    = Some (Resolved tt, s')
    /\ remote_calls (trace s') = [Update "experiments" row (VStr "r1") None]
    /\ obj_get "trials" row = Some (VArr [])
    /\ obj_get "trials" row <> None.
Proof.
  do 2 eexists. split; [vm_compute; reflexivity|].
  split; [reflexivity|]. split; [reflexivity | discriminate].
Qed.

(** C6, amended.  A manager constructed with a non-empty row identifier is
    ready at once, without any remote call.  Its [initializeExperiment]
    makes exactly one remote call, an update of that row (no insert) with
    the metadata, the overrides and a fresh [updated_at] merged in this
    order; it resolves and counts one operation when the update is
    accepted and rejects otherwise.  The row written has no [trials]
    property, provided neither the caller's metadata nor the overrides
    have one. *)
Theorem initialize_with_fixed_id_updates_row {W : Type} (env : Env W)
    (fuel : nat) (options : Supabase.SupabaseManagerOptions) (id : string)
    (additionalData : obj) (w : W) :
  Supabase.opt_rowId options = Some id ->
  id <> "" ->
  let s := Supabase.constructor env options w in
  (Supabase.initialized (self s) = true
   /\ Supabase.rowId (self s) = VStr id
   /\ remote_calls (trace s) = [])
  /\ exists now row error c s',
       now = fst (toISOString env (world s))
       /\ row = obj_lit [Supabase.metadata (self s); additionalData;
                         [("updated_at", VStr now)]]
       /\ error = fst (update_eq_id env (Supabase.tableName (self s)) row (VStr id)
                         (snd (toISOString env (world s))))
       /\ Supabase.initializeExperiment env (S fuel) additionalData s = Some (c, s')
       /\ remote_calls (trace s')
          = [Update (Supabase.tableName (self s)) row (VStr id) error]
       /\ (error = None ->
           c = Resolved tt /\ Supabase.numberOfOperations (self s') = 1)
       /\ (forall e, error = Some e ->
           c = Rejected (new_Error ("Failed to initialize experiment data: "
                                    ++ error_text e)%string)
           /\ Supabase.numberOfOperations (self s') = 0)
       /\ Supabase.pendingTrials (self s') = []
       /\ (match Supabase.opt_metadata options with
           | Some md => obj_get "trials" md = None
           | None => True
           end ->
           obj_get "trials" additionalData = None ->
           obj_get "trials" row = None).
Proof.
  intros Hopt Hid s.
  assert (Htruthy : truthy (VStr id) = true).
  { unfold truthy. destruct (String.eqb id "") eqn:E; [|reflexivity].
    apply String.eqb_eq in E. contradiction. }
  subst s. unfold Supabase.constructor. rewrite Hopt.
  destruct (toISOString env w) as [iso1 wa].
  destruct (toISOString env wa) as [iso2 wb].
  cbv zeta. rewrite Htruthy.
  match goal with
  | |- context [Supabase.initializeExperiment env _ _ ?st] => set (s := st)
  end.
  split; [repeat split|].
  destruct (toISOString env (world s)) as [now wc] eqn:Enow.
  destruct (update_eq_id env (Supabase.tableName (self s))
              (obj_lit [Supabase.metadata (self s); additionalData;
                        [("updated_at", VStr now)]])
              (VStr id) wc) as [error wd] eqn:Eup.
  destruct (initialize_updates env fuel additionalData s now wc error wd)
    as (c & m' & d & Hrun & Hcalls & Hok & Hko);
    [reflexivity | exact Htruthy | exact Enow | exact Eup |].
  exists now,
    (obj_lit [Supabase.metadata (self s); additionalData; [("updated_at", VStr now)]]),
    error, c, (mkSys m' wd (trace s ++ d)).
  split; [reflexivity|].
  split; [reflexivity|].
  split; [cbn [fst snd]; rewrite Eup; reflexivity|].
  split; [exact Hrun|].
  split.
  { change (trace (mkSys m' wd (trace s ++ d))) with (trace s ++ d).
    rewrite remote_calls_app, Hcalls. reflexivity. }
  split; [intros Herr; destruct (Hok Herr) as [-> ->]; split; reflexivity|].
  split; [intros e He; destruct (Hko e He) as [-> ->]; split; reflexivity|].
  split.
  - destruct error as [e|].
    + destruct (Hko e eq_refl) as [_ ->]. reflexivity.
    + destruct (Hok eq_refl) as [_ ->]. reflexivity.
  - intros Hmd Hdata. unfold obj_lit. cbn [fold_left].
    rewrite obj_get_spread_absent by reflexivity.
    rewrite obj_get_spread_absent by assumption.
    rewrite obj_get_spread_absent; [reflexivity|].
    apply DataManager_metadata_absent; try reflexivity.
    destruct (Supabase.opt_metadata options); [assumption | reflexivity].
Qed.

Lemma initialize_with_fixed_id_updates_row_witness :
  let options := {| Supabase.opt_metadata := None; Supabase.opt_tableName := None;
                    Supabase.opt_rowId := Some "r1" |} in
  let s := Supabase.constructor Scripted.env options [Scripted.OnUpdate None] in
  Supabase.initialized (self s) = true
  /\ remote_calls (trace s) = []
  /\ exists row s',
       Supabase.initializeExperiment Scripted.env 1 [("participantId", VStr "p1")] s
       = Some (Resolved tt, s')
       /\ remote_calls (trace s') = [Update "experiments" row (VStr "r1") None]
       /\ obj_get "participantId" row = Some (VStr "p1")
       /\ obj_get "trials" row = None
       /\ Supabase.numberOfOperations (self s') = 1.
Proof.
  intros options s.
  assert (Hid : "r1" <> "") by discriminate.
  destruct (initialize_with_fixed_id_updates_row Scripted.env 0 options "r1"
              [("participantId", VStr "p1")] [Scripted.OnUpdate None] eq_refl Hid)
    as ((Hinit & _ & Hcalls) & now & row & error & c & s' & Hnow & Hrow & Herr
        & Hrun & Hupd & Hok & _ & _ & Htrials).
  split; [exact Hinit|]. split; [exact Hcalls|].
  assert (Hnone : error = None) by (rewrite Herr, Hrow, Hnow; reflexivity).
  destruct (Hok Hnone) as [Hc Hn].
  exists row, s'.
  split; [rewrite <- Hc; exact Hrun|].
  split; [rewrite <- Hnone; exact Hupd|].
  split; [rewrite Hrow, Hnow; reflexivity|].
  split; [apply Htrials; [exact I | reflexivity] | exact Hn].
Defined.

(** ** Remote errors on direct calls *)




(** ** Queueing and draining *)


Lemma queue_log_no_write (ts : list TrialData) : completed_writes (queue_log ts) = 0.
Proof. induction ts as [|t ts IH]; simpl; auto. Qed.

Lemma queue_log_kinds (ts : list TrialData) : kinds (queue_log ts) = [].
Proof. induction ts as [|t ts IH]; simpl; auto. Qed.

Lemma queue_log_persisted (ts : list TrialData) : persisted (queue_log ts) = [].
Proof. induction ts as [|t ts IH]; simpl; auto. Qed.




(** C8 as stated fails: a drained entry that failed can be back in the
    queue.  With one queued trial, when the fetch of the drain comes back
    with [PGRST116], the recovery of [addTrialData] queues the trial again
    and calls [initializeExperiment]; when that insert fails, the failure
    reaches the drain, which logs it; the trial is in the queue, the
    manager is not initialised, and the outer [initializeExperiment]
    resolves. *)
Lemma failed_entry_is_requeued_by_recovery :
  let s := Supabase.constructor Scripted.env default_options
             [Scripted.inserted "r1";
              Scripted.OnSelect {| sel_data := None;
                                   sel_error := Some Scripted.row_not_found |};
              Scripted.OnInsert {| ins_data := None;
                                   ins_error := Some Scripted.server_error |}] in
  exists s1 s2,
    add_all Scripted.env 1 [trial_t1] s = Some (Resolved tt, s1)
    /\ Supabase.initializeExperiment Scripted.env 5 [] s1 = Some (Resolved tt, s2)
    /\ List.length (filter is_drain_error (trace s2)) = 1
    /\ persisted (trace s2) = []
    /\ In trial_t1 (Supabase.pendingTrials (self s2))
    /\ Supabase.initialized (self s2) = false.
Proof.
  do 2 eexists.
  split; [vm_compute; reflexivity|].
  split; [vm_compute; reflexivity|].
  split; [reflexivity|]. split; [reflexivity|]. split; [left; reflexivity | reflexivity].
Qed.

Lemma faulty_no_row_missing : no_row_missing Faulty.env.
Proof.
  split.
  - intros table id w e He. destruct w as [|[] w]; simpl in He; inversion He.
    split; reflexivity.
  - intros table row id w e He. destruct w as [|[] w]; simpl in He; inversion He.
    reflexivity.
Qed.

(** C8, amended.  When the insert of [initializeExperiment] returns a row
    identifier, on any service: [initializeExperiment] is the drain loop
    over the queue followed by the count of the insert, and it resolves
    whenever the drain returns; the loop never rejects; the failure of an
    entry is caught and logged, the handler changes nothing else (it does
    not queue the entry again), and the loop goes on with the entries
    after it.  When moreover no service reports a missing row during the
    drain, every queued entry is handed to [addTrialData] once, in order;
    every entry is either written or has its failure logged by the drain,
    once; no entry is queued again: the queue is empty and the manager is
    ready. *)
Theorem drain_failures_are_logged_and_skipped {W : Type} (env : Env W)
    (fuel : nat) (additionalData : obj) (s : Sys Supabase.SupabaseManager W)
    (r : InsertResponse) (w1 : W) (id : value) :
  Supabase.initialized (self s) && truthy (Supabase.rowId (self s)) = false ->
  insert_select env (Supabase.tableName (self s))
    (obj_lit [Supabase.metadata (self s); [("trials", VArr [])]; additionalData])
    (world s) = (r, w1) ->
  ins_error r = None ->
  Supabase.first_row_id (ins_data r) = Some id ->
  Supabase.initializeExperiment env (S fuel) additionalData s
  = match for_of (Supabase.pendingTrials (self s)) (drain_one env fuel)
            (drain_start additionalData r id w1 s) with
    | Some (_, s2) => Some (Resolved tt, drain_end s2)
    | None => None
    end
  /\ (forall ts (s0 : Sys Supabase.SupabaseManager W) c s',
        for_of ts (drain_one env fuel) s0 = Some (c, s') -> c = Resolved tt)
  /\ (forall t rest (s0 : Sys Supabase.SupabaseManager W) c1 s1,
        Supabase.addTrialData env fuel t s0 = Some (c1, s1) ->
        drain_one env fuel t s0 = Some (Resolved tt, drain_caught c1 s1)
        /\ for_of (t :: rest) (drain_one env fuel) s0
           = for_of rest (drain_one env fuel) (drain_caught c1 s1))
  /\ (no_row_missing env ->
      exists d s2,
        Supabase.initializeExperiment env (S (S fuel)) additionalData s
        = Some (Resolved tt, s2)
        /\ trace s2 = trace s ++ d
        /\ calls_addTrialData d = Supabase.pendingTrials (self s)
        /\ List.length (filter is_drain_error d) + List.length (persisted d)
           = List.length (Supabase.pendingTrials (self s))
        /\ Supabase.pendingTrials (self s2) = []
        /\ Supabase.initialized (self s2) = true
        /\ Supabase.rowId (self s2) = id).
Proof.
  intros Hpath Hins He Hid.
  split; [exact (initialize_then_drain env fuel additionalData s r w1 id Hpath Hins He Hid)|].
  split; [exact (drain_resolves env fuel)|].
  split; [intros t rest s0 c1 s1; apply drain_entry_caught|].
  intros Hnrm.
  destruct (initialize_inserts env fuel additionalData s r w1 id Hnrm Hpath Hins He Hid)
    as (d & w' & n & Hrun & Hcalls & _ & _ & Herr & Hper & _).
  do 2 eexists. split; [exact Hrun|].
  split; [reflexivity|].
  simpl. rewrite Hcalls, Hper. repeat split. exact Herr.
Qed.

(** A drain of three entries on a service where the fetch of the first
    and the update of the second fail: both failures are logged, the third
    entry is still tried and written, nothing is queued again. *)
Lemma drain_failures_are_logged_and_skipped_witness :
  let s := mkSys {| Supabase.metadata := []; Supabase.tableName := "experiments";
                    Supabase.rowId := VUndefined; Supabase.numberOfOperations := 0;
                    Supabase.initialized := false;
                    Supabase.pendingTrials := [trial_t1; trial_t2; trial_t3] |}
                 [Faulty.FetchFails; Faulty.UpdateFails; Faulty.Works] [] in
  exists s2,
    Supabase.initializeExperiment Faulty.env 2 [] s = Some (Resolved tt, s2)
    /\ calls_addTrialData (trace s2) = [trial_t1; trial_t2; trial_t3]
    /\ List.length (filter is_drain_error (trace s2)) = 2
    /\ persisted (trace s2) = [VObj trial_t3]
    /\ kinds (trace s2) = [KInsert; KSelect; KSelect; KUpdate; KSelect; KUpdate]
    /\ Supabase.pendingTrials (self s2) = []
    /\ Supabase.initialized (self s2) = true
    /\ Supabase.rowId (self s2) = VStr "row-1".
Proof.
  intros s.
  destruct (drain_failures_are_logged_and_skipped Faulty.env 0 [] s _ _ (VStr "row-1")
              eq_refl eq_refl eq_refl eq_refl)
    as (_ & _ & _ & Hdrain).
  destruct (Hdrain faulty_no_row_missing)
    as (d & s2 & Hrun & Htr & Hcalls & Hsum & Hq & Hi & Hid).
  assert (Hs2 : Some (Resolved tt, s2)
                = Supabase.initializeExperiment Faulty.env 2 [] s)
    by (symmetry; exact Hrun).
  vm_compute in Hs2. injection Hs2 as Hs2. subst s2.
  eexists. split; [exact Hrun|].
  split; [reflexivity|]. split; [reflexivity|]. split; [reflexivity|].
  split; [reflexivity|]. split; [exact Hq|]. split; [exact Hi | exact Hid].
Defined.

(** A drain in which the first entry fails and the second succeeds: the
    failure is logged once, the second entry is still tried and written,
    and nothing is left in the queue. *)
Example drain_continues_after_failure :
  let s := Supabase.constructor Scripted.env default_options
             [Scripted.inserted "r1";
              Scripted.OnSelect {| sel_data := None;
                                   sel_error := Some Scripted.server_error |};
              Scripted.fetched []; Scripted.OnUpdate None] in
  exists s2,
    (add_all Scripted.env 1 [trial_t1; trial_t2] ;;
     Supabase.initializeExperiment Scripted.env 2 []) s
    = Some (Resolved tt, s2)
    /\ calls_addTrialData (trace s2) = [trial_t1; trial_t2; trial_t1; trial_t2]
    /\ List.length (filter is_drain_error (trace s2)) = 1
    /\ persisted (trace s2) = [VObj trial_t2]
    /\ Supabase.pendingTrials (self s2) = []
    /\ Supabase.numberOfOperations (self s2) = 2.
Proof.
  eexists. split; [vm_compute; reflexivity|]. repeat split.
Qed.

(** ** The pending queue *)

(** C3 as stated fails: an accepted entry can end neither written nor in
    the queue.  With one queued trial, when the insert succeeds and the
    fetch of the drain fails with a server error, the drain logs the
    failure and drops the trial: nothing is written, the queue is empty,
    and the finish callback has no unprocessed trial to warn about. *)
Lemma failed_drain_loses_entry :
  let s := Supabase.constructor Scripted.env default_options
             [Scripted.inserted "r1";
              Scripted.OnSelect {| sel_data := None;
                                   sel_error := Some Scripted.server_error |}] in
  exists s3,
    (add_all Scripted.env 1 [trial_t1] ;;
     Supabase.initializeExperiment Scripted.env 5 [] ;;
     Supabase.createFinishCallback) s
    = Some (Resolved tt, s3)
    /\ ~ In (VObj trial_t1) (persisted (trace s3))
    /\ ~ In trial_t1 (Supabase.pendingTrials (self s3))
    /\ filter is_update (trace s3) = []
    /\ filter is_warning (trace s3) = [].
Proof.
  eexists. split; [vm_compute; reflexivity|].
  split; [intros []|]. split; [intros []|]. split; reflexivity.
Qed.

(** The same entry can also be written twice: when the fetch of
    [addTrialData] comes back with [PGRST116] and the insert of the
    recovery fails with an [Error] whose message contains [not found], the
    [catch] of [addTrialData] queues the trial a second time. *)
Example recovery_can_queue_entry_twice :
  let s := Supabase.constructor Scripted.env
             {| Supabase.opt_metadata := None; Supabase.opt_tableName := None;
                Supabase.opt_rowId := Some "r1" |}
             [Scripted.OnSelect {| sel_data := None;
                                   sel_error := Some Scripted.row_not_found |};
              Scripted.OnInsert {| ins_data := None;
                                   ins_error := Some (new_Error "table not found") |};
              Scripted.inserted "r2";
              Scripted.fetched []; Scripted.OnUpdate None;
              Scripted.fetched [VObj trial_t1]; Scripted.OnUpdate None] in
  exists s',
    Supabase.addTrialData Scripted.env 5 trial_t1 s = Some (Resolved tt, s')
    /\ persisted (trace s') = [VObj trial_t1; VObj trial_t1].
Proof.
  eexists. split; [vm_compute; reflexivity|]. reflexivity.
Qed.

Lemma finish_reports_queue {W : Type} (s : Sys Supabase.SupabaseManager W) :
  exists s',
    Supabase.createFinishCallback s = Some (Resolved tt, s')
    /\ self s' = self s
    /\ (Supabase.pendingTrials (self s) <> [] ->
        exists d,
          trace s'
          = trace s ++ d
            ++ [unprocessed_warning (List.length (Supabase.pendingTrials (self s)))]).
Proof.
  destruct s as [m w tr].
  unfold Supabase.createFinishCallback, Supabase.getNumberOfOperations.
  unfold bind, get_this, ret, console, emit. simpl.
  destruct (Supabase.pendingTrials m) as [|t ts']; simpl.
  - eexists. split; [reflexivity|]. split; [reflexivity|]. congruence.
  - eexists. split; [reflexivity|]. split; [reflexivity|].
    intros _.
    exists [Console LOG [Txt "[SupabaseManager] Total operations performed:";
                         Num (Supabase.numberOfOperations m)]].
    simpl. rewrite <- app_assoc. reflexivity.
Qed.

Lemma finish_is_quiet {W : Type} (s : Sys Supabase.SupabaseManager W) :
  Supabase.pendingTrials (self s) = [] ->
  Supabase.createFinishCallback s
  = Some (Resolved tt,
          mkSys (self s) (world s)
                (trace s
                 ++ [Console LOG [Txt "[SupabaseManager] Total operations performed:";
                                  Num (Supabase.numberOfOperations (self s))]])).
Proof.
  intros Hq. destruct s as [m w tr].
  unfold Supabase.createFinishCallback, Supabase.getNumberOfOperations.
  unfold bind, get_this, ret, console, emit. simpl in *. rewrite Hq. reflexivity.
Qed.

(** C3, amended.  The trials accepted while the manager is not
    initialised are kept in the queue, each once, in the order of their
    arrival.  As long as they are there the finish callback reports their
    number as not processed, and an [initializeExperiment] whose insert
    fails or returns no row identifier leaves them there.  When the insert
    returns a row identifier and every fetch and update of the drain is
    accepted, each of them is written once, in order, and the queue is
    empty.  When the insert returns a row identifier and no service
    reports a missing row during the drain, the entries whose fetch and
    update the service accepts are written, once and in order; every
    other entry has its failure logged by the drain and is neither written
    nor left in the queue, and the finish callback then prints no
    warning. *)
Theorem queued_entries_are_kept_until_drained {W : Type} (env : Env W)
    (fuel : nat) (ts : list TrialData) (s : Sys Supabase.SupabaseManager W) :
  Supabase.initialized (self s) = false ->
  Supabase.pendingTrials (self s) = [] ->
  exists s1,
    add_all env (S fuel) ts s = Some (Resolved tt, s1)
    /\ Supabase.pendingTrials (self s1) = ts
    /\ (exists s',
          Supabase.createFinishCallback s1 = Some (Resolved tt, s')
          /\ self s' = self s1
          /\ (ts <> [] ->
              exists d,
                trace s' = trace s1 ++ d ++ [unprocessed_warning (List.length ts)]))
    /\ (forall additionalData r w1,
          insert_select env (Supabase.tableName (self s1))
            (obj_lit [Supabase.metadata (self s1); [("trials", VArr [])];
                      additionalData])
            (world s1) = (r, w1) ->
          ins_error r <> None \/ Supabase.first_row_id (ins_data r) = None ->
          exists e s',
            Supabase.initializeExperiment env (S fuel) additionalData s1
            = Some (Rejected e, s')
            /\ Supabase.pendingTrials (self s') = ts)
    /\ (accepts_all env ->
        forall additionalData,
        exists d s2,
          Supabase.initializeExperiment env (S (S fuel)) additionalData s1
          = Some (Resolved tt, s2)
          /\ trace s2 = trace s1 ++ d
          /\ persisted d = map VObj ts
          /\ Supabase.pendingTrials (self s2) = [])
    /\ (no_row_missing env ->
        forall additionalData r w1 id,
          insert_select env (Supabase.tableName (self s1))
            (obj_lit [Supabase.metadata (self s1); [("trials", VArr [])];
                      additionalData])
            (world s1) = (r, w1) ->
          ins_error r = None ->
          Supabase.first_row_id (ins_data r) = Some id ->
          let outcome := drained env (Supabase.tableName (self s1)) id ts w1 in
          exists d s2,
            Supabase.initializeExperiment env (S (S fuel)) additionalData s1
            = Some (Resolved tt, s2)
            /\ trace s2 = trace s1 ++ d
            /\ map fst outcome = ts
            /\ persisted d = map VObj (accepted_entries outcome)
            /\ List.length (filter is_drain_error d)
               = List.length (failed_entries outcome)
            /\ Supabase.pendingTrials (self s2) = []
            /\ Supabase.createFinishCallback s2
               = Some (Resolved tt,
                       mkSys (self s2) (world s2)
                         (trace s2
                          ++ [Console LOG
                                [Txt "[SupabaseManager] Total operations performed:";
                                 Num (Supabase.numberOfOperations (self s2))]]))).
Proof.
  intros Hi Hq.
  eexists. split; [apply add_all_queues; exact Hi|].
  rewrite Hq. simpl app.
  set (s1 := mkSys (Supabase.set_pendingTrials ts (self s)) (world s)
                   (trace s ++ queue_log ts)).
  assert (Hq1 : Supabase.pendingTrials (self s1) = ts) by reflexivity.
  assert (Hi1 : Supabase.initialized (self s1) = false) by exact Hi.
  split; [exact Hq1|].
  split; [|split; [|split]].
  - destruct (finish_reports_queue s1) as (s' & Hrun & Hself & Hwarn).
    exists s'. split; [exact Hrun|]. split; [exact Hself|].
    rewrite Hq1 in Hwarn. exact Hwarn.
  - intros data r w1 Hins Hfail.
    destruct (initialize_insert_fails env fuel data s1 r w1) as (d & Hrun & _);
      [now rewrite Hi1 | exact Hins | exact Hfail |].
    do 2 eexists. split; [exact Hrun | exact Hq1].
  - intros Hacc data.
    destruct (insert_select env (Supabase.tableName (self s1))
                (obj_lit [Supabase.metadata (self s1); [("trials", VArr [])]; data])
                (world s1)) as [r w1] eqn:Hins.
    pose proof Hacc as (Ha & Hb & Hc).
    destruct (Ha (Supabase.tableName (self s1))
                (obj_lit [Supabase.metadata (self s1); [("trials", VArr [])]; data])
                (world s1)) as [He Hid].
    rewrite Hins in He, Hid. simpl in He, Hid.
    destruct (Supabase.first_row_id (ins_data r)) as [id|] eqn:Eid; [|congruence].
    destruct (initialize_inserts env fuel data s1 r w1 id)
      as (d & w' & n & Hrun & _ & _ & _ & _ & _ & _ & Hper);
      [ apply accepts_all_no_row_missing; exact Hacc
      | now rewrite Hi1 | exact Hins | exact He | exact Eid |].
    do 2 eexists. split; [exact Hrun|].
    split; [reflexivity|].
    destruct (Hper Hacc) as [Hper' _].
    simpl. rewrite Hper', Hq1. split; reflexivity.
  - intros Hnrm data r w1 id Hins He Hid outcome.
    assert (Hpath : Supabase.initialized (self s1) && truthy (Supabase.rowId (self s1))
                    = false) by now rewrite Hi1.
    pose proof (initialize_then_drain env (S fuel) data s1 r w1 id Hpath Hins He Hid)
      as Hinit.
    rewrite Hq1 in Hinit.
    destruct (drain_outcome env fuel ts Hnrm (drain_start data r id w1 s1))
      as (d & w' & Hrun & Hper & Herr);
      [reflexivity | exact (first_row_id_truthy _ _ Hid) |].
    rewrite Hrun in Hinit.
    change (drained env
              (Supabase.tableName (self (drain_start data r id w1 s1)))
              (Supabase.rowId (self (drain_start data r id w1 s1))) ts
              (world (drain_start data r id w1 s1)))
      with outcome in Hper, Herr.
    eexists _, _. split; [exact Hinit|].
    split.
    { unfold drain_end, drain_start. simpl trace.
      rewrite <- !app_assoc. reflexivity. }
    split; [apply drained_entries|].
    split.
    { rewrite !persisted_app, Hper. simpl.
      destruct (Nat.ltb 0 (List.length ts)); simpl; now rewrite app_nil_r. }
    split.
    { rewrite !filter_app, !length_app, Herr. simpl.
      destruct (Nat.ltb 0 (List.length ts)); simpl; lia. }
    split; [reflexivity|].
    apply finish_is_quiet. reflexivity.
Qed.

Lemma accepting_accepts_all : accepts_all Accepting.env.
Proof.
  split; [|split].
  - intros table row w. simpl. split; [reflexivity|].
    unfold prop. rewrite obj_get_set_same. discriminate.
  - intros table id w. simpl. split; [reflexivity|]. discriminate.
  - reflexivity.
Qed.

(** On a service that accepts everything both queued trials are written,
    in order.  On a service where the fetch of the first entry and the
    update of the second fail, only the third is written; the other two
    are logged by the drain and are no longer in the queue, and the finish
    callback prints no warning. *)
Lemma queued_entries_are_kept_until_drained_witness :
  (let s := Supabase.constructor Accepting.env default_options 0 in
   exists s1 d s2,
     add_all Accepting.env 1 [trial_t1; trial_t2] s = Some (Resolved tt, s1)
     /\ Supabase.pendingTrials (self s1) = [trial_t1; trial_t2]
     /\ Supabase.initializeExperiment Accepting.env 2 [] s1 = Some (Resolved tt, s2)
     /\ trace s2 = trace s1 ++ d
     /\ persisted d = [VObj trial_t1; VObj trial_t2]
     /\ Supabase.pendingTrials (self s2) = [])
  /\ (let s := Supabase.constructor Faulty.env default_options
                 [Faulty.FetchFails; Faulty.UpdateFails; Faulty.Works] in
      exists s1 d s2 s3,
        add_all Faulty.env 1 [trial_t1; trial_t2; trial_t3] s = Some (Resolved tt, s1)
        /\ Supabase.pendingTrials (self s1) = [trial_t1; trial_t2; trial_t3]
        /\ Supabase.initializeExperiment Faulty.env 2 [] s1 = Some (Resolved tt, s2)
        /\ trace s2 = trace s1 ++ d
        /\ persisted d = [VObj trial_t3]
        /\ List.length (filter is_drain_error d) = 2
        /\ Supabase.pendingTrials (self s2) = []
        /\ Supabase.createFinishCallback s2 = Some (Resolved tt, s3)
        /\ filter is_warning (trace s3) = []).
Proof.
  split.
  - intros s.
    destruct (queued_entries_are_kept_until_drained Accepting.env 0
                [trial_t1; trial_t2] s eq_refl eq_refl)
      as (s1 & Hadd & Hq & _ & _ & Hdrain & _).
    destruct (Hdrain accepting_accepts_all []) as (d & s2 & Hrun & Htr & Hper & Hempty).
    exists s1, d, s2. repeat split; assumption.
  - intros s.
    destruct (queued_entries_are_kept_until_drained Faulty.env 0
                [trial_t1; trial_t2; trial_t3] s eq_refl eq_refl)
      as (s1 & Hadd & Hq & _ & _ & _ & Hdrain).
    assert (Hs1 : Some (Resolved tt, s1)
                  = add_all Faulty.env 1 [trial_t1; trial_t2; trial_t3] s)
      by (symmetry; exact Hadd).
    vm_compute in Hs1. injection Hs1 as Hs1. subst s1.
    destruct (Hdrain faulty_no_row_missing [] _ _ (VStr "row-1")
                eq_refl eq_refl eq_refl)
      as (d & s2 & Hrun & Htr & _ & Hper & Herr & Hempty & Hfinish).
    assert (Hs2 : Some (Resolved tt, s2)
                  = Supabase.initializeExperiment Faulty.env 2 []
                      (mkSys (Supabase.set_pendingTrials [trial_t1; trial_t2; trial_t3]
                                (self s))
                             (world s) (trace s ++ queue_log [trial_t1; trial_t2; trial_t3])))
      by (symmetry; exact Hrun).
    vm_compute in Hs2. injection Hs2 as Hs2. subst s2.
    eexists _, d, _, _.
    split; [exact Hadd|]. split; [exact Hq|]. split; [exact Hrun|].
    split; [exact Htr|]. split; [exact Hper|]. split; [exact Herr|].
    split; [exact Hempty|]. split; [exact Hfinish | reflexivity].
Defined.

(** ** The operation count *)

Lemma constructor_without_id {W : Type} (env : Env W)
    (options : Supabase.SupabaseManagerOptions) (w : W) :
  Supabase.opt_rowId options = None ->
  exists md table w',
    Supabase.constructor env options w
    = mkSys {| Supabase.metadata := md; Supabase.tableName := table;
               Supabase.rowId := VUndefined; Supabase.numberOfOperations := 0;
               Supabase.initialized := false; Supabase.pendingTrials := [] |}
            w' [].
Proof.
  intros Hopt. unfold Supabase.constructor. rewrite Hopt.
  destruct (toISOString env w) as [iso1 wa].
  destruct (toISOString env wa) as [iso2 wb].
  do 3 eexists. reflexivity.
Qed.

(** C4.  Whenever [initializeExperiment] or [addTrialData] returns, the
    operation count has grown by exactly the number of completed writes
    among the remote calls made meanwhile: one for each insert that came
    back without error and with a row identifier, one for each update that
    came back without error (those of a drain included), nothing for a
    fetch or for a call that failed.  [getNumberOfOperations] returns the
    count and changes nothing.  Both methods do return when no service
    reports a missing row.  On a manager constructed without a row
    identifier (whatever its other options), two [addTrialData] followed by [initializeExperiment({})]
    make, when the service accepts every call, one insert and then, for
    each of the two trials in order, a fetch and an update carrying that
    trial; the count is then 3. *)
Theorem operations_are_counted {W : Type} (env : Env W) :
  (forall fuel additionalData (s : Sys Supabase.SupabaseManager W) c s',
      Supabase.initializeExperiment env fuel additionalData s = Some (c, s') ->
      exists d,
        trace s' = trace s ++ d
        /\ Supabase.numberOfOperations (self s')
           = Supabase.numberOfOperations (self s) + completed_writes d)
  /\ (forall fuel t (s : Sys Supabase.SupabaseManager W) c s',
      Supabase.addTrialData env fuel t s = Some (c, s') ->
      exists d,
        trace s' = trace s ++ d
        /\ Supabase.numberOfOperations (self s')
           = Supabase.numberOfOperations (self s) + completed_writes d)
  /\ (forall s : Sys Supabase.SupabaseManager W,
      Supabase.getNumberOfOperations s
      = Some (Resolved (Supabase.numberOfOperations (self s)), s))
  /\ (no_row_missing env ->
      forall fuel additionalData t (s : Sys Supabase.SupabaseManager W),
        (exists c s',
            Supabase.initializeExperiment env (S (S fuel)) additionalData s
            = Some (c, s'))
        /\ (exists c s',
            Supabase.addTrialData env (S (S (S fuel))) t s = Some (c, s')))
  /\ (accepts_all env ->
      forall fuel options t1 t2 w,
      Supabase.opt_rowId options = None ->
      exists s3,
        (add_all env (S fuel) [t1; t2] ;;
         Supabase.initializeExperiment env (S (S fuel)) [] ;;
         Supabase.getNumberOfOperations)
          (Supabase.constructor env options w)
        = Some (Resolved 3, s3)
        /\ kinds (trace s3) = [KInsert; KSelect; KUpdate; KSelect; KUpdate]
        /\ persisted (trace s3) = [VObj t1; VObj t2]).
Proof.
  split; [|split; [|split; [|split]]].
  - intros fuel data s c s' H. exact (proj1 (accounting env fuel) data s c s' H).
  - intros fuel t s c s' H. exact (proj2 (accounting env fuel) t s c s' H).
  - intros s. reflexivity.
  - intros Hnrm fuel data t s. split.
    + now apply initializeExperiment_returns.
    + now apply addTrialData_returns.
  - intros Hacc fuel options t1 t2 w Hopt.
    destruct (constructor_without_id env options w Hopt) as (md & table & w0 & ->).
    match goal with
    | |- context [bind (add_all env (S fuel) [t1; t2]) _ ?st] => set (s0 := st)
    end.
    unfold bind at 1.
    rewrite (add_all_queues env fuel [t1; t2] s0 eq_refl).
    set (s1 := mkSys (Supabase.set_pendingTrials
                        (Supabase.pendingTrials (self s0) ++ [t1; t2]) (self s0))
                     (world s0) (trace s0 ++ queue_log [t1; t2])).
    destruct (insert_select env (Supabase.tableName (self s1))
                (obj_lit [Supabase.metadata (self s1); [("trials", VArr [])]; []])
                (world s1)) as [r w1] eqn:Hins.
    pose proof Hacc as (Ha & _ & _).
    destruct (Ha (Supabase.tableName (self s1))
                (obj_lit [Supabase.metadata (self s1); [("trials", VArr [])]; []])
                (world s1)) as [He Hid].
    rewrite Hins in He, Hid. simpl in He, Hid.
    destruct (Supabase.first_row_id (ins_data r)) as [id|] eqn:Eid; [|congruence].
    destruct (initialize_inserts env fuel [] s1 r w1 id)
      as (d & w' & n & Hrun & _ & _ & _ & _ & Hn & _ & Hper);
      [ apply accepts_all_no_row_missing; exact Hacc
      | reflexivity | exact Hins | exact He | exact Eid |].
    destruct (Hper Hacc) as [Hp Hk].
    unfold bind at 1. rewrite Hrun.
    unfold Supabase.getNumberOfOperations, bind, get_this, ret.
    eexists. split; [|split].
    + simpl. f_equal. f_equal. f_equal. rewrite <- Hn, Hp. reflexivity.
    + simpl. rewrite Hk. reflexivity.
    + simpl. rewrite Hp. reflexivity.
Qed.

Lemma operations_are_counted_witness :
  exists s3,
    (add_all Accepting.env 1 [trial_t1; trial_t1] ;;
     Supabase.initializeExperiment Accepting.env 2 [] ;;
     Supabase.getNumberOfOperations)
      (Supabase.constructor Accepting.env default_options 0)
    = Some (Resolved 3, s3)
    /\ kinds (trace s3) = [KInsert; KSelect; KUpdate; KSelect; KUpdate]
    /\ persisted (trace s3) = [VObj trial_t1; VObj trial_t1].
Proof.
  exact (proj2 (proj2 (proj2 (proj2 (operations_are_counted Accepting.env))))
           accepting_accepts_all 0 default_options trial_t1 trial_t1 0 eq_refl).
Defined.

(** * Further properties of the code *)

(** ** Objects with distinct keys *)

Lemma obj_set_fresh (k : string) (v : value) (o : obj) :
  obj_get k o = None -> obj_set k v o = o ++ [(k, v)].
Proof.
  induction o as [|[k' v'] o IH]; simpl; auto.
  destruct (String.eqb k k'); [discriminate|].
  intros H. now rewrite IH.
Qed.

Lemma obj_get_app (k : string) (a b : obj) :
  obj_get k (a ++ b)
  = match obj_get k a with
    | Some v => Some v
    | None => obj_get k b
    end.
Proof.
  induction a as [|[k' v'] a IH]; simpl; auto.
  destruct (String.eqb k k'); auto.
Qed.

Lemma obj_get_None_notin (k : string) (o : obj) :
  obj_get k o = None <-> ~ In k (map fst o).
Proof.
  induction o as [|[k' v'] o IH]; simpl.
  - split; auto.
  - destruct (String.eqb k k') eqn:E.
    + apply String.eqb_eq in E. subst. split; [discriminate | intros H; exfalso; auto].
    + apply String.eqb_neq in E. rewrite IH. split.
      * intros H [H1|H1]; [congruence | auto].
      * intros H H1. apply H. now right.
Qed.

Lemma obj_set_keys (k : string) (v : value) (o : obj) :
  map fst (obj_set k v o)
  = match obj_get k o with
    | Some _ => map fst o
    | None => map fst o ++ [k]
    end.
Proof.
  induction o as [|[k' v'] o IH]; simpl; auto.
  destruct (String.eqb k k') eqn:E; simpl.
  - apply String.eqb_eq in E. now subst.
  - rewrite IH. now destruct (obj_get k o).
Qed.

Lemma obj_set_NoDup (k : string) (v : value) (o : obj) :
  NoDup (map fst o) -> NoDup (map fst (obj_set k v o)).
Proof.
  intros H. rewrite obj_set_keys.
  destruct (obj_get k o) eqn:E; auto.
  apply obj_get_None_notin in E.
  apply NoDup_app; auto.
  - constructor; [intros [] | constructor].
  - intros x Hx [Hk|[]]. now subst.
Qed.

Lemma spread_NoDup (a b : obj) :
  NoDup (map fst a) -> NoDup (map fst (spread a b)).
Proof.
  unfold spread. revert a.
  induction b as [|[k v] b IH]; intros a Ha; simpl; auto.
  apply IH. now apply obj_set_NoDup.
Qed.

Lemma obj_lit_NoDup (parts : list obj) : NoDup (map fst (obj_lit parts)).
Proof.
  unfold obj_lit.
  assert (H : forall acc, NoDup (map fst acc) ->
                          NoDup (map fst (fold_left spread parts acc))).
  { induction parts as [|p ps IH]; intros acc Hacc; simpl; auto.
    apply IH. now apply spread_NoDup. }
  apply H. constructor.
Qed.

(** [{...a, ...b}]: a property of [b] wins over one of [a]. *)
Lemma obj_get_spread (k : string) (a b : obj) :
  NoDup (map fst b) ->
  obj_get k (spread a b)
  = match obj_get k b with
    | Some v => Some v
    | None => obj_get k a
    end.
Proof.
  unfold spread. revert a.
  induction b as [|[k' v'] b IH]; intros a Hb; simpl; auto.
  inversion Hb as [|? ? Hnotin Hb']; subst.
  rewrite IH by assumption.
  destruct (String.eqb k k') eqn:E.
  - apply String.eqb_eq in E. subst k'.
    apply obj_get_None_notin in Hnotin. rewrite Hnotin.
    apply obj_get_set_same.
  - destruct (obj_get k b); auto. now apply obj_get_set_other.
Qed.

Lemma spread_nil (o : obj) : NoDup (map fst o) -> spread [] o = o.
Proof.
  unfold spread.
  assert (H : forall acc, NoDup (map fst (acc ++ o)) ->
              fold_left (fun acc kv => obj_set (fst kv) (snd kv) acc) o acc = acc ++ o).
  { induction o as [|[k v] o IH]; intros acc Hnd; simpl.
    - now rewrite app_nil_r.
    - rewrite obj_set_fresh.
      + rewrite IH; rewrite <- app_assoc; [reflexivity | exact Hnd].
      + apply obj_get_None_notin. rewrite map_app in Hnd. simpl in Hnd.
        apply NoDup_remove_2 in Hnd. intros Hin. apply Hnd.
        apply in_or_app. now left. }
  intros Hnd. now apply (H []).
Qed.

(** ** Flattening, continued *)

Lemma string_of_nat_inj (i j : nat) : string_of_nat i = string_of_nat j -> i = j.
Proof.
  unfold string_of_nat. intros H.
  apply DecimalNat.Unsigned.to_uint_inj.
  assert (Hs : NilEmpty.uint_of_string (NilEmpty.string_of_uint (Nat.to_uint i))
               = NilEmpty.uint_of_string (NilEmpty.string_of_uint (Nat.to_uint j)))
    by now rewrite H.
  rewrite !NilEmpty.usu in Hs. now inversion Hs.
Qed.

Lemma reduce_from_index_keys (elems : list value) :
  forall (i : nat) (acc : obj),
    (forall j, i <= j -> obj_get (string_of_nat j) acc = None) ->
    reduce_from (fun acc val i => obj_set (string_of_nat i) val acc) i elems acc
    = acc ++ combine (map string_of_nat (seq i (List.length elems))) elems.
Proof.
  induction elems as [|x elems IH]; intros i acc Hacc; simpl.
  - now rewrite app_nil_r.
  - rewrite obj_set_fresh by (apply Hacc; lia).
    rewrite IH.
    + now rewrite <- app_assoc.
    + intros j Hj. rewrite obj_get_app, Hacc by lia. simpl.
      destruct (String.eqb (string_of_nat j) (string_of_nat i)) eqn:E; auto.
      apply String.eqb_eq, string_of_nat_inj in E. lia.
Qed.

Lemma index_keyed_lookup (elems : list value) :
  forall b i,
    obj_get (string_of_nat (b + i))
      (combine (map string_of_nat (seq b (List.length elems))) elems)
    = nth_error elems i.
Proof.
  induction elems as [|x elems IH]; intros b i; simpl.
  - now destruct i.
  - destruct i as [|i]; simpl.
    + now rewrite Nat.add_0_r, String.eqb_refl.
    + destruct (String.eqb (string_of_nat (b + S i)) (string_of_nat b)) eqn:E.
      * apply String.eqb_eq, string_of_nat_inj in E. lia.
      * rewrite <- (IH (S b) i). f_equal. f_equal. lia.
Qed.

Lemma combine_projections {A B} (l : list A) (l' : list B) :
  List.length l = List.length l' ->
  map fst (combine l l') = l /\ map snd (combine l l') = l'.
Proof.
  revert l'. induction l as [|a l IH]; intros [|b l'] Hlen; simpl in *;
    try discriminate; auto.
  destruct (IH l') as [H1 H2]; [lia|]. now rewrite H1, H2.
Qed.

Lemma flatten_lookup (o : obj) (k : string) :
  obj_get k (Firebase.flattenNestedArrays o)
  = option_map Firebase.flattenValue (obj_get k o).
Proof.
  induction o as [|[k' v] o IH]; simpl; auto.
  destruct (String.eqb k k'); auto.
Qed.

(** X2.  An array that is the value of a property becomes an object whose
    keys are the indices [0], [1], ... in order and whose values are the
    elements as they were: looking the index [i] up gives the [i]-th
    element, and an index past the end is missing. *)
Theorem flattened_array_is_index_keyed (elems : list value) :
  exists props,
    Firebase.flattenValue (VArr elems) = VObj props
    /\ map fst props = map string_of_nat (seq 0 (List.length elems))
    /\ map snd props = elems
    /\ forall i, obj_get (string_of_nat i) props = nth_error elems i.
Proof.
  exists (combine (map string_of_nat (seq 0 (List.length elems))) elems).
  assert (Hlen : List.length (map string_of_nat (seq 0 (List.length elems)))
                 = List.length elems)
    by now rewrite length_map, length_seq.
  split; [|split; [|split]].
  - simpl. unfold reduce. now rewrite reduce_from_index_keys.
  - apply combine_projections. exact Hlen.
  - apply combine_projections. exact Hlen.
  - intros i. exact (index_keyed_lookup elems 0 i).
Qed.

(** X3.  No property of a flattened object is an array, and a property
    that was neither an array nor an object is unchanged. *)
Theorem flattened_properties_are_not_arrays (o : obj) (k : string) (v : value) :
  obj_get k (Firebase.flattenNestedArrays o) = Some v ->
  is_array v = false
  /\ (forall x, obj_get k o = Some x -> is_primitive x = true -> v = x).
Proof.
  intros H. rewrite flatten_lookup in H. destruct (obj_get k o) as [x|]; [|discriminate].
  simpl in H. inversion H; subst. split.
  - now destruct x.
  - intros x0 Hx0 Hprim. inversion Hx0; subst. now destruct x0.
Qed.

Lemma flattened_properties_are_not_arrays_witness :
  is_array (VObj [("0", VNum 1); ("1", VNum 2)]) = false
  /\ (forall x,
        obj_get "a" [("a", VArr [VNum 1; VNum 2]); ("b", VStr "x")] = Some x ->
        is_primitive x = true -> VObj [("0", VNum 1); ("1", VNum 2)] = x).
Proof.
  apply (flattened_properties_are_not_arrays
           [("a", VArr [VNum 1; VNum 2]); ("b", VStr "x")] "a").
  reflexivity.
Defined.

Lemma value_nested_ind (P : value -> Prop) :
  P VUndefined -> P VNull -> (forall b, P (VBool b)) -> (forall n, P (VNum n)) ->
  (forall s, P (VStr s)) ->
  (forall elems, Forall P elems -> P (VArr elems)) ->
  (forall props, Forall (fun kv => P (snd kv)) props -> P (VObj props)) ->
  forall v, P v.
Proof.
  intros Hu Hn Hb Hz Hs Ha Ho.
  fix IH 1. intros [| |b|n|s|elems|props].
  - exact Hu.
  - exact Hn.
  - apply Hb.
  - apply Hz.
  - apply Hs.
  - apply Ha. induction elems as [|x elems IHe]; constructor.
    + apply IH.
    + exact IHe.
  - apply Ho. induction props as [|[k x] props IHp]; constructor.
    + simpl. apply IH.
    + exact IHp.
Qed.

Lemma flattenValue_array_free (v : value) :
  array_free v = true -> Firebase.flattenValue v = v.
Proof.
  induction v using value_nested_ind; simpl; auto; try discriminate.
  intros Hfree. f_equal.
  induction props as [|[k x] props IHp]; simpl in *; auto.
  apply andb_true_iff in Hfree. destruct Hfree as [Hx Hrest].
  inversion H as [|? ? Hhead Htail]; subst. simpl in Hhead.
  rewrite Hhead by assumption. f_equal. now apply IHp.
Qed.

Lemma list_max_pred {A} (f g : A -> nat) (l : list A) :
  Forall (fun x => g x = f x - 1) l ->
  list_max (map g l) = list_max (map f l) - 1.
Proof.
  induction 1 as [|x l Hx _ IH]; simpl; [reflexivity|].
  rewrite Hx, IH. lia.
Qed.

Lemma map_combine_values {A B C} (f : B -> C) (l : list A) (l' : list B) :
  List.length l = List.length l' ->
  map (fun kv : A * B => match kv with (_, x) => f x end) (combine l l') = map f l'.
Proof.
  revert l'. induction l as [|a l IH]; intros [|b l'] Hlen; simpl in *;
    try discriminate; auto.
  f_equal. apply IH. lia.
Qed.

Lemma array_depth_flattenValue (v : value) :
  array_depth (Firebase.flattenValue v) = array_depth v - 1.
Proof.
  induction v as [| | | | |elems _|props IH] using value_nested_ind; try reflexivity.
  - simpl. unfold reduce.
    rewrite reduce_from_index_keys by reflexivity. simpl.
    rewrite Nat.sub_0_r.
    assert (Hlen : List.length (map string_of_nat (seq 0 (List.length elems)))
                   = List.length elems)
      by now rewrite length_map, length_seq.
    f_equal. apply map_combine_values. exact Hlen.
  - simpl. rewrite map_map.
    apply (list_max_pred
             (fun kv : string * value => match kv with (_, x) => array_depth x end)
             (fun kv : string * value =>
                match (match kv with (key, x) => (key, Firebase.flattenValue x) end)
                with (_, x) => array_depth x end)).
    eapply Forall_impl; [|exact IH]. intros [k x] Hx. exact Hx.
Qed.

Lemma array_free_depth (v : value) :
  array_free v = true <-> array_depth v = 0.
Proof.
  induction v as [| | | | |elems _|props IH] using value_nested_ind;
    simpl; try (split; [reflexivity | reflexivity]).
  - split; discriminate.
  - induction IH as [|[k x] props Hx _ IHp]; simpl; [split; reflexivity|].
    simpl in Hx. rewrite andb_true_iff, Hx, IHp. lia.
Qed.

Lemma array_depth_passes (n : nat) (o : obj) :
  array_depth (VObj (Nat.iter n Firebase.flattenNestedArrays o))
  = array_depth (VObj o) - n.
Proof.
  induction n as [|n IH]; simpl Nat.iter.
  - now rewrite Nat.sub_0_r.
  - change (VObj (Firebase.flattenNestedArrays
                    (Nat.iter n Firebase.flattenNestedArrays o)))
      with (Firebase.flattenValue
              (VObj (Nat.iter n Firebase.flattenNestedArrays o))).
    rewrite array_depth_flattenValue, IH. lia.
Qed.

(** X1.  [flattenNestedArrays] removes exactly one level of arrays.  With
    the depth of an object being the largest number of arrays met on a
    way down into it, the result of [n] passes has the depth of the
    argument less [n], and has no array left in it exactly when the depth
    of the argument is at most [n].  One call, as [addTrialData] makes,
    leaves no array only in objects whose arrays hold no further array,
    neither directly nor inside an object. *)
Theorem flattenNestedArrays_removes_one_array_level (o : obj) (n : nat) :
  array_depth (VObj (Nat.iter n Firebase.flattenNestedArrays o))
  = array_depth (VObj o) - n
  /\ (array_free (VObj (Nat.iter n Firebase.flattenNestedArrays o)) = true
      <-> array_depth (VObj o) <= n)
  /\ (array_free (VObj (Firebase.flattenNestedArrays o)) = true
      <-> array_depth (VObj o) <= 1).
Proof.
  split; [apply array_depth_passes|].
  split.
  - rewrite array_free_depth, array_depth_passes. lia.
  - rewrite array_free_depth.
    change (Firebase.flattenNestedArrays o)
      with (Nat.iter 1 Firebase.flattenNestedArrays o).
    rewrite array_depth_passes. lia.
Qed.

(** X4.  An object with no array in it, at any depth, is returned by the
    flattening as it is. *)
Theorem flattenNestedArrays_keeps_array_free_objects (o : obj) :
  array_free (VObj o) = true -> Firebase.flattenNestedArrays o = o.
Proof.
  intros H. pose proof (flattenValue_array_free (VObj o) H) as Hv.
  simpl in Hv. injection Hv as Hv. exact Hv.
Qed.

Lemma flattenNestedArrays_keeps_array_free_objects_witness :
  Firebase.flattenNestedArrays
    [("trial_type", VStr "t1"); ("response", VObj [("rt", VNum 350)])]
  = [("trial_type", VStr "t1"); ("response", VObj [("rt", VNum 350)])].
Proof.
  apply (flattenNestedArrays_keeps_array_free_objects
           [("trial_type", VStr "t1"); ("response", VObj [("rt", VNum 350)])]).
  reflexivity.
Defined.

(** ** The document store's methods *)

(** X5.  [initializeExperiment] and [addTrialData] of the document store
    always return, after exactly one remote call: a [setDoc] of the
    metadata, an empty [trials] and the overrides, respectively an
    [updateDoc] that appends the flattened trial to [trials].  The call
    resolves and the write count grows by one when the service accepts the
    write; otherwise it rejects with a fixed message and the count stays.
    The metadata and the document reference never change. *)
Theorem document_store_writes_once {W : Type} (env : Env W)
    (additionalData : obj) (t : TrialData) (s : Sys Firebase.FirebaseManager W) :
  let this := self s in
  let initialData :=
    obj_lit [Firebase.metadata this; [("trials", VArr [])]; additionalData] in
  let flattened := VObj (Firebase.flattenNestedArrays t) in
  let set := setDoc env (Firebase.docRef this) initialData (world s) in
  let upd := updateDoc_arrayUnion env (Firebase.docRef this) "trials" flattened
               (world s) in
  let outcome (r : option Thrown) (msg : string) : Completion unit :=
    match r with
    | None => Resolved tt
    | Some _ => Rejected (new_Error msg)
    end in
  let counted (r : option Thrown) : Firebase.FirebaseManager :=
    {| Firebase.metadata := Firebase.metadata this;
       Firebase.docRef := Firebase.docRef this;
       Firebase.numberOfWrites :=
         match r with
         | None => S (Firebase.numberOfWrites this)
         | Some _ => Firebase.numberOfWrites this
         end |} in
  (exists d,
      Firebase.initializeExperiment env additionalData s
      = Some (outcome (fst set) "Failed to initialize experiment document",
              mkSys (counted (fst set)) (snd set) (trace s ++ d))
      /\ remote_calls d = [SetDoc (Firebase.docRef this) initialData (fst set)])
  /\ (exists d,
      Firebase.addTrialData env t s
      = Some (outcome (fst upd) "Failed to store trial data",
              mkSys (counted (fst upd)) (snd upd) (trace s ++ d))
      /\ remote_calls d
         = [UpdateDoc (Firebase.docRef this) "trials" flattened (fst upd)]).
Proof.
  destruct s as [[md ref n] w tr]. simpl.
  split.
  - unfold Firebase.initializeExperiment.
    unfold bind, try_catch, emit, get_this, remote. simpl.
    destruct (setDoc env ref (obj_lit [md; [("trials", VArr [])]; additionalData]) w)
      as [[e|] w1]; simpl.
    + unfold console, emit, throw. simpl. rewrite <- !app_assoc. simpl.
      eexists. split; reflexivity.
    + unfold Firebase.incr_writes, update_this, console, emit. simpl.
      rewrite <- !app_assoc. simpl. eexists. split; reflexivity.
  - unfold Firebase.addTrialData.
    unfold bind, try_catch, emit, get_this, remote. simpl.
    destruct (updateDoc_arrayUnion env ref "trials"
                (VObj (Firebase.flattenNestedArrays t)) w) as [[e|] w1]; simpl.
    + unfold console, emit, throw. simpl. rewrite <- !app_assoc. simpl.
      eexists. split; reflexivity.
    + unfold Firebase.incr_writes, update_this, console, emit. simpl.
      rewrite <- !app_assoc. simpl. eexists. split; reflexivity.
Qed.

Lemma document_initialize_run {W : Type} (env : Env W)
    (additionalData : obj) (s : Sys Firebase.FirebaseManager W) :
  exists c s' r,
    Firebase.initializeExperiment env additionalData s = Some (c, s')
    /\ remote_calls (trace s')
       = remote_calls (trace s)
         ++ [SetDoc (Firebase.docRef (self s))
               (obj_lit [Firebase.metadata (self s); [("trials", VArr [])];
                         additionalData]) r].
Proof.
  destruct s as [[md ref n] w tr]. simpl.
  unfold Firebase.initializeExperiment.
  unfold bind, try_catch, emit, get_this, remote. simpl.
  destruct (setDoc env ref (obj_lit [md; [("trials", VArr [])]; additionalData]) w)
    as [[e|] w1]; simpl.
  - unfold console, emit, throw. simpl. do 3 eexists. split; [reflexivity|].
    simpl. rewrite !remote_calls_app. simpl. now rewrite !app_nil_r.
  - unfold Firebase.incr_writes, update_this, console, emit. simpl.
    do 3 eexists. split; [reflexivity|].
    simpl. rewrite !remote_calls_app. simpl. now rewrite !app_nil_r.
Qed.

Lemma initial_record_lookup (md additionalData : obj) (k : string) :
  NoDup (map fst md) ->
  NoDup (map fst additionalData) ->
  obj_get k (obj_lit [md; [("trials", VArr [])]; additionalData])
  = match obj_get k additionalData with
    | Some v => Some v
    | None => if String.eqb k "trials" then Some (VArr []) else obj_get k md
    end.
Proof.
  intros Hmd Hdata. unfold obj_lit. cbn [fold_left].
  rewrite obj_get_spread by assumption.
  destruct (obj_get k additionalData); auto.
  rewrite obj_get_spread by (repeat constructor; intros []).
  simpl. destruct (String.eqb k "trials"); auto.
  rewrite obj_get_spread by assumption. now destruct (obj_get k md).
Qed.

(** X6.  In the document written by the document store's
    [initializeExperiment], a field of the overrides wins over the same
    field of the metadata and over the empty [trials]; [trials] is the
    empty array unless the overrides carry one; every other field comes
    from the metadata. *)
Theorem document_overrides_take_precedence {W : Type} (env : Env W)
    (additionalData : obj) (s : Sys Firebase.FirebaseManager W) :
  NoDup (map fst (Firebase.metadata (self s))) ->
  NoDup (map fst additionalData) ->
  exists c s' data r,
    Firebase.initializeExperiment env additionalData s = Some (c, s')
    /\ remote_calls (trace s')
       = remote_calls (trace s) ++ [SetDoc (Firebase.docRef (self s)) data r]
    /\ NoDup (map fst data)
    /\ forall k,
         obj_get k data
         = match obj_get k additionalData with
           | Some v => Some v
           | None =>
               if String.eqb k "trials" then Some (VArr [])
               else obj_get k (Firebase.metadata (self s))
           end.
Proof.
  intros Hmd Hdata.
  destruct (document_initialize_run env additionalData s) as (c & s' & r & Hrun & Hcalls).
  exists c, s',
    (obj_lit [Firebase.metadata (self s); [("trials", VArr [])]; additionalData]), r.
  split; [exact Hrun|]. split; [exact Hcalls|].
  split; [apply obj_lit_NoDup|].
  intros k. now apply initial_record_lookup.
Qed.

Lemma document_overrides_take_precedence_witness :
  let s := Firebase.constructor Scripted.env
             {| Firebase.opt_metadata := Some [("version", VStr "1.0.0")];
                Firebase.collectionName := None; Firebase.documentId := None |}
             [Scripted.OnSetDoc None] in
  exists c s' data r,
    Firebase.initializeExperiment Scripted.env
      [("version", VStr "2"); ("trials", VArr [VObj trial_t1])] s = Some (c, s')
    /\ remote_calls (trace s')
       = remote_calls (trace s) ++ [SetDoc (Firebase.docRef (self s)) data r]
    /\ obj_get "version" data = Some (VStr "2")
    /\ obj_get "trials" data = Some (VArr [VObj trial_t1])
    /\ obj_get "date" data = Some (VStr "2024-01-02").
Proof.
  intros s.
  assert (Hmd : NoDup (map fst (Firebase.metadata (self s)))).
  { repeat constructor; simpl; intuition discriminate. }
  assert (Hdata : NoDup (map fst [("version", VStr "2");
                                  ("trials", VArr [VObj trial_t1])])).
  { repeat constructor; simpl; intuition discriminate. }
  destruct (document_overrides_take_precedence Scripted.env
              [("version", VStr "2"); ("trials", VArr [VObj trial_t1])] s Hmd Hdata)
    as (c & s' & data & r & Hrun & Hcalls & _ & Hget).
  exists c, s', data, r.
  split; [exact Hrun|]. split; [exact Hcalls|].
  split; [rewrite Hget; reflexivity|].
  split; rewrite Hget; reflexivity.
Defined.

(** ** The row written by a ready row store *)

Lemma update_record_lookup (md additionalData : obj) (now k : string) :
  NoDup (map fst md) ->
  NoDup (map fst additionalData) ->
  obj_get k (obj_lit [md; additionalData; [("updated_at", VStr now)]])
  = if String.eqb k "updated_at" then Some (VStr now)
    else match obj_get k additionalData with
         | Some v => Some v
         | None => obj_get k md
         end.
Proof.
  intros Hmd Hdata. unfold obj_lit. cbn [fold_left].
  rewrite obj_get_spread by (repeat constructor; intros []).
  simpl. destruct (String.eqb k "updated_at"); auto.
  rewrite obj_get_spread by assumption.
  destruct (obj_get k additionalData); auto.
  rewrite obj_get_spread by assumption. now destruct (obj_get k md).
Qed.

(** X7.  The row that [initializeExperiment] writes on a ready row store
    has [updated_at] set to the time of the call, whatever the overrides
    say; for every other column an override wins over the metadata, and a
    column of neither is not written. *)
Theorem ready_update_row_columns {W : Type} (env : Env W) (fuel : nat)
    (additionalData : obj) (s : Sys Supabase.SupabaseManager W) :
  Supabase.initialized (self s) = true ->
  truthy (Supabase.rowId (self s)) = true ->
  NoDup (map fst (Supabase.metadata (self s))) ->
  NoDup (map fst additionalData) ->
  exists c s' row r,
    Supabase.initializeExperiment env (S fuel) additionalData s = Some (c, s')
    /\ remote_calls (trace s')
       = remote_calls (trace s)
         ++ [Update (Supabase.tableName (self s)) row (Supabase.rowId (self s)) r]
    /\ obj_get "updated_at" row = Some (VStr (fst (toISOString env (world s))))
    /\ forall k,
         String.eqb k "updated_at" = false ->
         obj_get k row
         = match obj_get k additionalData with
           | Some v => Some v
           | None => obj_get k (Supabase.metadata (self s))
           end.
Proof.
  intros Hi Hr Hmd Hdata.
  destruct (toISOString env (world s)) as [now w1] eqn:Hnow.
  destruct (update_eq_id env (Supabase.tableName (self s))
              (obj_lit [Supabase.metadata (self s); additionalData;
                        [("updated_at", VStr now)]])
              (Supabase.rowId (self s)) w1) as [error w2] eqn:Hup.
  destruct (initialize_updates env fuel additionalData s now w1 error w2 Hi Hr Hnow Hup)
    as (c & m' & d & Hrun & Hcalls & _).
  do 4 eexists. split; [exact Hrun|].
  split; [simpl; rewrite remote_calls_app, Hcalls; reflexivity|].
  split.
  - rewrite update_record_lookup by assumption. reflexivity.
  - intros k Hk. rewrite update_record_lookup by assumption. now rewrite Hk.
Qed.

Lemma ready_update_row_columns_witness :
  let s := Supabase.constructor Scripted.env
             {| Supabase.opt_metadata := Some [("version", VStr "1.0.0")];
                Supabase.opt_tableName := None; Supabase.opt_rowId := Some "r1" |}
             [Scripted.OnUpdate None] in
  exists c s' row r,
    Supabase.initializeExperiment Scripted.env 1
      [("updated_at", VStr "never"); ("version", VStr "2")] s = Some (c, s')
    /\ remote_calls (trace s')
       = remote_calls (trace s) ++ [Update "experiments" row (VStr "r1") r]
    /\ obj_get "updated_at" row = Some (VStr "2024-01-02T03:04:05.678Z")
    /\ obj_get "version" row = Some (VStr "2")
    /\ obj_get "trials" row = None.
Proof.
  intros s.
  assert (Hmd : NoDup (map fst (Supabase.metadata (self s)))).
  { repeat constructor; simpl; intuition discriminate. }
  assert (Hdata : NoDup (map fst [("updated_at", VStr "never"); ("version", VStr "2")])).
  { repeat constructor; simpl; intuition discriminate. }
  destruct (ready_update_row_columns Scripted.env 0
              [("updated_at", VStr "never"); ("version", VStr "2")] s
              eq_refl eq_refl Hmd Hdata)
    as (c & s' & row & r & Hrun & Hcalls & Hat & Hget).
  exists c, s', row, r.
  split; [exact Hrun|]. split; [exact Hcalls|]. split; [exact Hat|].
  split; rewrite Hget; reflexivity.
Defined.

(** ** The metadata of [DataManager] *)

Lemma split_nonempty (sep : ascii) (s : string) :
  exists piece pieces, split sep s = piece :: pieces.
Proof.
  induction s as [|c s (piece & pieces & IH)]; simpl.
  - eauto.
  - destruct (Ascii.eqb c sep); [eauto|]. rewrite IH. eauto.
Qed.

Lemma split_at_separator (sep : ascii) (a b : string) :
  lacks sep a = true ->
  split sep (a ++ String sep b)%string = a :: split sep b.
Proof.
  induction a as [|c a IH]; simpl.
  - intros _. now rewrite Ascii.eqb_refl.
  - intros H. apply andb_true_iff in H. destruct H as [Hc Ha].
    apply negb_true_iff in Hc. rewrite Hc, IH by assumption. reflexivity.
Qed.

Lemma split_prefix (sep c : ascii) (a b : string) :
  lacks sep a = true ->
  Ascii.eqb c sep = false ->
  exists x pieces,
    split sep (a ++ String c b)%string = (a ++ String c x)%string :: pieces.
Proof.
  intros Ha Hc. induction a as [|c' a IH]; simpl.
  - rewrite Hc. destruct (split_nonempty sep b) as (p & ps & ->).
    exists p, ps. reflexivity.
  - simpl in Ha. apply andb_true_iff in Ha. destruct Ha as [Hc' Ha].
    apply negb_true_iff in Hc'. rewrite Hc'.
    destruct (IH Ha) as (x & pieces & ->). exists x, pieces. reflexivity.
Qed.

(** X8.  The constructor of [DataManager] records as [date] the part of
    the first clock reading before its [T], and as [time] the part of the
    second reading between its [T] and the next dot, unless the caller's
    metadata has a field of that name; every field of the caller's
    metadata is kept with its value. *)
Theorem metadata_records_date_and_time (date rest1 date2 time rest2 : string)
    (metadata : obj) :
  lacks "T" date = true ->
  lacks "T" date2 = true ->
  lacks "T" time = true ->
  lacks "." time = true ->
  NoDup (map fst metadata) ->
  let md := DataManager_metadata
              (date ++ "T" ++ rest1)%string
              (date2 ++ "T" ++ time ++ "." ++ rest2)%string
              metadata in
  (obj_get "date" metadata = None -> obj_get "date" md = Some (VStr date))
  /\ (obj_get "time" metadata = None -> obj_get "time" md = Some (VStr time))
  /\ (forall k v, obj_get k metadata = Some v -> obj_get k md = Some v)
  /\ (forall k, String.eqb k "date" = false -> String.eqb k "time" = false ->
        obj_get k md = obj_get k metadata).
Proof.
  intros Hd Hd2 Ht Hdot Hnd md.
  assert (Hdate : nth 0 (split "T" (date ++ "T" ++ rest1)%string) "" = date).
  { change (date ++ "T" ++ rest1)%string with (date ++ String "T" rest1)%string.
    now rewrite split_at_separator. }
  assert (Htime : nth 0 (split "."
                    (nth 1 (split "T" (date2 ++ "T" ++ time ++ "." ++ rest2)%string) ""))
                    "" = time).
  { change (date2 ++ "T" ++ time ++ "." ++ rest2)%string
      with (date2 ++ String "T" (time ++ String "." rest2))%string.
    rewrite split_at_separator by assumption.
    cbn [nth].
    destruct (split_prefix "T" "." time rest2 Ht eq_refl) as (x & pieces & ->).
    cbn [nth]. now rewrite split_at_separator. }
  unfold md, DataManager_metadata. rewrite Hdate, Htime.
  unfold obj_lit. cbn [fold_left].
  assert (Hget : forall k,
    obj_get k (spread (spread [] [("date", VStr date); ("time", VStr time)]) metadata)
    = match obj_get k metadata with
      | Some v => Some v
      | None => obj_get k [("date", VStr date); ("time", VStr time)]
      end).
  { intros k. rewrite obj_get_spread by assumption. reflexivity. }
  repeat split.
  - intros H. now rewrite Hget, H.
  - intros H. now rewrite Hget, H.
  - intros k v H. now rewrite Hget, H.
  - intros k Hk1 Hk2. rewrite Hget. simpl. rewrite Hk1, Hk2.
    now destruct (obj_get k metadata).
Qed.

Lemma metadata_records_date_and_time_witness :
  let md := DataManager_metadata "2024-01-02T03:04:05.678Z" "2024-01-02T03:04:05.679Z"
              [("version", VStr "1.0.0")] in
  obj_get "date" md = Some (VStr "2024-01-02")
  /\ obj_get "time" md = Some (VStr "03:04:05")
  /\ obj_get "version" md = Some (VStr "1.0.0").
Proof.
  intros md.
  assert (Hnd : NoDup (map fst [("version", VStr "1.0.0")])).
  { repeat constructor. intros []. }
  destruct (metadata_records_date_and_time "2024-01-02" "03:04:05.678Z"
              "2024-01-02" "03:04:05" "679Z" [("version", VStr "1.0.0")]
              eq_refl eq_refl eq_refl eq_refl Hnd)
    as (Hdate & Htime & Hkeep & _).
  split; [exact (Hdate eq_refl)|].
  split; [exact (Htime eq_refl)|].
  exact (Hkeep "version" (VStr "1.0.0") eq_refl).
Defined.

(** X9.  [getMetadata] gives back, as a fresh object, exactly the metadata
    that the constructor stored, for both managers; the stored metadata
    has no field twice. *)
Theorem getMetadata_returns_constructed_metadata {W : Type} (env : Env W)
    (fb_options : Firebase.FirebaseManagerOptions)
    (sb_options : Supabase.SupabaseManagerOptions) (w : W) :
  let fb := Firebase.metadata (self (Firebase.constructor env fb_options w)) in
  let sb := Supabase.metadata (self (Supabase.constructor env sb_options w)) in
  DataManager_getMetadata fb = fb
  /\ DataManager_getMetadata sb = sb
  /\ NoDup (map fst fb)
  /\ NoDup (map fst sb).
Proof.
  unfold Firebase.constructor, Supabase.constructor.
  destruct (toISOString env w) as [iso1 wa].
  destruct (toISOString env wa) as [iso2 wb].
  cbv zeta.
  destruct (truthy _); simpl self; cbn [Firebase.metadata Supabase.metadata].
  all: unfold DataManager_getMetadata, DataManager_metadata.
  all: repeat split; try apply obj_lit_NoDup.
  all: unfold obj_lit at 1; cbn [fold_left]; apply spread_nil; apply obj_lit_NoDup.
Qed.

(** ** The row store's constructor *)

(** X10.  A row store is ready right after construction exactly when a
    non-empty row identifier was given: [isInitialized] then answers
    [true], and [false] for a missing or empty identifier.  The
    constructor makes no remote call; the queue is empty, the operation
    count is 0, and the table is [experiments] unless a non-empty name was
    given. *)
Theorem constructed_row_store_is_ready_iff_id_given {W : Type} (env : Env W)
    (options : Supabase.SupabaseManagerOptions) (w : W) :
  let s := Supabase.constructor env options w in
  Supabase.isInitialized s
  = Some (Resolved match Supabase.opt_rowId options with
                   | Some id => negb (String.eqb id "")
                   | None => false
                   end, s)
  /\ remote_calls (trace s) = []
  /\ Supabase.pendingTrials (self s) = []
  /\ Supabase.numberOfOperations (self s) = 0
  /\ ready_has_id (self s)
  /\ Supabase.tableName (self s)
     = match Supabase.opt_tableName options with
       | Some n => if String.eqb n "" then "experiments" else n
       | None => "experiments"
       end.
Proof.
  unfold Supabase.constructor.
  destruct (toISOString env w) as [iso1 wa].
  destruct (toISOString env wa) as [iso2 wb].
  cbv zeta. unfold Supabase.isInitialized, bind, get_this, ret, ready_has_id.
  destruct (Supabase.opt_rowId options) as [id|].
  - change (truthy (VStr id)) with (negb (String.eqb id "")).
    destruct (String.eqb id "") eqn:E; simpl.
    + repeat split; auto; discriminate.
    + change (truthy (VStr id)) with (negb (String.eqb id "")). rewrite E.
      repeat split; auto.
  - change (truthy VUndefined) with false. simpl. repeat split; auto; discriminate.
Qed.

(** ** An initialised row store has a row identifier *)

Section ReadyHasId.
Context {W : Type} (env : Env W).

#[local] Abbreviation State := (Sys Supabase.SupabaseManager W).

Lemma keeps_id_trans (s1 s2 s3 : State) :
  keeps_id s1 s2 -> keeps_id s2 s3 -> keeps_id s1 s3.
Proof.
  intros (_ & d1 & Ht1 & Hn1) (Hinv & d2 & Ht2 & Hn2). split; [exact Hinv|].
  exists (d1 ++ d2). rewrite Ht2, Ht1, filter_app, Hn1, Hn2, <- app_assoc.
  split; reflexivity.
Qed.

Lemma drain_keeps_id (fuel : nat) :
  (forall t (s : State) c s',
      ready_has_id (self s) ->
      Supabase.addTrialData env fuel t s = Some (c, s') -> keeps_id s s') ->
  forall ts (s : State) c s',
    ready_has_id (self s) ->
    for_of ts (drain_one env fuel) s = Some (c, s') -> keeps_id s s'.
Proof.
  intros IHadd. induction ts as [|t ts IH]; intros s c s' Hinv.
  - simpl. unfold ret. intros H. inversion H; subst. split; [exact Hinv|].
    exists []. now rewrite app_nil_r.
  - rewrite for_of_cons. unfold bind, drain_one at 1, try_catch.
    destruct (Supabase.addTrialData env fuel t s) as [[[[]|e] s1]|] eqn:Ea;
      try discriminate.
    + intros H. pose proof (IHadd _ _ _ _ Hinv Ea) as Hk.
      eapply keeps_id_trans; [exact Hk|]. eapply IH; [apply Hk | exact H].
    + unfold console, emit. intros H.
      pose proof (IHadd _ _ _ _ Hinv Ea) as Hk.
      eapply keeps_id_trans; [exact Hk|].
      eapply keeps_id_trans; [| eapply IH; [|exact H]; apply Hk].
      split; [apply Hk|]. eexists. split; reflexivity.
Qed.

Ltac split_case :=
  match goal with
  | |- context [let (_, _) := ?x in _] => destruct x eqn:?
  | |- context [match ?x with Some _ => _ | None => _ end] =>
      match x with
      | sel_error _ => destruct x eqn:?
      | ins_error _ => destruct x eqn:?
      | Supabase.first_row_id _ => destruct x eqn:?
      | Supabase.updatedTrials _ _ => destruct x eqn:?
      | Supabase.initializeExperiment _ _ _ _ =>
          destruct x as [[[[]|?] [? ? ?]]|] eqn:?
      | for_of _ _ _ => destruct x as [[[[]|?] [? ? ?]]|] eqn:?
      | _ => is_var x; destruct x
      end
  | |- context [if ?b then _ else _] => destruct b eqn:?
  end.

Ltac id_kept :=
  unfold ready_has_id in *; simpl in *;
  first [ assumption
        | discriminate
        | intros _; eapply first_row_id_truthy; eassumption
        | intros; discriminate
        | intros; congruence ].

Ltac finish_kept fuel IHinit IHdrain :=
  let H := fresh in
  intros H;
  match type of H with
  | Some _ = Some _ => inversion H; subst; clear H
  | _ = Some (_, ?s') => destruct s' as [? ? ?]
  end;
  repeat match goal with
    | E : for_of _ _ _ = Some (Rejected _, _) |- _ =>
        apply (drain_resolves env fuel) in E; discriminate
    | E : Supabase.initializeExperiment _ _ _ _ = Some _ |- _ =>
        apply IHinit in E; [| id_kept]
    | E : for_of _ _ _ = Some _ |- _ => apply IHdrain in E; [| id_kept]
    end;
  unfold keeps_id in *;
  repeat match goal with
    | E : _ /\ _ |- _ => destruct E
    | E : exists _, _ |- _ => destruct E
    end;
  simpl in *; subst;
  split;
  [ id_kept
  | eexists; split;
    [ trace_norm; reflexivity
    | simpl; rewrite ?filter_app; simpl;
      repeat match goal with
        | E : filter is_no_row_id_log _ = [] |- _ => rewrite E; clear E
        end;
      reflexivity ] ].

Ltac dead_branch :=
  match goal with
  | Hi : negb (Supabase.initialized ?m) = false,
    Hr : negb (truthy (Supabase.rowId ?m)) = true,
    Hv : ready_has_id ?m |- _ =>
      exfalso; apply negb_false_iff in Hi; apply Hv in Hi;
      rewrite Hi in Hr; discriminate
  end.

Lemma methods_keep_id (fuel : nat) :
  (forall data (s : State) c s',
      ready_has_id (self s) ->
      Supabase.initializeExperiment env fuel data s = Some (c, s') ->
      keeps_id s s')
  /\ (forall t (s : State) c s',
      ready_has_id (self s) ->
      Supabase.addTrialData env fuel t s = Some (c, s') -> keeps_id s s').
Proof.
  induction fuel as [|fuel [IHinit IHadd]].
  - split; intros; discriminate.
  - pose proof (drain_keeps_id fuel IHadd) as IHdrain.
    split.
    + intros data [m w tr] c s' Hinv. simpl in Hinv.
      run.
      repeat (split_case; run).
      all: try discriminate.
      all: try (finish_kept fuel IHinit IHdrain).
      match goal with
      | E : for_of _ _ _ = Some (Rejected _, _) |- _ =>
          apply (drain_resolves env fuel) in E; discriminate
      end.
    + intros t [m w tr] c s' Hinv. simpl in Hinv.
      run.
      repeat (split_case; run).
      all: try discriminate.
      all: try dead_branch.
      all: finish_kept fuel IHinit IHdrain.
Qed.

End ReadyHasId.

(** X11.  A row store that is marked initialised always has a row
    identifier: the property holds after construction (X10) and every
    returning [initializeExperiment] and [addTrialData] keeps it, on any
    service.  So the branch of [addTrialData] for an initialised manager
    without identifier is never taken: its console message is not among
    the events of the call. *)
Theorem initialized_row_store_has_row_id {W : Type} (env : Env W) (fuel : nat) :
  (forall additionalData (s : Sys Supabase.SupabaseManager W) c s',
      ready_has_id (self s) ->
      Supabase.initializeExperiment env fuel additionalData s = Some (c, s') ->
      ready_has_id (self s')
      /\ exists d, trace s' = trace s ++ d /\ filter is_no_row_id_log d = [])
  /\ (forall t (s : Sys Supabase.SupabaseManager W) c s',
      ready_has_id (self s) ->
      Supabase.addTrialData env fuel t s = Some (c, s') ->
      ready_has_id (self s')
      /\ exists d, trace s' = trace s ++ d /\ filter is_no_row_id_log d = []).
Proof. exact (methods_keep_id env fuel). Qed.

Lemma initialized_row_store_has_row_id_witness :
  let s := Supabase.constructor Scripted.env default_options
             [Scripted.inserted "r1"; Scripted.fetched []; Scripted.OnUpdate None] in
  exists s1 s2,
    Supabase.initializeExperiment Scripted.env 2 [] s = Some (Resolved tt, s1)
    /\ ready_has_id (self s1)
    /\ Supabase.addTrialData Scripted.env 2 trial_t1 s1 = Some (Resolved tt, s2)
    /\ ready_has_id (self s2).
Proof.
  intros s.
  destruct (initialized_row_store_has_row_id Scripted.env 2) as [Hinit Hadd].
  assert (H0 : ready_has_id (self s)) by (intros H; discriminate H).
  assert (E1 : exists s1,
             Supabase.initializeExperiment Scripted.env 2 [] s = Some (Resolved tt, s1))
    by (eexists; vm_compute; reflexivity).
  destruct E1 as [s1 E1].
  destruct (Hinit [] s (Resolved tt) s1 H0 E1) as [Hk1 _].
  assert (E1' : Some (Resolved tt, s1)
                = Supabase.initializeExperiment Scripted.env 2 [] s)
    by (symmetry; exact E1).
  vm_compute in E1'. injection E1' as E1'. subst s1.
  match type of Hk1 with
  | ready_has_id (self ?st) =>
      assert (E2 : exists s2,
                 Supabase.addTrialData Scripted.env 2 trial_t1 st
                 = Some (Resolved tt, s2))
        by (eexists; vm_compute; reflexivity)
  end.
  destruct E2 as [s2 E2].
  destruct (Hadd trial_t1 _ (Resolved tt) s2 Hk1 E2) as [Hk2 _].
  eexists _, s2. repeat split; eassumption.
Defined.

(** ** Adding a trial on a ready row store *)

(** X12.  On a ready row store whose fetch and update are accepted,
    [addTrialData] makes exactly these two remote calls and writes back
    the fetched [trials] followed by the new trial, with a fresh
    [updated_at]; a fetched column that is missing or [null] counts as
    empty.  The call resolves, the operation count grows by one, and
    nothing else of the manager changes. *)
Theorem ready_add_appends_to_fetched_trials {W : Type} (env : Env W) (fuel : nat)
    (t : TrialData) (s : Sys Supabase.SupabaseManager W)
    (r : SelectResponse) (w1 : W) (elems : list value) (now : string) (w2 w3 : W) :
  Supabase.initialized (self s) = true ->
  truthy (Supabase.rowId (self s)) = true ->
  select_trials_single env (Supabase.tableName (self s)) (Supabase.rowId (self s))
    (world s) = (r, w1) ->
  sel_error r = None ->
  fetched_column r = VArr elems
  \/ (truthy (fetched_column r) = false /\ elems = []) ->
  toISOString env w1 = (now, w2) ->
  update_eq_id env (Supabase.tableName (self s))
    [("trials", VArr (elems ++ [VObj t])); ("updated_at", VStr now)]
    (Supabase.rowId (self s)) w2 = (None, w3) ->
  exists d,
    Supabase.addTrialData env (S fuel) t s
    = Some (Resolved tt,
            mkSys (Supabase.incr_operations (self s)) w3 (trace s ++ d))
    /\ remote_calls d
       = [SelectTrials (Supabase.tableName (self s)) (Supabase.rowId (self s)) r;
          Update (Supabase.tableName (self s))
            [("trials", VArr (elems ++ [VObj t])); ("updated_at", VStr now)]
            (Supabase.rowId (self s)) None].
Proof.
  intros Hi Hr Hsel He Hcol Hnow Hup.
  assert (Hu : Supabase.updatedTrials (sel_data r) t = Some (elems ++ [VObj t])).
  { unfold Supabase.updatedTrials. fold (fetched_column r).
    destruct Hcol as [Hcol | [Hcol ->]].
    - rewrite Hcol. reflexivity.
    - rewrite Hcol. reflexivity. }
  destruct s as [m w tr]. simpl in *.
  run. rewrite Hi, Hr. simpl. rewrite Hsel. simpl. rewrite He, Hu. simpl.
  rewrite Hnow. simpl. rewrite Hup. simpl.
  trace_norm. eexists. split; reflexivity.
Qed.

Lemma ready_add_appends_to_fetched_trials_witness :
  let s := Supabase.constructor Scripted.env
             {| Supabase.opt_metadata := None; Supabase.opt_tableName := None;
                Supabase.opt_rowId := Some "r1" |}
             [Scripted.fetched [VObj trial_t1]; Scripted.OnUpdate None] in
  exists d,
    Supabase.addTrialData Scripted.env 1 trial_t2 s
    = Some (Resolved tt, mkSys (Supabase.incr_operations (self s)) [] (trace s ++ d))
    /\ remote_calls d
       = [SelectTrials "experiments" (VStr "r1")
            {| sel_data := Some [("trials", VArr [VObj trial_t1])]; sel_error := None |};
          Update "experiments"
            [("trials", VArr [VObj trial_t1; VObj trial_t2]);
             ("updated_at", VStr "2024-01-02T03:04:05.678Z")]
            (VStr "r1") None].
Proof.
  intros s.
  apply (ready_add_appends_to_fetched_trials Scripted.env 0 trial_t2 s
           {| sel_data := Some [("trials", VArr [VObj trial_t1])]; sel_error := None |}
           [Scripted.OnUpdate None] [VObj trial_t1]
           "2024-01-02T03:04:05.678Z" [Scripted.OnUpdate None] []).
  - reflexivity.
  - reflexivity.
  - reflexivity.
  - reflexivity.
  - left. reflexivity.
  - reflexivity.
  - reflexivity.
Defined.

(** X13.  On a ready row store, when the update of [addTrialData] comes
    back with an [Error] whose message contains [not found], the manager
    forgets its row identifier, is no longer initialised, gets the trial
    appended to its queue, and the call continues as
    [initializeExperiment()] from that state: what that call returns,
    rejection included, is what [addTrialData] returns. *)
Theorem update_not_found_requeues_and_reinitializes {W : Type} (env : Env W)
    (fuel : nat) (t : TrialData) (s : Sys Supabase.SupabaseManager W)
    (r : SelectResponse) (w1 : W) (updated : list value) (now : string)
    (w2 : W) (e : Thrown) (w3 : W) :
  Supabase.initialized (self s) = true ->
  truthy (Supabase.rowId (self s)) = true ->
  select_trials_single env (Supabase.tableName (self s)) (Supabase.rowId (self s))
    (world s) = (r, w1) ->
  sel_error r = None ->
  Supabase.updatedTrials (sel_data r) t = Some updated ->
  toISOString env w1 = (now, w2) ->
  update_eq_id env (Supabase.tableName (self s))
    [("trials", VArr updated); ("updated_at", VStr now)]
    (Supabase.rowId (self s)) w2 = (Some e, w3) ->
  Supabase.says_not_found e = true ->
  exists s1 d,
    Supabase.addTrialData env (S fuel) t s
    = Supabase.initializeExperiment env fuel [] s1
    /\ self s1
       = Supabase.push_pending t
           (Supabase.set_rowId VUndefined
              (Supabase.set_initialized false (self s)))
    /\ world s1 = w3
    /\ trace s1 = trace s ++ d
    /\ kinds d = [KSelect; KUpdate].
Proof.
  intros Hi Hr Hsel He Hu Hnow Hup Hnf.
  destruct s as [m w tr]. simpl in *.
  run. rewrite Hi, Hr. simpl. rewrite Hsel. simpl. rewrite He, Hu. simpl.
  rewrite Hnow. simpl. rewrite Hup. simpl.
  destruct (Supabase.is_rls_violation e); run; rewrite Hnf; simpl.
  all: trace_norm; do 2 eexists; split; [reflexivity|]; simpl.
  all: repeat split.
Qed.

Lemma update_not_found_requeues_and_reinitializes_witness :
  let gone := new_Error "row not found" in
  let s := Supabase.constructor Scripted.env
             {| Supabase.opt_metadata := None; Supabase.opt_tableName := None;
                Supabase.opt_rowId := Some "r1" |}
             [Scripted.fetched []; Scripted.OnUpdate (Some gone);
              Scripted.inserted "r2"; Scripted.fetched []; Scripted.OnUpdate None] in
  exists s1 d,
    Supabase.addTrialData Scripted.env 3 trial_t1 s
    = Supabase.initializeExperiment Scripted.env 2 [] s1
    /\ self s1
       = Supabase.push_pending trial_t1
           (Supabase.set_rowId VUndefined
              (Supabase.set_initialized false (self s)))
    /\ world s1 = [Scripted.inserted "r2"; Scripted.fetched []; Scripted.OnUpdate None]
    /\ trace s1 = trace s ++ d
    /\ kinds d = [KSelect; KUpdate].
Proof.
  intros gone s.
  apply (update_not_found_requeues_and_reinitializes Scripted.env 2 trial_t1 s
           {| sel_data := Some [("trials", VArr [])]; sel_error := None |}
           [Scripted.OnUpdate (Some gone);
            Scripted.inserted "r2"; Scripted.fetched []; Scripted.OnUpdate None]
           [VObj trial_t1] "2024-01-02T03:04:05.678Z"
           [Scripted.OnUpdate (Some gone);
            Scripted.inserted "r2"; Scripted.fetched []; Scripted.OnUpdate None]
           gone
           [Scripted.inserted "r2"; Scripted.fetched []; Scripted.OnUpdate None]);
    reflexivity.
Defined.

(** ** The per-trial callback *)


Ltac unfold_calls :=
  unfold bind, try_catch, emit, console, get_this, update_this, remote,
    date_now, ret, resume;
  simpl.







(** X18.  Two uploads started back to back by the per-trial callback of a
    ready row store both fetch the [trials] column before either writes it
    back.  On a service that stores the column, the update of the second
    then replaces what the first has written: the column ends with the
    second trial only, although both updates are accepted and counted.
    Awaited one after the other, the same two calls store both trials. *)
Theorem uploads_started_together_lose_a_trial (m : Supabase.SupabaseManager)
    (t1 t2 : TrialData) (column : list value) (tr : list event) :
  Supabase.initialized m = true ->
  truthy (Supabase.rowId m) = true ->
  truthy (prop "no_upload" t1) = false ->
  truthy (prop "no_upload" t2) = false ->
  let s := mkSys m column tr in
  (exists p1 s1 p2 s2 s3 s4,
      Supabase.upload_promise Stored.env 1 t1 s = Some (Resolved p1, s1)
      /\ Supabase.createDataUpdateCallback Stored.env 1 t1 s = Some (Resolved t1, s1)
      /\ Supabase.upload_promise Stored.env 1 t2 s1 = Some (Resolved p2, s2)
      /\ Supabase.createDataUpdateCallback Stored.env 1 t2 s1 = Some (Resolved t2, s2)
      /\ resume p1 s2 = Some (Resolved tt, s3)
      /\ resume p2 s3 = Some (Resolved tt, s4)
      /\ kinds (trace s4) = kinds tr ++ [KSelect; KSelect; KUpdate; KUpdate]
      /\ world s4 = column ++ [VObj t2]
      /\ Supabase.numberOfOperations (self s4) = Supabase.numberOfOperations m + 2)
  /\ (exists s',
      add_all Stored.env 1 [t1; t2] s = Some (Resolved tt, s')
      /\ kinds (trace s') = kinds tr ++ [KSelect; KUpdate; KSelect; KUpdate]
      /\ world s' = column ++ [VObj t1; VObj t2]
      /\ Supabase.numberOfOperations (self s') = Supabase.numberOfOperations m + 2).
Proof.
  intros Hi Hr Hf1 Hf2 s. subst s.
  assert (Hcol : truthy (VArr column) = true) by reflexivity.
  split.
  - unfold Supabase.createDataUpdateCallback, Supabase.upload_promise,
      Supabase.addTrialData_start.
    rewrite Hf1, Hf2. unfold_calls. rewrite Hi, Hr. simpl.
    do 6 eexists.
    split; [reflexivity|]. split; [reflexivity|].
    simpl. rewrite Hi, Hr. simpl.
    split; [reflexivity|]. split; [reflexivity|].
    unfold Supabase.updatedTrials. unfold_calls. rewrite ?Hcol. simpl.
    split; [reflexivity|]. simpl.
    split; [reflexivity|].
    split; [|split].
    + simpl. rewrite !kinds_app. simpl. rewrite ?app_nil_r, <- ?app_assoc. reflexivity.
    + reflexivity.
    + simpl. lia.
  - unfold add_all. simpl. unfold Supabase.updatedTrials. unfold_calls.
    rewrite Hi, Hr. simpl. rewrite ?Hcol. simpl. rewrite Hi, Hr. simpl.
    assert (Hcol1 : truthy (VArr (column ++ [VObj t1])) = true) by reflexivity.
    rewrite ?Hcol1. simpl.
    eexists. split; [reflexivity|].
    split; [|split].
    + simpl. rewrite !kinds_app. simpl. rewrite ?app_nil_r, <- ?app_assoc. reflexivity.
    + unfold Stored.written. simpl. now rewrite <- app_assoc.
    + simpl. lia.
Qed.

Lemma uploads_started_together_lose_a_trial_witness :
  let s := Supabase.constructor Stored.env
             {| Supabase.opt_metadata := None; Supabase.opt_tableName := None;
                Supabase.opt_rowId := Some "r1" |} [] in
  (exists p1 s1 p2 s2 s3 s4,
      Supabase.upload_promise Stored.env 1 trial_t1 s = Some (Resolved p1, s1)
      /\ Supabase.createDataUpdateCallback Stored.env 1 trial_t1 s
         = Some (Resolved trial_t1, s1)
      /\ Supabase.upload_promise Stored.env 1 trial_t2 s1 = Some (Resolved p2, s2)
      /\ Supabase.createDataUpdateCallback Stored.env 1 trial_t2 s1
         = Some (Resolved trial_t2, s2)
      /\ resume p1 s2 = Some (Resolved tt, s3)
      /\ resume p2 s3 = Some (Resolved tt, s4)
      /\ kinds (trace s4) = [KSelect; KSelect; KUpdate; KUpdate]
      /\ world s4 = [VObj trial_t2]
      /\ Supabase.numberOfOperations (self s4) = 2)
  /\ (exists s',
      add_all Stored.env 1 [trial_t1; trial_t2] s = Some (Resolved tt, s')
      /\ kinds (trace s') = [KSelect; KUpdate; KSelect; KUpdate]
      /\ world s' = [VObj trial_t1; VObj trial_t2]
      /\ Supabase.numberOfOperations (self s') = 2).
Proof.
  intros s.
  exact (uploads_started_together_lose_a_trial (self s) trial_t1 trial_t2 [] (trace s)
           eq_refl eq_refl eq_refl eq_refl).
Defined.

(** ** A recovery that never ends *)

Section Vanish.
Context {W : Type} (env : Env W).
Hypothesis Hvanish : rows_vanish env.

Lemma vanishing_rows_exhaust_any_budget (fuel : nat) :
  (forall t (s : Sys Supabase.SupabaseManager W),
      Supabase.initialized (self s) = true ->
      truthy (Supabase.rowId (self s)) = true ->
      Supabase.addTrialData env fuel t s = None)
  /\ (forall data (s : Sys Supabase.SupabaseManager W),
      Supabase.initialized (self s) && truthy (Supabase.rowId (self s)) = false ->
      Supabase.pendingTrials (self s) <> [] ->
      Supabase.initializeExperiment env fuel data s = None).
Proof.
  destruct Hvanish as [Hins Hsel].
  induction fuel as [|fuel [IHadd IHinit]].
  - split; intros; reflexivity.
  - split.
    + intros t [m w tr] Hi Hr. simpl in Hi, Hr.
      destruct (Hsel (Supabase.tableName m) (Supabase.rowId m) w) as (e & He & Hcode).
      assert (Hrls : Supabase.is_rls_violation e = false).
      { unfold Supabase.is_rls_violation.
        rewrite (code_is_exclusive e "PGRST116" "42501" Hcode); [reflexivity|].
        discriminate. }
      run. rewrite Hi, Hr. simpl.
      destruct (select_trials_single env (Supabase.tableName m) (Supabase.rowId m) w)
        as [r w1].
      simpl in *. rewrite He. simpl. rewrite Hrls. simpl. rewrite Hcode.
      rewrite IHinit; [reflexivity | reflexivity |].
      simpl. destruct (Supabase.pendingTrials m); discriminate.
    + intros data [m w tr] Hpath Hq. simpl in Hpath, Hq.
      destruct (Hins (Supabase.tableName m)
                  (obj_lit [Supabase.metadata m; [("trials", VArr [])]; data]) w)
        as [He Hid].
      destruct (Supabase.pendingTrials m) as [|t q] eqn:Hpend; [contradiction|].
      run. rewrite Hpath. simpl.
      destruct (insert_select env (Supabase.tableName m)
                  (obj_lit [Supabase.metadata m; [("trials", VArr [])]; data]) w)
        as [r w1].
      simpl in *. rewrite He. simpl.
      destruct (Supabase.first_row_id (ins_data r)) as [id|] eqn:Eid; [|contradiction].
      simpl. rewrite Hpend. simpl. unfold bind at 1. cbv beta.
      rewrite IHadd; [reflexivity | reflexivity |].
      simpl. eapply first_row_id_truthy. exact Eid.
Qed.

End Vanish.

(** X15.  The recovery of the row store has no bound.  On a service where
    every insert returns a row identifier and every fetch reports, with
    [PGRST116], that the row is not found, [addTrialData] on a ready
    manager does not return within any budget of nested calls: each
    re-initialisation drains the trial it just queued, whose fetch fails
    again. *)
Theorem vanishing_rows_recovery_never_returns {W : Type} (env : Env W)
    (fuel : nat) (t : TrialData) (s : Sys Supabase.SupabaseManager W) :
  rows_vanish env ->
  Supabase.initialized (self s) = true ->
  truthy (Supabase.rowId (self s)) = true ->
  Supabase.addTrialData env fuel t s = None.
Proof.
  intros Hv Hi Hr.
  exact (proj1 (vanishing_rows_exhaust_any_budget env Hv fuel) t s Hi Hr).
Qed.

Lemma vanishing_rows_recovery_never_returns_witness :
  Supabase.addTrialData Vanishing.env 1000 trial_t1
    (Supabase.constructor Vanishing.env
       {| Supabase.opt_metadata := None; Supabase.opt_tableName := None;
          Supabase.opt_rowId := Some "r1" |} tt)
  = None.
Proof.
  apply vanishing_rows_recovery_never_returns.
  - split.
    + intros table row w. split; [reflexivity | discriminate].
    + intros table id w. exists Scripted.row_not_found. split; reflexivity.
  - reflexivity.
  - reflexivity.
Defined.

(** ** Row-level security *)

(** X16.  When the insert of [initializeExperiment] comes back with an
    error, the guidance on row-level security for the manager's table is
    printed once if the error has the code [42501] and a message that
    contains [violates row-level security policy], and not at all
    otherwise; in both cases the call rejects with the error's text and
    the manager is as before. *)
Theorem rls_violation_is_explained_once {W : Type} (env : Env W) (fuel : nat)
    (additionalData : obj) (s : Sys Supabase.SupabaseManager W)
    (r : InsertResponse) (e : Thrown) (w1 : W) :
  Supabase.initialized (self s) && truthy (Supabase.rowId (self s)) = false ->
  insert_select env (Supabase.tableName (self s))
    (obj_lit [Supabase.metadata (self s); [("trials", VArr [])]; additionalData])
    (world s) = (r, w1) ->
  ins_error r = Some e ->
  exists d,
    Supabase.initializeExperiment env (S fuel) additionalData s
    = Some (Rejected (new_Error ("Failed to initialize experiment data: "
                                 ++ error_text e)%string),
            mkSys (self s) w1 (trace s ++ d))
    /\ List.length (filter (is_rls_help (Supabase.tableName (self s))) d)
       = (if code_is e "42501"
             && includes (message e) "violates row-level security policy"
          then 1 else 0).
Proof.
  intros Hpath Hins He. destruct s as [m w tr]. simpl in *.
  run. rewrite Hpath. simpl. rewrite Hins. simpl. rewrite He. simpl.
  fold (Supabase.is_rls_violation e).
  destruct (Supabase.is_rls_violation e); run; trace_norm.
  - eexists. split; [reflexivity|]. simpl. now rewrite String.eqb_refl.
  - eexists. split; [reflexivity|]. reflexivity.
Qed.

Lemma rls_violation_is_explained_once_witness :
  let denied := {| instanceofError := false; code := Some "42501";
                   message := "new row violates row-level security policy" |} in
  let s := Supabase.constructor Scripted.env default_options
             [Scripted.OnInsert {| ins_data := None; ins_error := Some denied |}] in
  exists d,
    Supabase.initializeExperiment Scripted.env 1 [] s
    = Some (Rejected (new_Error "Failed to initialize experiment data: [object Object]"),
            mkSys (self s) [] (trace s ++ d))
    /\ List.length (filter (is_rls_help "experiments") d) = 1.
Proof.
  intros denied s.
  exact (rls_violation_is_explained_once Scripted.env 0 [] s
           {| ins_data := None; ins_error := Some denied |} denied []
           eq_refl eq_refl eq_refl).
Defined.

(** ** A session on the document store *)

Lemma appended_app (a b : list event) : appended (a ++ b) = appended a ++ appended b.
Proof.
  induction a as [|e a IH]; simpl; auto.
  destruct e; auto. destruct r; simpl; now rewrite ?IH.
Qed.

Lemma document_add_all_accepted {W : Type} (env : Env W) (ts : list TrialData) :
  documents_accepted env ->
  forall s : Sys Firebase.FirebaseManager W,
  exists w' d,
    document_add_all env ts s
    = Some (Resolved tt,
            mkSys {| Firebase.metadata := Firebase.metadata (self s);
                     Firebase.docRef := Firebase.docRef (self s);
                     Firebase.numberOfWrites :=
                       Firebase.numberOfWrites (self s) + List.length ts |}
                  w' (trace s ++ d))
    /\ kinds d = repeat KUpdateDoc (List.length ts)
    /\ appended d = map (fun t => VObj (Firebase.flattenNestedArrays t)) ts.
Proof.
  intros [_ Hupd]. induction ts as [|t ts IH]; intros [[md ref n] w tr].
  - exists w, []. simpl. unfold ret. rewrite Nat.add_0_r, app_nil_r. auto.
  - unfold document_add_all in *. simpl for_of. unfold bind at 1.
    unfold Firebase.addTrialData at 1.
    unfold bind, try_catch, emit, get_this, remote. simpl.
    pose proof (Hupd ref "trials" (VObj (Firebase.flattenNestedArrays t)) w) as Hacc.
    destruct (updateDoc_arrayUnion env ref "trials"
                (VObj (Firebase.flattenNestedArrays t)) w) as [r w1].
    simpl in Hacc. subst r. simpl.
    unfold Firebase.incr_writes, update_this, console, emit. simpl.
    match goal with
    | |- context [for_of ts _ ?st] => destruct (IH st) as (w' & d & Hrun & Hk & Ha)
    end.
    rewrite Hrun. simpl.
    eexists w', _. split.
    + rewrite <- !app_assoc. simpl. rewrite Nat.add_succ_r. reflexivity.
    + simpl. rewrite Hk, Ha. split; reflexivity.
Qed.

(** X17.  On a document service that accepts every write,
    [initializeExperiment] followed by [addTrialData] for each trial of a
    list resolves; it makes one [setDoc] and then one [updateDoc] per
    trial, appending the flattened trials in the order given; the write
    count grows by one plus the number of trials. *)
Theorem document_session_writes_every_trial {W : Type} (env : Env W)
    (additionalData : obj) (ts : list TrialData)
    (s : Sys Firebase.FirebaseManager W) :
  documents_accepted env ->
  exists s',
    (Firebase.initializeExperiment env additionalData ;;
     document_add_all env ts ;;
     Firebase.getNumberOfOperations) s
    = Some (Resolved (Firebase.numberOfWrites (self s) + 1 + List.length ts), s')
    /\ kinds (trace s') = kinds (trace s) ++ KSetDoc :: repeat KUpdateDoc (List.length ts)
    /\ appended (trace s')
       = appended (trace s) ++ map (fun t => VObj (Firebase.flattenNestedArrays t)) ts.
Proof.
  intros Hacc. pose proof Hacc as [Hset _].
  destruct s as [[md ref n] w tr].
  unfold bind at 1. unfold Firebase.initializeExperiment at 1.
  unfold bind, try_catch, emit, get_this, remote. simpl.
  pose proof (Hset ref (obj_lit [md; [("trials", VArr [])]; additionalData]) w) as Hr.
  destruct (setDoc env ref (obj_lit [md; [("trials", VArr [])]; additionalData]) w)
    as [r w1].
  simpl in Hr. subst r. simpl.
  unfold Firebase.incr_writes, update_this, console, emit. simpl.
  match goal with
  | |- context [document_add_all env ts ?st] =>
      destruct (document_add_all_accepted env ts Hacc st) as (w' & d & Hrun & Hk & Ha)
  end.
  rewrite Hrun. unfold Firebase.getNumberOfOperations, get_this, ret, bind. simpl.
  replace (S (n + List.length ts)) with (n + 1 + List.length ts) by lia.
  eexists. split; [|split].
  - reflexivity.
  - simpl. rewrite !kinds_app, Hk. simpl. rewrite <- !app_assoc. reflexivity.
  - simpl. rewrite !appended_app, Ha. simpl. now rewrite !app_nil_r.
Qed.

Lemma document_session_writes_every_trial_witness :
  let s := Firebase.constructor Accepting.env
             {| Firebase.opt_metadata := None; Firebase.collectionName := None;
                Firebase.documentId := Some "doc1" |} 0 in
  exists s',
    (Firebase.initializeExperiment Accepting.env [] ;;
     document_add_all Accepting.env
       [trial_t1; [("trial_type", VStr "t2"); ("keys", VArr [VStr "f"; VStr "j"])]] ;;
     Firebase.getNumberOfOperations) s
    = Some (Resolved 3, s')
    /\ kinds (trace s') = [KSetDoc; KUpdateDoc; KUpdateDoc]
    /\ appended (trace s')
       = [VObj trial_t1;
          VObj [("trial_type", VStr "t2");
                ("keys", VObj [("0", VStr "f"); ("1", VStr "j")])]].
Proof.
  intros s.
  assert (Hacc : documents_accepted Accepting.env) by (split; reflexivity).
  exact (document_session_writes_every_trial Accepting.env []
           [trial_t1; [("trial_type", VStr "t2"); ("keys", VArr [VStr "f"; VStr "j"])]]
           s Hacc).
Defined.
